(** * integrity-v2, folder preprocessor: a shallow embedding

    The folder preprocessor discovers files under a sync root, classifies and
    fingerprints them, uploads them to the webhook and records a per-path
    status row in the [file_status] table.  The repository snapshot holds
    several revisions of the same package; each revision that is reasoned
    about is embedded in a module of its own:

    - [Webhook]   : src/webhook/client.go
    - [Database]  : src/preprocessor/folder/database.go
    - [FileGo]    : src/preprocessor/folder/file.go
    - [Part003]   : src/unnamed/part_003
    - [Part005]   : src/unnamed/part_005
    - [Part004]   : src/unnamed/part_004

    [Common] holds the lines that part_003 and part_005 share word for word,
    [Demo] a small installation on which the definitions are run.

    Go values are modelled as follows.  A Go [string] is a Rocq [string] (a
    sequence of 8-bit characters), a [[]byte] is a [list byte], an [error] is
    the text its [Error()] method returns, a [(T, error)] result is a
    [result T], a nil-able pointer is an [option], a [map[string]T] is a
    [gmap string T].  Run-time panics (index out of range, nil dereference,
    failed type assertion) are an explicit outcome of the monad [M]. *)

From Stdlib Require Import ZArith NArith.
From Stdlib.Strings Require Import Ascii.
From Stdlib.Init Require Import Byte.
From Stdlib.Strings Require Byte String.
From Stdlib.Numbers Require DecimalString.
From stdpp Require Import base option list strings gmap.

Set Default Proof Using "Type".

(** ** Go results, errors and panics *)

Definition error := string.

Inductive result (A : Type) : Type :=
| Ok (a : A)
| Err (e : error).
Arguments Ok {A} a.
Arguments Err {A} e.

Inductive Res (A : Type) : Type :=
| Val (a : A)
| Panic (msg : string).
Arguments Val {A} a.
Arguments Panic {A} msg.

Definition index_out_of_range_0 : string :=
  "runtime error: index out of range [0] with length 0".
Definition nil_dereference : string :=
  "runtime error: invalid memory address or nil pointer dereference".

(** ** Strings and bytes *)

(** [fileName[0]]: the first byte of a Go string, [None] when it is empty. *)
Definition first_byte (s : string) : option ascii :=
  match s with
  | EmptyString => None
  | String c _ => Some c
  end.

(** encoding/hex: [hextable[v>>4]], [hextable[v&0x0f]] for every byte. *)
Definition hextable : string := "0123456789abcdef".

Definition hexdigit (n : N) : ascii :=
  default "0"%char (String.get (N.to_nat n) hextable).

Fixpoint hex_EncodeToString (src : list byte) : string :=
  match src with
  | [] => ""
  | v :: rest =>
      String (hexdigit (N.shiftr (Byte.to_N v) 4))
        (String (hexdigit (N.land (Byte.to_N v) 15))
           (hex_EncodeToString rest))
  end.

(** [fmt]'s [%d] verb on an [int]. *)
Definition fmt_d (z : Z) : string :=
  DecimalString.NilZero.string_of_int (Z.to_int z).

(** [strings.TrimPrefix]. *)
Fixpoint strip_prefix (p s : string) : option string :=
  match p, s with
  | EmptyString, _ => Some s
  | String a p', String b s' =>
      if Ascii.eqb a b then strip_prefix p' s' else None
  | String _ _, EmptyString => None
  end.

Definition strings_TrimPrefix (s prefix : string) : string :=
  default s (strip_prefix prefix s).

(** [path/filepath.Ext] on a Unix path: scan from the last byte towards the
    first, stop at a separator, return the suffix that starts at the first
    dot met.  [ext_scan] walks the reversed path and carries the bytes
    already passed. *)
Fixpoint ext_scan (rev_path : list ascii) (passed : list ascii) : list ascii :=
  match rev_path with
  | [] => []
  | c :: rest =>
      if Ascii.eqb c "/" then []
      else if Ascii.eqb c "." then c :: passed
      else ext_scan rest (c :: passed)
  end.

Definition filepath_Ext (path : string) : string :=
  String.string_of_list_ascii
    (ext_scan (rev (String.list_ascii_of_string path)) []).

(** [slices.Contains] on a [[]string]. *)
Definition slices_Contains (l : list string) (x : string) : bool :=
  bool_decide (x ∈ l).

(** ** Metadata values

    The dynamic values stored in a [map[string]any] metadata record. *)
Inductive Any : Type :=
| AString (s : string)
| AInt64 (z : Z)
| ATime (t : Z)
| AStringMap (m : gmap string string)
| ABytesMap (m : gmap string (list byte)).

Abbreviation Metadata := (gmap string Any).

(** The dynamic type of a value, as a failed type assertion prints it; a
    missing key yields the nil interface. *)
Definition dynamic_type (v : option Any) : string :=
  match v with
  | None => "nil"
  | Some (AString _) => "string"
  | Some (AInt64 _) => "int64"
  | Some (ATime _) => "time.Time"
  | Some (AStringMap _) => "map[string]string"
  | Some (ABytesMap _) => "map[string][]uint8"
  end.

(** [m[k].(string)]: the assertion panics on anything but a string. *)
Definition assert_string (v : option Any) : Res string :=
  match v with
  | Some (AString s) => Val s
  | _ =>
      Panic ("interface conversion: interface {} is " +:+ dynamic_type v
             +:+ ", not string")
  end.

(** ** JSON values, as [encoding/json] sees a response body *)
#[local] Unset Elimination Schemes.
Inductive JSON : Type :=
| JNull
| JBool (b : bool)
| JNumber (literal : string)
| JString (s : string)
| JArray (items : list JSON)
| JObject (members : list (string * JSON)).
#[local] Set Elimination Schemes.

Inductive Body : Type :=
| BodyJSON (v : JSON)
| BodyMalformed (e : error).

(** ** The outside world *)

Record FileInfo := {
  fi_Name : string;
  fi_Size : Z;
  fi_ModTime : Z;
}.

(** An [io.Reader]: the bytes it delivers and the offset at which reading
    starts to fail, if any. *)
Record Reader := {
  rd_bytes : list byte;
  rd_fault : option (nat * error);
}.

(** An open [*os.File]: what [Stat] answers, and the stream. *)
Record File := {
  f_Stat : result FileInfo;
  f_reader : Reader;
}.

(** A [*zip.File]: what [Open] answers. *)
Record ZipFile := {
  zf_Open : result Reader;
}.

(** One multipart request as the webhook server receives it. *)
Record Request := {
  req_url : string;
  req_content_type : string;
  req_authorization : option string;
  req_metadata_format : string;
  req_metadata : Metadata;
  req_file : list byte;
}.

Inductive HttpOutcome : Type :=
| TransportError (e : error)
| HttpResponse (StatusCode : Z) (body : Body).

(** A row of [file_status] (src/unnamed/part_002), keyed by [file_path],
    which is UNIQUE NOT NULL; the serial [id] is never read by the package
    and is left out. *)
Record Row := {
  row_sha256 : option string;
  row_status : string;
  row_error : option string;
  row_cid : option string;
  row_created_at : nat;
  row_updated_at : nat;
}.

(** What a run can observe of its own effects. *)
Inductive Event : Type :=
| EvDbQuery (file_path : string)
| EvDbExec (file_path : string) (status : string)
| EvFileOpen (path : string)
| EvFileRead (path : string)
| EvHash (path : string)
| EvSniff (path : string)
| EvProbe (path : string)
| EvVerify (path : string)
| EvZipOpen (path : string)
| EvHttpPost (req : Request).

(** The mutable part: the table, the clock behind [time.Now], the faults the
    next database statements meet (an empty list: none), and the effects
    performed so far. *)
Record World := {
  store : gmap string Row;
  clock : nat;
  db_faults : list (option error);
  trace : list Event;
}.

Definition set_store (f : gmap string Row → gmap string Row) (w : World) : World :=
  {| store := f (store w); clock := clock w;
     db_faults := db_faults w; trace := trace w |}.
Definition set_clock (c : nat) (w : World) : World :=
  {| store := store w; clock := c;
     db_faults := db_faults w; trace := trace w |}.
Definition set_db_faults (fs : list (option error)) (w : World) : World :=
  {| store := store w; clock := clock w;
     db_faults := fs; trace := trace w |}.
Definition add_event (e : Event) (w : World) : World :=
  {| store := store w; clock := clock w;
     db_faults := db_faults w; trace := trace w ++ [e] |}.

(** ** The monad of effectful Go code *)

Definition M (A : Type) : Type := World → Res A * World.

Definition ret {A} (a : A) : M A := λ w, (Val a, w).
Definition panic {A} (msg : string) : M A := λ w, (Panic msg, w).
Definition bind {A B} (m : M A) (k : A → M B) : M B :=
  λ w, match m w with
       | (Val a, w') => k a w'
       | (Panic msg, w') => (Panic msg, w')
       end.
Definition lift {A} (r : Res A) : M A := λ w, (r, w).

#[global] Instance M_ret : MRet M := @ret.
#[global] Instance M_bind : MBind M := λ A B k m, bind m k.

Definition emit (e : Event) : M unit := λ w, (Val tt, add_event e w).
Definition get_store : M (gmap string Row) := λ w, (Val (store w), w).
Definition modify_store (f : gmap string Row → gmap string Row) : M unit :=
  λ w, (Val tt, set_store f w).

(** [time.Now().UTC()]: read the clock, which then moves on. *)
Definition time_Now : M nat := λ w, (Val (clock w), set_clock (S (clock w)) w).

(** The fault, if any, that the next database statement meets. *)
Definition next_db_fault : M (option error) :=
  λ w, (Val (default None (head (db_faults w))),
        set_db_faults (tail (db_faults w)) w).

(** [*p] on a pointer that may be nil. *)
Definition deref {A} (p : option A) : M A :=
  match p with
  | Some a => ret a
  | None => panic nil_dereference
  end.

(** [for _, x := range l { body }] where the body may panic. *)
Fixpoint forM {A B} (l : list A) (body : A → M B) : M (list B) :=
  match l with
  | [] => ret []
  | x :: l' => y ← body x; ys ← forM l' body; ret (y :: ys)
  end.

(** ** Reading from a stream *)

(** Does a read that covers offsets [0 .. upto] meet the fault? *)
Definition fault_before (r : Reader) (upto : nat) : option error :=
  match rd_fault r with
  | Some (at_, e) => if bool_decide (at_ ≤ upto) then Some e else None
  | None => None
  end.

(** [io.ReadAll], [io.Copy]: read until end of file. *)
Definition read_all (r : Reader) : result (list byte) :=
  match fault_before r (length (rd_bytes r)) with
  | Some e => Err e
  | None => Ok (rd_bytes r)
  end.

(** One [Read] into a buffer of [size] bytes at offset 0: end of file on an
    empty stream, otherwise the bytes available before the buffer is full or
    the fault is met. *)
Definition read_once (r : Reader) (size : nat) : result (list byte) :=
  match rd_fault r with
  | Some (0, e) => Err e
  | Some (S at_, _) =>
      match rd_bytes r with
      | [] => Err "EOF"
      | _ => Ok (take (size `min` S at_) (rd_bytes r))
      end
  | None =>
      match rd_bytes r with
      | [] => Err "EOF"
      | _ => Ok (take size (rd_bytes r))
      end
  end.

(** [io.ReadAtLeast(r, buf, limit)] with [len(buf) = limit], where the
    caller accepts [io.EOF] and [io.ErrUnexpectedEOF]: at most [limit] bytes
    are taken from the stream. *)
Definition read_at_most (r : Reader) (limit : nat) : result (list byte) :=
  match fault_before r (length (rd_bytes r) `min` pred limit) with
  | Some e => Err e
  | None => Ok (take limit (rd_bytes r))
  end.

(** ** Collaborators outside the package

    Modelled from the spec: the verified asset and archive records that the
    verification collaborator of package [util] returns; the package is not
    part of the sources, the fields are the ones the folder preprocessor
    reads. *)
Record ProofModeAsset := {
  pm_FilePath : string;
  pm_FileModified : string;
  pm_FileCreated : string;
  pm_Sha256 : string;
  pm_Md5 : string;
  pm_Blake3 : string;
  pm_FileSize : Z;
  pm_AssetSignature : list byte;
  pm_MetadataBytes : list byte;
  pm_MetadataSignature : list byte;
  pm_PubKey : list byte;
  pm_Ots : list byte;
  pm_Gst : list byte;
}.

Record WaczMetadata := {
  wz_Modified : string;
  wz_Created : string;
  wz_MetadataBytes : list byte;
  wz_MetadataSignature : list byte;
  wz_PubKey : list byte;
}.

(** Configuration, file system, libraries, collaborators and the webhook
    server, as one invocation finds them. *)
Record Env := {
  cfg_SyncFolderRoot : string;
  cfg_FileExtensions : list string;
  cfg_WebhookHost : string;
  cfg_WebhookJwt : string;
  os_Open : string → result File;
  sha256_Sum : list byte → list byte;
  md5_Sum : list byte → list byte;
  blake3_Sum : list byte → list byte;
  http_DetectContentType : list byte → string;
  mimetype_String : list byte → string;
  time_Format_RFC3339 : Z → string;
  filepath_Base : string → string;
  filepath_Clean : string → string;
  filepath_Join : string → string → string;
  url_Parse : string → result string;
  multipart_boundary : string;
  util_CheckIsProofModeFile : string → bool;
  util_CheckIsWaczFile : string → bool;
  util_ReadAndVerifyProofModeMetadata : string → result (list ProofModeAsset);
  util_ReadAndVerifyWaczMetadata : string → result WaczMetadata;
  zip_OpenReader : string → result (list (string * ZipFile));
  util_GetProofModeZipFiles :
    list (string * ZipFile) → result (gmap string ZipFile);
  server : Request → HttpOutcome;
}.

(** ** src/webhook/client.go *)
Module Webhook.

Record PostGenericWebhookOpt := {
  Source : string;
  ProjectId : string;
  Format : string;
}.

Definition no_opts : PostGenericWebhookOpt :=
  {| Source := ""; ProjectId := ""; Format := "" |}.

Record PostGenericWebhookResponse := {
  Cid : string;
  Error : option error;
}.

(** *** [json.NewDecoder(resp.Body).Decode(&value)]

    [encoding/json] matches an object key with a struct field when the key
    equals the field's JSON name or differs from it by letter case only.
    For the names [cid] and [error] the ASCII fold below is the whole of
    that rule: no other letter folds to one of theirs. *)
Definition ascii_lower (c : ascii) : ascii :=
  let n := nat_of_ascii c in
  if bool_decide (65 ≤ n ≤ 90) then ascii_of_nat (n + 32) else c.

Fixpoint fold_name (s : string) : string :=
  match s with
  | EmptyString => EmptyString
  | String c s' => String (ascii_lower c) (fold_name s')
  end.

Definition key_is (key field : string) : bool :=
  bool_decide (fold_name key = field).

Definition json_kind (v : JSON) : string :=
  match v with
  | JNull => "null"
  | JBool _ => "bool"
  | JNumber _ => "number"
  | JString _ => "string"
  | JArray _ => "array"
  | JObject _ => "object"
  end.

Definition UnmarshalTypeError_field (v : JSON) (field type : string) : error :=
  "json: cannot unmarshal " +:+ json_kind v +:+
  " into Go struct field PostGenericWebhookResponse." +:+ field +:+
  " of type " +:+ type.

Definition UnmarshalTypeError_value (v : JSON) : error :=
  "json: cannot unmarshal " +:+ json_kind v +:+
  " into Go value of type webhook.PostGenericWebhookResponse".

(** The decoder keeps the first type error it meets and goes on. *)
Definition saveError (saved : option error) (e : error) : option error :=
  match saved with
  | Some _ => saved
  | None => Some e
  end.

(** One member of the object.  [Cid] has type [string]: a JSON string is
    stored, [null] is skipped, anything else is a type error.  [Error] has
    the interface type [error], which has a method: [null] stores nil and
    every other JSON value is a type error, the decoder having no concrete
    type to store it in. *)
Definition decode_member
    (st : PostGenericWebhookResponse * option error) (kv : string * JSON)
    : PostGenericWebhookResponse * option error :=
  let '(value, saved) := st in
  let '(key, v) := kv in
  if key_is key "cid" then
    match v with
    | JString s => ({| Cid := s; Error := Error value |}, saved)
    | JNull => (value, saved)
    | _ => (value, saveError saved (UnmarshalTypeError_field v "cid" "string"))
    end
  else if key_is key "error" then
    match v with
    | JNull => ({| Cid := Cid value; Error := None |}, saved)
    | _ => (value, saveError saved (UnmarshalTypeError_field v "error" "error"))
    end
  else (value, saved).

Definition Decode (body : Body) : result PostGenericWebhookResponse :=
  let zero := {| Cid := ""; Error := None |} in
  match body with
  | BodyMalformed e => Err e
  | BodyJSON JNull => Ok zero
  | BodyJSON (JObject members) =>
      match foldl decode_member (zero, None) members with
      | (value, None) => Ok value
      | (_, Some e) => Err e
      end
  | BodyJSON v => Err (UnmarshalTypeError_value v)
  end.

(** *** [PostFileToWebHook] *)

Definition sourcePath_of (opts : PostGenericWebhookOpt) : string :=
  if bool_decide (Source opts = "") then "generic" else Source opts.

Definition endpoint (env : Env) (opts : PostGenericWebhookOpt) : string :=
  "http://" +:+ cfg_WebhookHost env +:+ "/" +:+ sourcePath_of opts.

(** The request that [client.Do] sends once the body has delivered
    [bytes] of the file. *)
Definition newRequest (env : Env) (url : string) (metadata : Metadata)
    (opts : PostGenericWebhookOpt) (bytes : list byte) : Request :=
  let metadataFormatType :=
    if bool_decide (Format opts = "cbor")
    then "application/cbor" else "application/json" in
  let jwt := cfg_WebhookJwt env in
  {| req_url := url;
     req_content_type :=
       "multipart/form-data; boundary=" +:+ multipart_boundary env;
     req_authorization :=
       if bool_decide (jwt = "") then None else Some ("Bearer " +:+ jwt);
     req_metadata_format := metadataFormatType;
     req_metadata := metadata;
     req_file := bytes |}.

(** How [client.Do] reports a failure of the request to [url]. *)
Definition url_Error (url : string) (err : error) : error :=
  "Post " +:+ String (ascii_of_nat 34) url +:+ String (ascii_of_nat 34) ": "
  +:+ err.

(** The query built from [opts.ProjectId] is never written back into the
    URL, so the request goes to [url.String()] as parsed.  The body is
    streamed through a pipe by a producer goroutine; a failure of the
    producer, here a failing read of [file], closes the pipe with that
    error, which [client.Do] reports. *)
Definition PostFileToWebHook (env : Env) (file : Reader) (metadata : Metadata)
    (opts : PostGenericWebhookOpt) : M (result PostGenericWebhookResponse) :=
  match url_Parse env (endpoint env opts) with
  | Err err => mret (Err err)
  | Ok url =>
      match read_all file with
      | Err err =>
          emit (EvHttpPost
                  (newRequest env url metadata opts
                     (take (default 0 (fst <$> rd_fault file))
                        (rd_bytes file))));;
          mret (Err (url_Error url err))
      | Ok bytes =>
          let req := newRequest env url metadata opts bytes in
          emit (EvHttpPost req);;
          match server env req with
          | TransportError err => mret (Err err)
          | HttpResponse StatusCode body =>
              if bool_decide (StatusCode = 400%Z) then
                mret (Err "bad request")
              else if bool_decide (StatusCode = 404%Z) then
                mret (Err "bad request")
              else if bool_decide (StatusCode ≠ 200%Z) then
                mret (Err ("bad status code in response: "
                           +:+ fmt_d StatusCode))
              else
                match Decode body with
                | Err err => mret (Err err)
                | Ok value => mret (Ok value)
                end
          end
      end
  end.

End Webhook.

(** ** File status constants (part_003, part_004, part_005) *)
Definition FileStatusFound : string := "Found".
Definition FileStatusUploading : string := "Uploading".
Definition FileStatusSuccess : string := "Success".
Definition FileStatusError : string := "Error".

(** ** src/preprocessor/folder/database.go *)
Module Database.

Record ProjectQueryResult := {
  ProjectId : option string;
  ProjectPath : option string;
  AuthorType : option string;
  AuthorName : option string;
  AuthorIdentifier : option string;
}.

Record FileQueryResult := {
  Status : option string;
  Cid : option string;
  ErrorMessage : option string;
}.

(** What PostgreSQL answers to an INSERT that repeats a [file_path]. *)
Definition unique_violation : error :=
  "ERROR: duplicate key value violates unique constraint " +:+
  String (ascii_of_nat 34) "file_status_file_path_key" +:+
  String (ascii_of_nat 34) " (SQLSTATE 23505)".

(** [SELECT status, cid, error FROM file_status WHERE file_path = $1]:
    [pgx.ErrNoRows] becomes [(nil, nil)]; [status] is NOT NULL, so its
    pointer is never nil. *)
Definition queryIfFileExists (filePath : string)
    : M (result (option FileQueryResult)) :=
  emit (EvDbQuery filePath);;
  fault ← next_db_fault;
  match fault with
  | Some err => mret (Err err)
  | None =>
      rows ← get_store;
      match rows !! filePath with
      | None => mret (Ok None)
      | Some row =>
          mret (Ok (Some {| Status := Some (row_status row);
                            Cid := row_cid row;
                            ErrorMessage := row_error row |}))
      end
  end.

(** [INSERT INTO file_status (file_path, status, created_at, updated_at)]. *)
Definition setFileStatusFound (filePath : string) : M (option error) :=
  created_at ← time_Now;
  updated_at ← time_Now;
  emit (EvDbExec filePath FileStatusFound);;
  fault ← next_db_fault;
  match fault with
  | Some err => mret (Some err)
  | None =>
      rows ← get_store;
      match rows !! filePath with
      | Some _ => mret (Some unique_violation)
      | None =>
          modify_store
            (insert filePath
               {| row_sha256 := None; row_status := FileStatusFound;
                  row_error := None; row_cid := None;
                  row_created_at := created_at;
                  row_updated_at := updated_at |});;
          mret None
      end
  end.

(** An [UPDATE file_status SET ... WHERE file_path = $n]: no row, no change,
    no error. *)
Definition update_row (filePath status : string) (f : Row → Row)
    : M (option error) :=
  emit (EvDbExec filePath status);;
  fault ← next_db_fault;
  match fault with
  | Some err => mret (Some err)
  | None => modify_store (alter f filePath);; mret None
  end.

(** [SET status = $1, sha256 = $2, updated_at = $3]. *)
Definition setFileStatusUploading (filePath sha256 : string)
    : M (option error) :=
  updated_at ← time_Now;
  update_row filePath FileStatusUploading
    (λ row, {| row_sha256 := Some sha256; row_status := FileStatusUploading;
               row_error := row_error row; row_cid := row_cid row;
               row_created_at := row_created_at row;
               row_updated_at := updated_at |}).

(** [SET status = $1, cid = $2, updated_at = $3]. *)
Definition setFileStatusDone (filePath cid : string) : M (option error) :=
  updated_at ← time_Now;
  update_row filePath FileStatusSuccess
    (λ row, {| row_sha256 := row_sha256 row; row_status := FileStatusSuccess;
               row_error := row_error row; row_cid := Some cid;
               row_created_at := row_created_at row;
               row_updated_at := updated_at |}).

(** [SET status = $1, error = $2, updated_at = $3]; a failure is printed and
    returned. *)
Definition setFileStatusError (filePath errorMessage : string)
    : M (option error) :=
  updated_at ← time_Now;
  update_row filePath FileStatusError
    (λ row, {| row_sha256 := row_sha256 row; row_status := FileStatusError;
               row_error := Some errorMessage; row_cid := row_cid row;
               row_created_at := row_created_at row;
               row_updated_at := updated_at |}).

End Database.

(** ** src/preprocessor/folder/file.go *)
Module FileGo.

(** [mimetype.DetectReader] takes the header of the stream only: at most
    [readLimit] bytes, 3072 unless [mimetype.SetLimit] is called, which this
    package never does. *)
Definition mimetype_readLimit : nat := 3072.

(** The three [io.TeeReader]s copy to the hashes exactly what
    [mimetype.DetectReader] reads through them. *)
Definition getFileMetadata (env : Env) (filePath : string)
    : M (result Metadata) :=
  emit (EvFileOpen filePath);;
  match os_Open env filePath with
  | Err err => mret (Err err)
  | Ok file =>
      match f_Stat file with
      | Err err => mret (Err err)
      | Ok fileInfo =>
          emit (EvFileRead filePath);;
          emit (EvHash filePath);;
          match read_at_most (f_reader file) mimetype_readLimit with
          | Err err => mret (Err err)
          | Ok header =>
              mret (Ok (list_to_map [
                ("sha256", AString (hex_EncodeToString (sha256_Sum env header)));
                ("md5", AString (hex_EncodeToString (md5_Sum env header)));
                ("blake3", AString (hex_EncodeToString (blake3_Sum env header)));
                ("mimetype", AString (mimetype_String env header));
                ("fileSize", AInt64 (fi_Size fileInfo));
                ("fileName", AString (fi_Name fileInfo));
                ("fileLastModified", ATime (fi_ModTime fileInfo))]))
          end
      end
  end.

Definition checkShouldIncludeFile (env : Env) (info : FileInfo) : Res bool :=
  let whiteListExtension := cfg_FileExtensions env in
  let ignoreFileNamePrefix := "."%char in
  let ignoreFileSuffix := ".partial" in
  let fileName := fi_Name info in
  match first_byte fileName with
  | None => Panic index_out_of_range_0
  | Some c =>
      if Ascii.eqb c ignoreFileNamePrefix then Val false
      else
        let fileExt := filepath_Ext fileName in
        if bool_decide (fileExt = ignoreFileSuffix) then Val false
        else if slices_Contains whiteListExtension fileExt then Val true
        else Val false
  end.

End FileGo.

(** ** Code shared by part_003 and part_005 *)
Module Common.
Import Database.

(** The body of [if project != nil { ... }] for one metadata map (part_003
    lines 115-129, part_005 lines 189-203).  Both pointers are dereferenced
    without a check. *)
Definition annotate (project : ProjectQueryResult) (metadata : Metadata)
    : M Metadata :=
  project_id ← deref (ProjectId project);
  let metadata := <["project_id" := AString project_id]> metadata in
  project_path ← deref (ProjectPath project);
  let metadata := <["project_path" := AString project_path]> metadata in
  if bool_decide (AuthorType project ≠ None ∨ AuthorName project ≠ None
                  ∨ AuthorIdentifier project ≠ None) then
    let author : gmap string string := ∅ in
    let author :=
      match AuthorType project with
      | Some v => <["@type" := v]> author
      | None => author
      end in
    let author :=
      match AuthorName project with
      | Some v => <["name" := v]> author
      | None => author
      end in
    let author :=
      match AuthorIdentifier project with
      | Some v => <["identifier" := v]> author
      | None => author
      end in
    mret (<["author" := AStringMap author]> metadata)
  else mret metadata.

(** The locals [status], [errorMessage], [cid] after the query (part_003
    lines 76-87, part_005 lines 135-146). *)
Definition status_of (result : option FileQueryResult) : string :=
  match result with
  | Some r => default "" (Status r)
  | None => ""
  end.
Definition errorMessage_of (result : option FileQueryResult) : string :=
  match result with
  | Some r => default "" (ErrorMessage r)
  | None => ""
  end.
Definition cid_of (result : option FileQueryResult) : string :=
  match result with
  | Some r => default "" (Cid r)
  | None => ""
  end.

End Common.

(** ** src/unnamed/part_003 *)
Module Part003.
Import Database Common.

Definition getFileMetadata (env : Env) (filePath : string)
    : M (result Metadata) :=
  emit (EvFileOpen filePath);;
  match os_Open env filePath with
  | Err err => mret (Err err)
  | Ok file =>
      match f_Stat file with
      | Err err => mret (Err err)
      | Ok fileInfo =>
          emit (EvFileRead filePath);;
          emit (EvHash filePath);;
          match read_all (f_reader file) with
          | Err err => mret (Err err)
          | Ok bytes =>
              emit (EvSniff filePath);;
              let mediaType := http_DetectContentType env bytes in
              let modTime := time_Format_RFC3339 env (fi_ModTime fileInfo) in
              mret (Ok (list_to_map [
                ("sha256", AString (hex_EncodeToString (sha256_Sum env bytes)));
                ("md5", AString (hex_EncodeToString (md5_Sum env bytes)));
                ("blake3", AString (hex_EncodeToString (blake3_Sum env bytes)));
                ("media_type", AString mediaType);
                ("file_size", AInt64 (fi_Size fileInfo));
                ("file_name", AString (fi_Name fileInfo));
                ("last_modified", AString modTime);
                ("time_created", AString modTime)]))
          end
      end
  end.

Section handler.
Context (env : Env).

(** The uploader that the handler calls, [webhook.PostFileToWebHook] in the
    revision that takes the path of the file. *)
Variable PostFileToWebHook :
  string → Metadata → Webhook.PostGenericWebhookOpt →
  M (result Webhook.PostGenericWebhookResponse).

(** Lines 145-149.  [cid] is the local read from the table at line 76; the
    response's identifier is what the handler returns. *)
Definition finish (filePath cid : string)
    (resp : Webhook.PostGenericWebhookResponse) : M (string * option error) :=
  err ← setFileStatusDone filePath cid;
  match err with
  | Some err =>
      mret ("", Some ("error setting file status to done: " +:+ err))
  | None => mret (Webhook.Cid resp, None)
  end.

(** Lines 105-149: everything below the status switch. *)
Definition process (filePath : string)
    (project : option ProjectQueryResult) (cid : string)
    : M (string * option error) :=
  metadata ← getFileMetadata env filePath;
  match metadata with
  | Err err =>
      setFileStatusError filePath err;;
      mret ("", Some ("error getting metadata for file " +:+ filePath
                      +:+ ": " +:+ err))
  | Ok metadata =>
      metadata ←
        match project with
        | Some project => annotate project metadata
        | None => mret metadata
        end;
      sha256 ← lift (assert_string (metadata !! "sha256"));
      err ← setFileStatusUploading filePath sha256;
      match err with
      | Some err =>
          mret ("", Some ("error setting file status to uploading: " +:+ err))
      | None =>
          resp ← PostFileToWebHook filePath metadata Webhook.no_opts;
          match resp with
          | Err err =>
              setFileStatusError filePath err;;
              mret ("", Some ("error posting metadata for file " +:+ filePath
                              +:+ ": " +:+ err))
          | Ok resp => finish filePath cid resp
          end
      end
  end.

Definition handleNewFileWith (filePath : string)
    (project : option ProjectQueryResult) : M (string * option error) :=
  result ← queryIfFileExists filePath;
  match result with
  | Err err =>
      mret ("", Some ("error checking if file exists in database: " +:+ err))
  | Ok result =>
      let status := status_of result in
      let errorMessage := errorMessage_of result in
      let cid := cid_of result in
      if bool_decide (status = FileStatusFound) then
        process filePath project cid
      else if bool_decide (status = FileStatusUploading) then
        process filePath project cid
      else if bool_decide (status = FileStatusSuccess) then mret (cid, None)
      else if bool_decide (status = FileStatusError) then
        mret ("", Some ("file " +:+ filePath +:+ " has error: "
                        +:+ errorMessage))
      else
        err ← setFileStatusFound filePath;
        match err with
        | Some err =>
            mret ("", Some ("error setting file status to found: " +:+ err))
        | None => process filePath project cid
        end
  end.

End handler.

(** Modelled from the spec: the revision of [webhook.PostFileToWebHook] that
    part_003 calls takes the path of the file; it is not among the sources.
    It is modelled as opening the file and streaming it with the uploader of
    client.go, whose response type it shares. *)
Definition PostFileToWebHook (env : Env) (filePath : string)
    (metadata : Metadata) (opts : Webhook.PostGenericWebhookOpt)
    : M (result Webhook.PostGenericWebhookResponse) :=
  emit (EvFileOpen filePath);;
  match os_Open env filePath with
  | Err err => mret (Err err)
  | Ok file => Webhook.PostFileToWebHook env (f_reader file) metadata opts
  end.

(** The handler as the package links it. *)
Definition handleNewFile (env : Env) (filePath : string)
    (project : option ProjectQueryResult) : M (string * option error) :=
  handleNewFileWith env (PostFileToWebHook env) filePath project.

End Part003.

(** ** src/unnamed/part_005 *)
Module Part005.
Import Database Common.

(** The body of the loop over the verified assets (lines 41-63). *)
Definition assetMetadata (env : Env) (filePath : string)
    (asset : ProofModeAsset) : Metadata :=
  let mediaType := "application/zip" in
  let syncRoot := cfg_SyncFolderRoot env in
  let fileName := filepath_Base env (pm_FilePath asset) in
  list_to_map [
    ("sha256", AString (pm_Sha256 asset));
    ("md5", AString (pm_Md5 asset));
    ("blake3", AString (pm_Blake3 asset));
    ("file_size", AInt64 (pm_FileSize asset));
    ("file_name", AString fileName);
    ("last_modified", AString (pm_FileModified asset));
    ("time_created", AString (pm_FileCreated asset));
    ("asset_origin",
       AString (filepath_Join env (strings_TrimPrefix filePath syncRoot)
                  (pm_FilePath asset)));
    ("asset_signature", AString (hex_EncodeToString (pm_AssetSignature asset)));
    ("media_type", AString mediaType);
    ("proofmode", ABytesMap (list_to_map [
       ("metadata", pm_MetadataBytes asset);
       ("meta_sig", pm_MetadataSignature asset);
       ("media_sig", pm_AssetSignature asset);
       ("pubkey", pm_PubKey asset);
       ("ots", pm_Ots asset);
       ("gst", pm_Gst asset)]))].

Definition getProofModeFileMetadatas (env : Env) (filePath : string)
    : M (result (list Metadata)) :=
  emit (EvVerify filePath);;
  match util_ReadAndVerifyProofModeMetadata env filePath with
  | Err err => mret (Err err)
  | Ok assets => mret (Ok (assetMetadata env filePath <$> assets))
  end.

(** [io.Copy] into the [io.MultiWriter] of the three hashes reads the file to
    its end. *)
Definition getFileMetadata (env : Env) (filePath mediaType : string)
    : M (result Metadata) :=
  emit (EvFileOpen filePath);;
  match os_Open env filePath with
  | Err err => mret (Err err)
  | Ok file =>
      match f_Stat file with
      | Err err => mret (Err err)
      | Ok fileInfo =>
          emit (EvFileRead filePath);;
          emit (EvHash filePath);;
          match read_all (f_reader file) with
          | Err err => mret (Err err)
          | Ok bytes =>
              let syncRoot := cfg_SyncFolderRoot env in
              let modTime := time_Format_RFC3339 env (fi_ModTime fileInfo) in
              mret (Ok (list_to_map [
                ("sha256", AString (hex_EncodeToString (sha256_Sum env bytes)));
                ("md5", AString (hex_EncodeToString (md5_Sum env bytes)));
                ("blake3", AString (hex_EncodeToString (blake3_Sum env bytes)));
                ("file_size", AInt64 (fi_Size fileInfo));
                ("file_name", AString (fi_Name fileInfo));
                ("media_type", AString mediaType);
                ("last_modified", AString modTime);
                ("time_created", AString modTime);
                ("asset_origin",
                   AString (strings_TrimPrefix filePath syncRoot))]))
          end
      end
  end.

Definition checkFileType (env : Env) (filePath : string)
    : M (result (string * string)) :=
  let fileType := "generic" in
  emit (EvFileOpen filePath);;
  match os_Open env filePath with
  | Err err => mret (Err err)
  | Ok file =>
      emit (EvFileRead filePath);;
      match read_once (f_reader file) 512 with
      | Err err => mret (Err err)
      | Ok buffer =>
          emit (EvSniff filePath);;
          let mediaType := http_DetectContentType env buffer in
          if bool_decide (mediaType = "application/zip") then
            emit (EvProbe filePath);;
            let isProofMode := util_CheckIsProofModeFile env filePath in
            let fileType := if isProofMode then "proofmode" else fileType in
            mret (Ok (fileType, mediaType))
          else mret (Ok (fileType, mediaType))
      end
  end.

Section handler.
Context (env : Env).

(** The uploader that the handler calls, [webhook.PostFileToWebHook]. *)
Variable PostFileToWebHook :
  Reader → Metadata → Webhook.PostGenericWebhookOpt →
  M (result Webhook.PostGenericWebhookResponse).

(** The loop over the metadata records of a signed bundle (lines 225-244):
    [Ok cid] when the loop runs to its end, [Err e] when the handler returns
    the error [e] from inside it. *)
Fixpoint uploadAssets (filePath : string) (fileMap : gmap string ZipFile)
    (metadatas : list Metadata) (cid : string) : M (result string) :=
  match metadatas with
  | [] => mret (Ok cid)
  | metadata :: metadatas =>
      fileName ← lift (assert_string (metadata !! "file_name"));
      match fileMap !! fileName with
      | Some zipFile =>
          match zf_Open zipFile with
          | Err err =>
              setFileStatusError filePath err;;
              mret (Err ("error opening file " +:+ fileName +:+ " in zip: "
                         +:+ err))
          | Ok file =>
              resp ← PostFileToWebHook file metadata
                       {| Webhook.Source := ""; Webhook.ProjectId := "";
                          Webhook.Format := "cbor" |};
              match resp with
              | Err err =>
                  setFileStatusError filePath err;;
                  mret (Err ("error posting metadata for file " +:+ filePath
                             +:+ ": " +:+ err))
              | Ok resp => uploadAssets filePath fileMap metadatas (Webhook.Cid resp)
              end
          end
      | None =>
          setFileStatusError filePath
            ("file " +:+ fileName +:+ " not found in zip");;
          mret (Err ("file " +:+ fileName +:+ " not found in zip"))
      end
  end.

(** Lines 260-264. *)
Definition finish (filePath cid : string) : M (string * option error) :=
  err ← setFileStatusDone filePath cid;
  match err with
  | Some err =>
      mret ("", Some ("error setting file status to done: " +:+ err))
  | None => mret (cid, None)
  end.

(** Lines 212-264: the second switch on the file type, then the Success
    transition. *)
Definition uploadByType (filePath fileType : string)
    (metadatas : list Metadata) (first : Metadata) (cid : string)
    : M (string * option error) :=
  if bool_decide (fileType = "proofmode") then
    emit (EvZipOpen filePath);;
    match zip_OpenReader env filePath with
    | Err err =>
        setFileStatusError filePath err;;
        mret ("", Some ("error opening zip file " +:+ filePath +:+ ": "
                        +:+ err))
    | Ok zipListing =>
        match util_GetProofModeZipFiles env zipListing with
        | Err err =>
            setFileStatusError filePath err;;
            mret ("", Some ("error getting files from zip: " +:+ err))
        | Ok fileMap =>
            looped ← uploadAssets filePath fileMap metadatas cid;
            match looped with
            | Err err => mret ("", Some err)
            | Ok cid => finish filePath cid
            end
        end
    end
  else if bool_decide (fileType = "generic") then
    emit (EvFileOpen filePath);;
    match os_Open env filePath with
    | Err err =>
        setFileStatusError filePath err;;
        mret ("", Some ("error opening file " +:+ filePath +:+ ": " +:+ err))
    | Ok file =>
        resp ← PostFileToWebHook (f_reader file) first Webhook.no_opts;
        match resp with
        | Err err =>
            setFileStatusError filePath err;;
            mret ("", Some ("error posting metadata for file " +:+ filePath
                            +:+ ": " +:+ err))
        | Ok resp => finish filePath (Webhook.Cid resp)
        end
    end
  else finish filePath cid.

(** Lines 187-264: the project annotation of every record, the Uploading
    transition keyed by [metadatas[0]["sha256"].(string)], the uploads. *)
Definition upload (filePath : string) (project : option ProjectQueryResult)
    (fileType : string) (cid : string) (metadatas : list Metadata)
    : M (string * option error) :=
  metadatas ←
    match project with
    | Some project => forM metadatas (annotate project)
    | None => mret metadatas
    end;
  first ←
    match metadatas with
    | [] => panic index_out_of_range_0
    | first :: _ => mret first
    end;
  sha256 ← lift (assert_string (first !! "sha256"));
  err ← setFileStatusUploading filePath sha256;
  match err with
  | Some err =>
      mret ("", Some ("error setting file status to uploading: " +:+ err))
  | None => uploadByType filePath fileType metadatas first cid
  end.

(** Lines 164-264: everything below the status switch. *)
Definition process (filePath : string) (project : option ProjectQueryResult)
    (cid : string) : M (string * option error) :=
  checked ← checkFileType env filePath;
  match checked with
  | Err err =>
      setFileStatusError filePath err;;
      mret ("", Some ("error checking file type: " +:+ err))
  | Ok (fileType, mediaType) =>
      if bool_decide (fileType = "proofmode") then
        metadatas ← getProofModeFileMetadatas env filePath;
        match metadatas with
        | Err err =>
            setFileStatusError filePath err;;
            mret ("", Some ("error getting proofmode file metadatas: "
                            +:+ err))
        | Ok metadatas => upload filePath project fileType cid metadatas
        end
      else if bool_decide (fileType = "generic") then
        metadata ← getFileMetadata env filePath mediaType;
        match metadata with
        | Err err =>
            setFileStatusError filePath err;;
            mret ("", Some ("error getting file metadata: " +:+ err))
        | Ok metadata => upload filePath project fileType cid [metadata]
        end
      else upload filePath project fileType cid []
  end.

Definition handleNewFileWith (filePath : string)
    (project : option ProjectQueryResult) : M (string * option error) :=
  result ← queryIfFileExists filePath;
  match result with
  | Err err =>
      mret ("", Some ("error checking if file exists in database: " +:+ err))
  | Ok result =>
      let status := status_of result in
      let errorMessage := errorMessage_of result in
      let cid := cid_of result in
      if bool_decide (status = FileStatusFound) then
        process filePath project cid
      else if bool_decide (status = FileStatusUploading) then
        process filePath project cid
      else if bool_decide (status = FileStatusSuccess) then mret (cid, None)
      else if bool_decide (status = FileStatusError) then
        mret ("", Some ("file " +:+ filePath +:+ " has error: "
                        +:+ errorMessage))
      else
        err ← setFileStatusFound filePath;
        match err with
        | Some err =>
            mret ("", Some ("error setting file status to found: " +:+ err))
        | None => process filePath project cid
        end
  end.

End handler.

(** The handler as the package links it. *)
Definition handleNewFile (env : Env) (filePath : string)
    (project : option ProjectQueryResult) : M (string * option error) :=
  handleNewFileWith env (Webhook.PostFileToWebHook env) filePath project.

Definition checkShouldIncludeFile := FileGo.checkShouldIncludeFile.

End Part005.

(** ** src/unnamed/part_004 *)
Module Part004.

(** Modelled from the spec: the declarations of the project and file-status
    records of this revision are not among the sources; their fields are the
    ones part_004 reads, all of them plain strings, with the per-project
    extension allow-list. *)
Record ProjectQueryResult := {
  ProjectId : string;
  ProjectPath : string;
  AuthorType : string;
  AuthorName : string;
  AuthorIdentifier : string;
  FileExtensions : list string;
}.

Record FileQueryResult := {
  Status : string;
  Cid : string;
  ErrorMessage : string;
}.

(** Modelled from the spec: [queryAndSetFoundFileStatus] is not among the
    sources.  It is the store's claim-or-get: if the path is absent, one
    atomic statement inserts a row in state Found and returns it; if it is
    present, the existing row is returned unchanged. *)
Definition queryAndSetFoundFileStatus (filePath : string)
    : M (result (option FileQueryResult)) :=
  emit (EvDbQuery filePath);;
  fault ← next_db_fault;
  match fault with
  | Some err => mret (Err err)
  | None =>
      rows ← get_store;
      match rows !! filePath with
      | Some row =>
          mret (Ok (Some {| Status := row_status row;
                            Cid := default "" (row_cid row);
                            ErrorMessage := default "" (row_error row) |}))
      | None =>
          created_at ← time_Now;
          updated_at ← time_Now;
          emit (EvDbExec filePath FileStatusFound);;
          modify_store
            (insert filePath
               {| row_sha256 := None; row_status := FileStatusFound;
                  row_error := None; row_cid := None;
                  row_created_at := created_at;
                  row_updated_at := updated_at |});;
          mret (Ok (Some {| Status := FileStatusFound; Cid := "";
                            ErrorMessage := "" |}))
      end
  end.

(** Modelled from the spec: this revision's [setFileStatusUploading] takes
    no digest and is not among the sources; it moves the row to Uploading. *)
Definition setFileStatusUploading (filePath : string) : M (option error) :=
  updated_at ← time_Now;
  Database.update_row filePath FileStatusUploading
    (λ row, {| row_sha256 := row_sha256 row;
               row_status := FileStatusUploading;
               row_error := row_error row; row_cid := row_cid row;
               row_created_at := row_created_at row;
               row_updated_at := updated_at |}).

Definition setFileStatusDone := Database.setFileStatusDone.
Definition setFileStatusError := Database.setFileStatusError.

(** The body of the loop over the verified assets (lines 36-60). *)
Definition assetMetadata (env : Env) (filePath : string)
    (asset : ProofModeAsset) : Metadata :=
  let mediaType := "application/zip" in
  let syncRoot := filepath_Clean env (cfg_SyncFolderRoot env) in
  let fileName := filepath_Base env (pm_FilePath asset) in
  let assetOrigin :=
    filepath_Join env (strings_TrimPrefix filePath syncRoot)
      (pm_FilePath asset) in
  list_to_map [
    ("file_name", AString fileName);
    ("last_modified", AString (pm_FileModified asset));
    ("time_created", AString (pm_FileCreated asset));
    ("asset_origin", AString assetOrigin);
    ("asset_signature", AString (hex_EncodeToString (pm_AssetSignature asset)));
    ("media_type", AString mediaType);
    ("proofmode", ABytesMap (list_to_map [
       ("metadata", pm_MetadataBytes asset);
       ("meta_sig", pm_MetadataSignature asset);
       ("media_sig", pm_AssetSignature asset);
       ("pubkey", pm_PubKey asset);
       ("ots", pm_Ots asset);
       ("gst", pm_Gst asset)]))].

Definition getProofModeFileMetadatas (env : Env) (filePath : string)
    : M (result (list Metadata)) :=
  emit (EvVerify filePath);;
  match util_ReadAndVerifyProofModeMetadata env filePath with
  | Err err => mret (Err err)
  | Ok assets => mret (Ok (assetMetadata env filePath <$> assets))
  end.

Definition getWaczFileMetadata (env : Env) (filePath : string)
    : M (result Metadata) :=
  let mediaType := "application/wacz" in
  emit (EvVerify filePath);;
  match util_ReadAndVerifyWaczMetadata env filePath with
  | Err err => mret (Err err)
  | Ok metadata =>
      let syncRoot := cfg_SyncFolderRoot env in
      mret (Ok (list_to_map [
        ("last_modified", AString (wz_Modified metadata));
        ("time_created", AString (wz_Created metadata));
        ("asset_origin", AString (strings_TrimPrefix filePath syncRoot));
        ("asset_signature",
           AString (hex_EncodeToString (wz_MetadataSignature metadata)));
        ("media_type", AString mediaType);
        ("wacz", ABytesMap (list_to_map [
           ("metadata", wz_MetadataBytes metadata);
           ("meta_sig", wz_MetadataSignature metadata);
           ("pubkey", wz_PubKey metadata)]))]))
  end.

(** This revision computes no digest: the file is opened and [Stat]ed only. *)
Definition getFileMetadata (env : Env) (filePath mediaType : string)
    : M (result Metadata) :=
  emit (EvFileOpen filePath);;
  match os_Open env filePath with
  | Err err => mret (Err err)
  | Ok file =>
      match f_Stat file with
      | Err err => mret (Err err)
      | Ok fileInfo =>
          let syncRoot := filepath_Clean env (cfg_SyncFolderRoot env) in
          let assetOrigin :=
            filepath_Clean env (strings_TrimPrefix filePath syncRoot) in
          let modTime := time_Format_RFC3339 env (fi_ModTime fileInfo) in
          mret (Ok (list_to_map [
            ("media_type", AString mediaType);
            ("asset_origin", AString assetOrigin);
            ("file_name", AString (fi_Name fileInfo));
            ("last_modified", AString modTime);
            ("time_created", AString modTime)]))
      end
  end.

Definition checkFileType (env : Env) (filePath : string)
    : M (result (string * string)) :=
  let fileType := "generic" in
  emit (EvFileOpen filePath);;
  match os_Open env filePath with
  | Err err => mret (Err err)
  | Ok file =>
      emit (EvFileRead filePath);;
      match read_once (f_reader file) 512 with
      | Err err => mret (Err err)
      | Ok buffer =>
          emit (EvSniff filePath);;
          let mediaType := http_DetectContentType env buffer in
          if bool_decide (mediaType = "application/zip") then
            emit (EvProbe filePath);;
            let isProofMode := util_CheckIsProofModeFile env filePath in
            let fileType := if isProofMode then "proofmode" else fileType in
            emit (EvProbe filePath);;
            let isWacz := util_CheckIsWaczFile env filePath in
            let fileType := if isWacz then "wacz" else fileType in
            mret (Ok (fileType, mediaType))
          else mret (Ok (fileType, mediaType))
      end
  end.

(** The body of [for _, metadata := range metadatas] under
    [if project != nil] (lines 229-245). *)
Definition annotate (env : Env) (project : ProjectQueryResult)
    (metadata : Metadata) : Metadata :=
  let metadata := <["project_id" := AString (ProjectId project)]> metadata in
  let metadata :=
    <["project_path" := AString (filepath_Clean env (ProjectPath project))]>
      metadata in
  if bool_decide (AuthorType project ≠ "" ∨ AuthorName project ≠ ""
                  ∨ AuthorIdentifier project ≠ "") then
    let author : gmap string string := ∅ in
    let author :=
      if bool_decide (AuthorType project ≠ "")
      then <["@type" := AuthorType project]> author else author in
    let author :=
      if bool_decide (AuthorName project ≠ "")
      then <["name" := AuthorName project]> author else author in
    let author :=
      if bool_decide (AuthorIdentifier project ≠ "")
      then <["identifier" := AuthorIdentifier project]> author else author in
    <["author" := AStringMap author]> metadata
  else metadata.

(** The loop over the metadata records of a signed bundle (lines 265-290).
    In its [else] branch the only [err] in scope is the one assigned by
    [util.GetProofModeZipFiles], which is nil there: [err.Error()] is a nil
    dereference. *)
Fixpoint uploadAssets (env : Env) (filePath : string)
    (fileMap : gmap string ZipFile) (metadatas : list Metadata) (cid : string)
    : M (result string) :=
  match metadatas with
  | [] => mret (Ok cid)
  | metadata :: metadatas =>
      fileName ← lift (assert_string (metadata !! "file_name"));
      match fileMap !! fileName with
      | Some zipFile =>
          match zf_Open zipFile with
          | Err err =>
              setFileStatusError filePath err;;
              mret (Err ("error opening file " +:+ fileName +:+ " in zip: "
                         +:+ err))
          | Ok file =>
              resp ← Webhook.PostFileToWebHook env file metadata
                       {| Webhook.Source := ""; Webhook.ProjectId := "";
                          Webhook.Format := "cbor" |};
              match resp with
              | Err err =>
                  setFileStatusError filePath err;;
                  mret (Err ("error posting metadata for file " +:+ filePath
                             +:+ ": " +:+ err))
              | Ok resp =>
                  uploadAssets env filePath fileMap metadatas (Webhook.Cid resp)
              end
          end
      | None => panic nil_dereference
      end
  end.

(** [setFileStatusError] whose own failure is only logged, then the
    handler's error return. *)
Definition fail (filePath : string) (err : error) (msg : string)
    : M (string * option error) :=
  setFileStatusError filePath err;;
  mret ("", Some msg).

(** Lines 311-315. *)
Definition finish (filePath cid : string) : M (string * option error) :=
  err ← setFileStatusDone filePath cid;
  match err with
  | Some err =>
      mret ("", Some ("error setting file status to done: " +:+ err))
  | None => mret (cid, None)
  end.

(** Lines 248-315: the second switch on the file type, then the Success
    transition.  A Go [case] does not fall through: [case "wacz":] has an
    empty body. *)
Definition uploadByType (env : Env) (filePath fileType : string)
    (metadatas : list Metadata) (cid : string) : M (string * option error) :=
  if bool_decide (fileType = "proofmode") then
    emit (EvZipOpen filePath);;
    match zip_OpenReader env filePath with
    | Err err =>
        fail filePath err
          ("error opening zip file " +:+ filePath +:+ ": " +:+ err)
    | Ok zipListing =>
        match util_GetProofModeZipFiles env zipListing with
        | Err err =>
            fail filePath err ("error getting files from zip: " +:+ err)
        | Ok fileMap =>
            looped ← uploadAssets env filePath fileMap metadatas cid;
            match looped with
            | Err err => mret ("", Some err)
            | Ok cid => finish filePath cid
            end
        end
    end
  else if bool_decide (fileType = "wacz") then finish filePath cid
  else if bool_decide (fileType = "generic") then
    emit (EvFileOpen filePath);;
    match os_Open env filePath with
    | Err err =>
        fail filePath err
          ("error opening file " +:+ filePath +:+ ": " +:+ err)
    | Ok file =>
        first ←
          match metadatas with
          | [] => panic index_out_of_range_0
          | first :: _ => mret first
          end;
        resp ← Webhook.PostFileToWebHook env (f_reader file) first
                 Webhook.no_opts;
        match resp with
        | Err err =>
            fail filePath err
              ("error posting metadata for file " +:+ filePath +:+ ": "
               +:+ err)
        | Ok resp => finish filePath (Webhook.Cid resp)
        end
    end
  else finish filePath cid.

(** Lines 224-315: the Uploading transition, the project annotation of
    every record, the uploads. *)
Definition upload (env : Env) (filePath : string)
    (project : option ProjectQueryResult) (fileType : string) (cid : string)
    (metadatas : list Metadata) : M (string * option error) :=
  err ← setFileStatusUploading filePath;
  match err with
  | Some err =>
      mret ("", Some ("error setting file status to uploading: " +:+ err))
  | None =>
      let metadatas :=
        match project with
        | Some project => annotate env project <$> metadatas
        | None => metadatas
        end in
      uploadByType env filePath fileType metadatas cid
  end.

(** Lines 172-315: everything below the status switch. *)
Definition process (env : Env) (filePath : string)
    (project : option ProjectQueryResult) (cid : string)
    : M (string * option error) :=
  checked ← checkFileType env filePath;
  match checked with
  | Err err =>
      fail filePath err
        ("error checking file type for " +:+ filePath +:+ ": " +:+ err)
  | Ok (fileType, mediaType) =>
      if bool_decide (fileType = "proofmode") then
        metadatas ← getProofModeFileMetadatas env filePath;
        match metadatas with
        | Err err =>
            fail filePath err
              ("error getting proofmode file metadatas: " +:+ err)
        | Ok metadatas => upload env filePath project fileType cid metadatas
        end
      else if bool_decide (fileType = "wacz") then
        fileMetadata ← getFileMetadata env filePath mediaType;
        match fileMetadata with
        | Err err => fail filePath err ("error getting file metadata: " +:+ err)
        | Ok fileMetadata =>
            waczMetadata ← getWaczFileMetadata env filePath;
            match waczMetadata with
            | Err err =>
                fail filePath err
                  ("error getting wacz file metadatas: " +:+ err)
            | Ok waczMetadata =>
                upload env filePath project fileType cid
                  [waczMetadata ∪ fileMetadata]
            end
        end
      else if bool_decide (fileType = "generic") then
        metadata ← getFileMetadata env filePath mediaType;
        match metadata with
        | Err err => fail filePath err ("error getting file metadata: " +:+ err)
        | Ok metadata => upload env filePath project fileType cid [metadata]
        end
      else upload env filePath project fileType cid []
  end.

(** [project.FileExtensions] is read before any nil check of [project]. *)
Definition handleNewFile (env : Env) (filePath : string)
    (project : option ProjectQueryResult) : M (string * option error) :=
  project_ ← deref project;
  if bool_decide (0 < length (FileExtensions project_))
     && negb (slices_Contains (FileExtensions project_) (filepath_Ext filePath))
  then mret ("", None)
  else
    result ← queryAndSetFoundFileStatus filePath;
    match result with
    | Err err =>
        mret ("", Some ("error checking if file exists in database: " +:+ err))
    | Ok result =>
        let status := from_option Status "" result in
        let errorMessage := from_option ErrorMessage "" result in
        let cid := from_option Cid "" result in
        if bool_decide (status = FileStatusUploading) then
          process env filePath project cid
        else if bool_decide (status = FileStatusSuccess) then mret (cid, None)
        else if bool_decide (status = FileStatusError) then
          mret ("", Some ("file " +:+ filePath +:+ " has error: "
                          +:+ errorMessage))
        else process env filePath project cid
    end.

Definition shouldIncludeFile (fileName : string) : Res bool :=
  match first_byte fileName with
  | None => Panic index_out_of_range_0
  | Some c =>
      if Ascii.eqb c "." then Val false
      else
        let fileExt := filepath_Ext fileName in
        Val (negb (bool_decide (fileExt = ".partial")))
  end.

End Part004.

(** ** Specification-side definitions *)

(** The inclusion filter in the words of the specification: a file
    qualifies unless its name begins with the hidden-file marker, or its
    extension is the in-progress marker, or an allow-list is configured and
    the extension is absent from it. *)
Definition spec_includes (allowList : list string) (fileName : string) : bool :=
  negb (bool_decide (first_byte fileName = Some "."%char))
  && negb (bool_decide (filepath_Ext fileName = ".partial"))
  && match allowList with
     | [] => true
     | _ => bool_decide (filepath_Ext fileName ∈ allowList)
     end.

Definition terminal (row : Row) : Prop :=
  row_status row = FileStatusSuccess ∨ row_status row = FileStatusError.

(** A project row whose NOT NULL columns came back non-nil. *)
Definition well_formed (project : option Database.ProjectQueryResult) : Prop :=
  match project with
  | Some p =>
      is_Some (Database.ProjectId p) ∧ is_Some (Database.ProjectPath p)
  | None => True
  end.

(** A readable generic file.  The file opens, answers [Stat], is not empty
    and reads to its end without fault, so that the classifier and the
    fingerprinter of part_005 both succeed on it; and the classifier calls
    it generic: either its first 512 bytes do not sniff as a zip container,
    or they do and the probe does not recognise a signed bundle. *)
Record generic_file (env : Env) (path : string) (file : File)
    (info : FileInfo) : Prop := {
  gf_open : os_Open env path = Ok file;
  gf_stat : f_Stat file = Ok info;
  gf_fault : rd_fault (f_reader file) = None;
  gf_nonempty : rd_bytes (f_reader file) ≠ [];
  gf_generic :
    http_DetectContentType env (take 512 (rd_bytes (f_reader file)))
    = "application/zip" →
    util_CheckIsProofModeFile env path = false;
}.

(** A file that opens, reads and sniffs as a zip container which the probe
    recognises as a signed bundle. *)
Record bundle_file (env : Env) (path : string) (file : File) : Prop := {
  bf_open : os_Open env path = Ok file;
  bf_fault : rd_fault (f_reader file) = None;
  bf_nonempty : rd_bytes (f_reader file) ≠ [];
  bf_zip :
    http_DetectContentType env (take 512 (rd_bytes (f_reader file)))
    = "application/zip";
  bf_probe : util_CheckIsProofModeFile env path = true;
}.

(** The path is not in the table yet, or its row is in one of the two
    states from which the handler retries. *)
Definition retryable (w : World) (path : string) : Prop :=
  match store w !! path with
  | None => True
  | Some row =>
      row_status row = FileStatusFound ∨ row_status row = FileStatusUploading
  end.

(** An uploader that answers [r] to every readable stream posted with the
    default options, and leaves the table and the pending faults alone. *)
Definition post_returns
    (post : Reader → Metadata → Webhook.PostGenericWebhookOpt →
            M (result Webhook.PostGenericWebhookResponse))
    (r : result Webhook.PostGenericWebhookResponse) : Prop :=
  ∀ file metadata w, rd_fault file = None → ∃ w',
    post file metadata Webhook.no_opts w = (Val r, w')
    ∧ store w' = store w ∧ db_faults w' = db_faults w.

(** The same for an uploader that takes the path of the file, as part_003
    calls it. *)
Definition post_path_returns
    (post : string → Metadata → Webhook.PostGenericWebhookOpt →
            M (result Webhook.PostGenericWebhookResponse))
    (path : string) (r : result Webhook.PostGenericWebhookResponse) : Prop :=
  ∀ metadata w, ∃ w',
    post path metadata Webhook.no_opts w = (Val r, w')
    ∧ store w' = store w ∧ db_faults w' = db_faults w.

(** What client.go's uploader answers, by what the server does. *)
Definition verdict (outcome : HttpOutcome)
    : result Webhook.PostGenericWebhookResponse :=
  match outcome with
  | TransportError e => Err e
  | HttpResponse StatusCode body =>
      if bool_decide (StatusCode = 400 ∨ StatusCode = 404)%Z then
        Err "bad request"
      else if bool_decide (StatusCode ≠ 200%Z) then
        Err ("bad status code in response: " +:+ fmt_d StatusCode)
      else Webhook.Decode body
  end.

(** Every run of [m] either returns a value in [P] or panics with a
    message in [E]. *)
Definition sat {A} (m : M A) (P : A → Prop) (E : string → Prop) : Prop :=
  ∀ w, match fst (m w) with
       | Val a => P a
       | Panic msg => E msg
       end.

(** No run of [m] changes the row of [path], present or absent. *)
Definition frames {A} (path : string) (m : M A) : Prop :=
  ∀ w, store (snd (m w)) !! path = store w !! path.

(** A metadata record on which both type assertions of the handler
    succeed. *)
Definition asserted (m : Metadata) : Prop :=
  (∃ s, m !! "sha256" = Some (AString s))
  ∧ (∃ s, m !! "file_name" = Some (AString s)).

(** The identifier column of the path's row, if any. *)
Definition stored_cid (w : World) (path : string) : option string :=
  store w !! path ≫= row_cid.

Definition is_post (e : Event) : bool :=
  match e with
  | EvHttpPost _ => true
  | _ => false
  end.

(** A string of lowercase hexadecimal digits. *)
Definition lowercase_hex (s : string) : Prop :=
  Forall (λ c, c ∈ String.list_ascii_of_string hextable)
    (String.list_ascii_of_string s).

(** The next database statement meets no fault. *)
Definition next_statement_ok (w : World) : Prop :=
  default None (head (db_faults w)) = None.

(** The world once that statement has been issued as a query on [path]. *)
Definition after_query (path : string) (w : World) : World :=
  add_event (EvDbQuery path) (set_db_faults (tail (db_faults w)) w).

(** The per-project gate at the head of part_004's handler lets a path
    through: no allow-list, or the path's extension is on it. *)
Definition extension_allowed (project : Part004.ProjectQueryResult)
    (path : string) : Prop :=
  Part004.FileExtensions project = []
  ∨ filepath_Ext path ∈ Part004.FileExtensions project.

(** What the status query of database.go reports of a row. *)
Definition view (row : Row) : Database.FileQueryResult :=
  {| Database.Status := Some (row_status row);
     Database.Cid := row_cid row;
     Database.ErrorMessage := row_error row |}.

(** A run of the pipeline: the handler of part_005 called on one path after
    another, each call with the environment it finds.  A panic ends the
    process. *)
Record Invocation := {
  inv_env : Env;
  inv_path : string;
  inv_project : option Database.ProjectQueryResult;
}.

Fixpoint run (invocations : list Invocation) (w : World) : World :=
  match invocations with
  | [] => w
  | i :: rest =>
      match Part005.handleNewFile (inv_env i) (inv_path i) (inv_project i) w with
      | (Val _, w') => run rest w'
      | (Panic _, w') => w'
      end
  end.

(** The requests posted so far, oldest first. *)
Definition posts (w : World) : list Request :=
  omap (λ e, match e with EvHttpPost req => Some req | _ => None end) (trace w).

(** The type error, if any, that [Webhook.decode_member] meets on one
    member of the response object, and the identifier, if any, that it
    stores from it. *)
Definition member_error (kv : string * JSON) : option error :=
  let '(key, v) := kv in
  if Webhook.key_is key "cid" then
    match v with
    | JString _ | JNull => None
    | _ => Some (Webhook.UnmarshalTypeError_field v "cid" "string")
    end
  else if Webhook.key_is key "error" then
    match v with
    | JNull => None
    | _ => Some (Webhook.UnmarshalTypeError_field v "error" "error")
    end
  else None.

Definition member_cid (kv : string * JSON) : option string :=
  let '(key, v) := kv in
  if Webhook.key_is key "cid" then
    match v with
    | JString s => Some s
    | _ => None
    end
  else None.

(** A statement on the table followed by the status query on [path]: the
    statement's error and what the query reads back. *)
Definition then_query (op : M (option error)) (path : string)
    : M (option error * result (option Database.FileQueryResult)) :=
  err ← op; result ← Database.queryIfFileExists path; mret (err, result).

(** One of the four status constants. *)
Definition known_status (status : string) : Prop :=
  status ∈ [FileStatusFound; FileStatusUploading; FileStatusSuccess;
            FileStatusError].

(** No run of [m] changes what [f] observes of the world. *)
Definition preserves {A T} (f : World → T) (m : M A) : Prop :=
  ∀ w, f (snd (m w)) = f w.

(** What the statements of database.go depend on: the rows and the faults
    still to come. *)
Definition table (w : World) : gmap string Row * list (option error) :=
  (store w, db_faults w).

(** From a world in [P], [m] returns a value and a world in [Q], or panics
    in a world in [R]. *)
Definition hoare {A} (P : World → Prop) (m : M A) (Q : A → World → Prop)
    (R : World → Prop) : Prop :=
  ∀ w, P w → match m w with
             | (Val a, w') => Q a w'
             | (Panic _, w') => R w'
             end.

(** [msg] is some text followed by [e]: the shape of an error wrapped with
    [fmt.Errorf("...: %v", err)]. *)
Definition ends_with (msg e : string) : Prop := ∃ prefix, msg = prefix +:+ e.

(** The statements meet no fault and the row of [path] is in one of the
    two states from which the handler works. *)
Definition in_progress (path : string) (w : World) : Prop :=
  db_faults w = []
  ∧ ∃ row, store w !! path = Some row
           ∧ (row_status row = FileStatusFound
              ∨ row_status row = FileStatusUploading).

(** The row of [path] is in state Error and its message is the tail of
    [msg]. *)
Definition failed_with (path : string) (msg : string) (w : World) : Prop :=
  ∃ row e, store w !! path = Some row
           ∧ row_status row = FileStatusError
           ∧ row_error row = Some e ∧ ends_with msg e.

(** The handler's answer [(cid, err)] and the row of [path] tell the same
    story: no error and a row in state Success that carries [cid], or an
    error, no identifier and a row in state Error that carries the cause. *)
Definition settled (path : string) (r : string * option error) (w : World)
    : Prop :=
  match r.2 with
  | None =>
      ∃ row, store w !! path = Some row
             ∧ row_status row = FileStatusSuccess ∧ row_cid row = Some r.1
  | Some msg => r.1 = "" ∧ failed_with path msg w
  end.

(** The metadata record of a generic file: the digests of its content, its
    size and name as [Stat] reports them, the media type sniffed from its
    first 512 bytes and its origin under the sync root. *)
Definition fingerprinted (env : Env) (path : string) (file : File)
    (info : FileInfo) (m : Metadata) : Prop :=
  let content := rd_bytes (f_reader file) in
  m !! "sha256" = Some (AString (hex_EncodeToString (sha256_Sum env content)))
  ∧ m !! "md5" = Some (AString (hex_EncodeToString (md5_Sum env content)))
  ∧ m !! "blake3" = Some (AString (hex_EncodeToString (blake3_Sum env content)))
  ∧ m !! "file_size" = Some (AInt64 (fi_Size info))
  ∧ m !! "file_name" = Some (AString (fi_Name info))
  ∧ m !! "media_type"
    = Some (AString (http_DetectContentType env (take 512 content)))
  ∧ m !! "asset_origin"
    = Some (AString (strings_TrimPrefix path (cfg_SyncFolderRoot env))).

(** The project columns in a metadata record. *)
Definition labelled (project : option Database.ProjectQueryResult)
    (m : Metadata) : Prop :=
  match project with
  | Some p =>
      m !! "project_id" = AString <$> Database.ProjectId p
      ∧ m !! "project_path" = AString <$> Database.ProjectPath p
  | None => m !! "project_id" = None ∧ m !! "project_path" = None
  end.

(** The file cannot be opened, or its first read fails, with [e]. *)
Definition classification_fails (env : Env) (path : string) (e : error)
    : Prop :=
  match os_Open env path with
  | Err e' => e' = e
  | Ok file => read_once (f_reader file) 512 = Err e
  end.

(** The file cannot be opened, or [Stat] fails, or reading it to the end
    fails, with [e]. *)
Definition hashing_fails (env : Env) (path : string) (e : error) : Prop :=
  match os_Open env path with
  | Err e' => e' = e
  | Ok file =>
      match f_Stat file with
      | Err e' => e' = e
      | Ok _ => read_all (f_reader file) = Err e
      end
  end.

(** The classifier's verdict on [path], which no state of the world
    changes. *)
Definition classified (env : Env) (path : string)
    (fileType mediaType : string) : Prop :=
  ∀ w, fst (Part005.checkFileType env path w) = Val (Ok (fileType, mediaType)).

(** The handler of part_005 returns the error [text ++ e] and no
    identifier, leaves the row of [path] in state Error with message [e] and
    the identifier column as it was, and posts nothing. *)
Definition recorded_failure (env : Env) (path : string)
    (project : option Database.ProjectQueryResult) (w : World)
    (text : string) (e : error) : Prop :=
  ∃ w' row',
    Part005.handleNewFile env path project w
    = (Val ("", Some (text +:+ e)), w')
    ∧ store w' !! path = Some row'
    ∧ row_status row' = FileStatusError
    ∧ row_error row' = Some e
    ∧ row_cid row' = stored_cid w path
    ∧ posts w' = posts w.

(** What can go wrong on part_005 between the status switch and the
    upload, with the text that the handler puts before the cause: the file
    cannot be opened or its first read fails, in particular on an empty
    file, whose first read is the end of the file; a file classified generic
    cannot be stat'ed or read to its end; a file classified as a signed
    bundle does not verify. *)
Inductive early_failure (env : Env) (path : string) : string → error → Prop :=
| cannot_classify (e : error) :
    classification_fails env path e →
    early_failure env path "error checking file type: " e
| empty_file (file : File) :
    os_Open env path = Ok file →
    rd_bytes (f_reader file) = [] →
    rd_fault (f_reader file) = None →
    early_failure env path "error checking file type: " "EOF"
| cannot_hash (mediaType : string) (e : error) :
    classified env path "generic" mediaType →
    hashing_fails env path e →
    early_failure env path "error getting file metadata: " e
| cannot_verify (mediaType : string) (e : error) :
    classified env path "proofmode" mediaType →
    util_ReadAndVerifyProofModeMetadata env path = Err e →
    early_failure env path "error getting proofmode file metadatas: " e.

(** A row whose status is one of the four constants and whose columns hold
    what the status promises. *)
Definition consistent (row : Row) : Prop :=
  known_status (row_status row)
  ∧ (row_status row = FileStatusSuccess → is_Some (row_cid row))
  ∧ (row_status row = FileStatusError → is_Some (row_error row))
  ∧ (row_status row = FileStatusUploading → is_Some (row_sha256 row)).

(** [m] keeps the property [J] of the table, whether it returns or
    panics. *)
Definition keeps (J : gmap string Row → Prop) {A} (m : M A) : Prop :=
  hoare (λ w, J (store w)) m (λ _ w', J (store w')) (λ w', J (store w')).

(** The rows that the four statements of database.go write. *)
Definition found_row (created_at updated_at : nat) : Row :=
  {| row_sha256 := None; row_status := FileStatusFound;
     row_error := None; row_cid := None;
     row_created_at := created_at; row_updated_at := updated_at |}.

Definition uploading_row (sha256 : string) (updated_at : nat) (row : Row)
    : Row :=
  {| row_sha256 := Some sha256; row_status := FileStatusUploading;
     row_error := row_error row; row_cid := row_cid row;
     row_created_at := row_created_at row; row_updated_at := updated_at |}.

Definition done_row (cid : string) (updated_at : nat) (row : Row) : Row :=
  {| row_sha256 := row_sha256 row; row_status := FileStatusSuccess;
     row_error := row_error row; row_cid := Some cid;
     row_created_at := row_created_at row; row_updated_at := updated_at |}.

Definition error_row (msg : string) (updated_at : nat) (row : Row) : Row :=
  {| row_sha256 := row_sha256 row; row_status := FileStatusError;
     row_error := Some msg; row_cid := row_cid row;
     row_created_at := row_created_at row; row_updated_at := updated_at |}.

(** A property of the table that each of the four statements keeps. *)
Record statement_invariant (J : gmap string Row → Prop) : Prop := {
  si_found : ∀ rows path c u,
    rows !! path = None → J rows → J (<[path := found_row c u]> rows);
  si_uploading : ∀ rows path sha256 u,
    J rows → J (alter (uploading_row sha256 u) path rows);
  si_done : ∀ rows path cid u, J rows → J (alter (done_row cid u) path rows);
  si_error : ∀ rows path msg u, J rows → J (alter (error_row msg u) path rows);
}.

(** A byte that is neither the dot nor the path separator. *)
Definition plain (c : ascii) : bool :=
  negb (Ascii.eqb c ".") && negb (Ascii.eqb c "/").

(** What [filepath.Ext] can return: nothing, or a dot followed by plain
    bytes. *)
Definition extension_shaped (e : string) : bool :=
  match e with
  | EmptyString => true
  | String c tail =>
      Ascii.eqb c "." && forallb plain (String.list_ascii_of_string tail)
  end.

(** The verdict of part_004's classifier on [path], which no state of the
    world changes. *)
Definition classified004 (env : Env) (path : string)
    (fileType mediaType : string) : Prop :=
  ∀ w, fst (Part004.checkFileType env path w) = Val (Ok (fileType, mediaType)).

(** The handler of part_004 returns the identifier the row already had (the
    empty one for a new path) with no error, leaves the row in state Success
    with that identifier, and posts nothing. *)
Definition success_without_upload (env : Env) (path : string)
    (project : Part004.ProjectQueryResult) (w : World) : Prop :=
  ∃ w' row',
    Part004.handleNewFile env path (Some project) w
    = (Val (default "" (stored_cid w path), None), w')
    ∧ store w' !! path = Some row'
    ∧ row_status row' = FileStatusSuccess
    ∧ row_cid row' = Some (default "" (stored_cid w path))
    ∧ posts w' = posts w.

(** The two kinds of file that part_004 carries to the Success transition
    with nothing to upload: a web archive that opens, answers [Stat] and
    whose metadata is read and verified; a signed bundle that verifies with
    no asset, and whose zip opens and yields its file map. *)
Inductive nothing_to_upload004 (env : Env) (path : string) : Prop :=
| web_archive (mediaType : string) (file : File) (info : FileInfo)
    (archive : WaczMetadata) :
    classified004 env path "wacz" mediaType →
    os_Open env path = Ok file →
    f_Stat file = Ok info →
    util_ReadAndVerifyWaczMetadata env path = Ok archive →
    nothing_to_upload004 env path
| empty_bundle (mediaType : string) (listing : list (string * ZipFile))
    (fileMap : gmap string ZipFile) :
    classified004 env path "proofmode" mediaType →
    util_ReadAndVerifyProofModeMetadata env path = Ok [] →
    zip_OpenReader env path = Ok listing →
    util_GetProofModeZipFiles env listing = Ok fileMap →
    nothing_to_upload004 env path.

(** The metadata record that part_004 builds for a generic file: no digest
    and no size. *)
Definition described004 (env : Env) (path : string) (mediaType : string)
    (info : FileInfo) (m : Metadata) : Prop :=
  m !! "media_type" = Some (AString mediaType)
  ∧ m !! "asset_origin"
    = Some (AString (filepath_Clean env
                       (strings_TrimPrefix path
                          (filepath_Clean env (cfg_SyncFolderRoot env)))))
  ∧ m !! "file_name" = Some (AString (fi_Name info))
  ∧ m !! "last_modified"
    = Some (AString (time_Format_RFC3339 env (fi_ModTime info)))
  ∧ m !! "time_created"
    = Some (AString (time_Format_RFC3339 env (fi_ModTime info)))
  ∧ m !! "sha256" = None ∧ m !! "md5" = None ∧ m !! "blake3" = None
  ∧ m !! "file_size" = None.









(** ** A small installation, for running the definitions

    One sync root with a ten-byte note, an empty signed bundle, a web
    archive and a video of 3073 bytes.  The
    digest functions stand in for the cryptographic ones, which the
    development never unfolds. *)
Module Demo.

(** The parity of the input's length, then the input, cut or padded to
    [n] bytes. *)
Definition pad_digest (n : nat) (bs : list byte) : list byte :=
  take n ((if Nat.even (length bs) then x00 else x01)
          :: bs ++ replicate n x00).

Definition note_bytes : list byte := String.list_byte_of_string "ten bytes!".
Definition zip_magic : list byte := [x50; x4b; x03; x04].
Definition video_bytes : list byte := replicate 3073 x2a.

Definition sniff (bs : list byte) : string :=
  match bs with
  | x50 :: x4b :: x03 :: x04 :: _ => "application/zip"
  | _ => "text/plain; charset=utf-8"
  end.

Definition file_of (name : string) (bs : list byte) : File :=
  {| f_Stat := Ok {| fi_Name := name; fi_Size := Z.of_nat (length bs);
                     fi_ModTime := 0 |};
     f_reader := {| rd_bytes := bs; rd_fault := None |} |}.

Definition open (path : string) : result File :=
  if bool_decide (path = "/data/note.txt") then
    Ok (file_of "note.txt" note_bytes)
  else if bool_decide (path = "/data/bundle.zip") then
    Ok (file_of "bundle.zip" zip_magic)
  else if bool_decide (path = "/data/video.mp4") then
    Ok (file_of "video.mp4" video_bytes)
  else if bool_decide (path = "/data/site.wacz") then
    Ok (file_of "site.wacz" zip_magic)
  else Err ("open " +:+ path +:+ ": no such file or directory").

Definition env_with (extensions : list string)
    (server : Request → HttpOutcome) : Env :=
  {| cfg_SyncFolderRoot := "/data";
     cfg_FileExtensions := extensions;
     cfg_WebhookHost := "localhost:8080";
     cfg_WebhookJwt := "";
     os_Open := open;
     sha256_Sum := pad_digest 32;
     md5_Sum := pad_digest 16;
     blake3_Sum := pad_digest 32;
     http_DetectContentType := sniff;
     mimetype_String := sniff;
     time_Format_RFC3339 := λ _, "1970-01-01T00:00:00Z";
     filepath_Base := λ p, p;
     filepath_Clean := λ p, p;
     filepath_Join := λ a b, a +:+ "/" +:+ b;
     url_Parse := λ u, Ok u;
     multipart_boundary := "boundary";
     util_CheckIsProofModeFile := λ p, bool_decide (p = "/data/bundle.zip");
     util_CheckIsWaczFile := λ p, bool_decide (p = "/data/site.wacz");
     util_ReadAndVerifyProofModeMetadata := λ _, Ok [];
     util_ReadAndVerifyWaczMetadata := λ p,
       if bool_decide (p = "/data/site.wacz") then
         Ok {| wz_Modified := "1970-01-01T00:00:00Z";
               wz_Created := "1970-01-01T00:00:00Z";
               wz_MetadataBytes := []; wz_MetadataSignature := [];
               wz_PubKey := [] |}
       else Err "not a wacz file";
     zip_OpenReader := λ _, Ok [];
     util_GetProofModeZipFiles := λ _, Ok ∅;
     server := server |}.

Definition reply (status : Z) (members : list (string * JSON)) : Request → HttpOutcome :=
  λ _, HttpResponse status (BodyJSON (JObject members)).

(** The server stores the file and answers with its identifier. *)
Definition env : Env :=
  env_with [".txt"] (reply 200 [("cid", JString "bafy123")]).

(** The server answers 200 and reports an error of its own. *)
Definition env_server_error : Env :=
  env_with [".txt"]
    (reply 200 [("cid", JString "bafy123"); ("error", JString "quota exceeded")]).

Definition project : Database.ProjectQueryResult :=
  {| Database.ProjectId := Some "p1"; Database.ProjectPath := Some "/data";
     Database.AuthorType := Some "Person"; Database.AuthorName := None;
     Database.AuthorIdentifier := None |}.

Definition project004 (extensions : list string) : Part004.ProjectQueryResult :=
  {| Part004.ProjectId := "p1"; Part004.ProjectPath := "/data";
     Part004.AuthorType := ""; Part004.AuthorName := "";
     Part004.AuthorIdentifier := ""; Part004.FileExtensions := extensions |}.

Definition world (rows : gmap string Row) : World :=
  {| store := rows; clock := 7; db_faults := []; trace := [] |}.

Definition row (status : string) (cid err : option string) : Row :=
  {| row_sha256 := Some "00"; row_status := status; row_error := err;
     row_cid := cid; row_created_at := 1; row_updated_at := 2 |}.

Definition w_fresh : World := world ∅.
Definition w_success : World :=
  world {[ "/data/note.txt" := row FileStatusSuccess (Some "bafy123") None ]}.
Definition w_error : World :=
  world {[ "/data/note.txt" := row FileStatusError None (Some "EOF") ]}.

End Demo.

(** The installation of [Demo] with a signed bundle that verifies with the
    given assets and whose zip holds the given entries. *)
Definition bundle_env (assets : list ProofModeAsset)
    (entries : gmap string ZipFile) : Env :=
  {| cfg_SyncFolderRoot := cfg_SyncFolderRoot Demo.env;
     cfg_FileExtensions := cfg_FileExtensions Demo.env;
     cfg_WebhookHost := cfg_WebhookHost Demo.env;
     cfg_WebhookJwt := cfg_WebhookJwt Demo.env;
     os_Open := os_Open Demo.env;
     sha256_Sum := sha256_Sum Demo.env;
     md5_Sum := md5_Sum Demo.env;
     blake3_Sum := blake3_Sum Demo.env;
     http_DetectContentType := http_DetectContentType Demo.env;
     mimetype_String := mimetype_String Demo.env;
     time_Format_RFC3339 := time_Format_RFC3339 Demo.env;
     filepath_Base := filepath_Base Demo.env;
     filepath_Clean := filepath_Clean Demo.env;
     filepath_Join := filepath_Join Demo.env;
     url_Parse := url_Parse Demo.env;
     multipart_boundary := multipart_boundary Demo.env;
     util_CheckIsProofModeFile := util_CheckIsProofModeFile Demo.env;
     util_CheckIsWaczFile := util_CheckIsWaczFile Demo.env;
     util_ReadAndVerifyProofModeMetadata := λ _, Ok assets;
     util_ReadAndVerifyWaczMetadata := util_ReadAndVerifyWaczMetadata Demo.env;
     zip_OpenReader := zip_OpenReader Demo.env;
     util_GetProofModeZipFiles := λ _, Ok entries;
     server := server Demo.env |}.

(** One asset of a bundle, a photograph of four bytes. *)
Definition photo : ProofModeAsset :=
  {| pm_FilePath := "photo.jpg";
     pm_FileModified := "1970-01-01T00:00:00Z";
     pm_FileCreated := "1970-01-01T00:00:00Z";
     pm_Sha256 := "9f"; pm_Md5 := "1c"; pm_Blake3 := "7a";
     pm_FileSize := 4;
     pm_AssetSignature := [x01]; pm_MetadataBytes := [x02];
     pm_MetadataSignature := [x03]; pm_PubKey := [x04];
     pm_Ots := []; pm_Gst := [] |}.

Definition photo_entry : ZipFile :=
  {| zf_Open := Ok {| rd_bytes := [xff; xd8; xff; xe0]; rd_fault := None |} |}.

(** The record that part_005 sends for the note of [Demo] under
    [Demo.project], and the request that carries it. *)
Definition note_metadata : Metadata :=
  <["author" := AStringMap {[ "@type" := "Person" ]}]>
    (<["project_path" := AString "/data"]>
       (<["project_id" := AString "p1"]>
          (list_to_map [
             ("sha256", AString (hex_EncodeToString
                                   (Demo.pad_digest 32 Demo.note_bytes)));
             ("md5", AString (hex_EncodeToString
                                (Demo.pad_digest 16 Demo.note_bytes)));
             ("blake3", AString (hex_EncodeToString
                                   (Demo.pad_digest 32 Demo.note_bytes)));
             ("file_size", AInt64 10);
             ("file_name", AString "note.txt");
             ("media_type", AString "text/plain; charset=utf-8");
             ("last_modified", AString "1970-01-01T00:00:00Z");
             ("time_created", AString "1970-01-01T00:00:00Z");
             ("asset_origin", AString "/note.txt")]))).

Definition note_request : Request :=
  {| req_url := "http://localhost:8080/generic";
     req_content_type := "multipart/form-data; boundary=boundary";
     req_authorization := None;
     req_metadata_format := "application/json";
     req_metadata := note_metadata;
     req_file := Demo.note_bytes |}.

(** The installation of [Demo] with three damaged files more: an empty
    one, one of 600 bytes whose reading breaks off at byte 550, and a zip
    container that the probe takes for a signed bundle but that does not
    verify. *)
Definition damaged_open (path : string) : result File :=
  if bool_decide (path = "/data/empty.txt") then
    Ok (Demo.file_of "empty.txt" [])
  else if bool_decide (path = "/data/torn.txt") then
    Ok {| f_Stat := Ok {| fi_Name := "torn.txt"; fi_Size := 600;
                          fi_ModTime := 0 |};
          f_reader := {| rd_bytes := replicate 600 x2a;
                         rd_fault := Some (550, "input/output error") |} |}
  else if bool_decide (path = "/data/forged.zip") then
    Ok (Demo.file_of "forged.zip" Demo.zip_magic)
  else Demo.open path.

Definition damaged_env : Env :=
  {| cfg_SyncFolderRoot := cfg_SyncFolderRoot Demo.env;
     cfg_FileExtensions := cfg_FileExtensions Demo.env;
     cfg_WebhookHost := cfg_WebhookHost Demo.env;
     cfg_WebhookJwt := cfg_WebhookJwt Demo.env;
     os_Open := damaged_open;
     sha256_Sum := sha256_Sum Demo.env;
     md5_Sum := md5_Sum Demo.env;
     blake3_Sum := blake3_Sum Demo.env;
     http_DetectContentType := http_DetectContentType Demo.env;
     mimetype_String := mimetype_String Demo.env;
     time_Format_RFC3339 := time_Format_RFC3339 Demo.env;
     filepath_Base := filepath_Base Demo.env;
     filepath_Clean := filepath_Clean Demo.env;
     filepath_Join := filepath_Join Demo.env;
     url_Parse := url_Parse Demo.env;
     multipart_boundary := multipart_boundary Demo.env;
     util_CheckIsProofModeFile := λ p, bool_decide (p = "/data/forged.zip");
     util_CheckIsWaczFile := util_CheckIsWaczFile Demo.env;
     util_ReadAndVerifyProofModeMetadata := λ _, Err "signature mismatch";
     util_ReadAndVerifyWaczMetadata := util_ReadAndVerifyWaczMetadata Demo.env;
     zip_OpenReader := zip_OpenReader Demo.env;
     util_GetProofModeZipFiles := util_GetProofModeZipFiles Demo.env;
     server := server Demo.env |}.

(** * Properties *)

(** ** Running the monad *)

Lemma bind_run {A B} (m : M A) (k : A → M B) (w : World) :
  (m ≫= k) w =
    match m w with
    | (Val a, w') => k a w'
    | (Panic msg, w') => (Panic msg, w')
    end.
Proof. reflexivity. Qed.

Lemma bind_val {A B} (m : M A) (k : A → M B) (w w' : World) (a : A) :
  m w = (Val a, w') → (m ≫= k) w = k a w'.
Proof. intros H. rewrite bind_run, H. reflexivity. Qed.

Lemma bind_panic {A B} (m : M A) (k : A → M B) (w w' : World) msg :
  m w = (Panic msg, w') → (m ≫= k) w = (Panic msg, w').
Proof. intros H. rewrite bind_run, H. reflexivity. Qed.

Lemma ret_run {A} (a : A) (w : World) : (mret a : M A) w = (Val a, w).
Proof. reflexivity. Qed.

(** ** The status query *)

Lemma queryIfFileExists_run (path : string) (w : World) :
  Database.queryIfFileExists path w =
    (Val match default None (head (db_faults w)) with
         | Some err => Err err
         | None => Ok (view <$> store w !! path)
         end,
     after_query path w).
Proof.
  unfold Database.queryIfFileExists, after_query, next_db_fault, emit,
    get_store, mbind, M_bind, bind, mret, M_ret, ret.
  unfold set_db_faults, add_event; simpl.
  destruct (default None (head (db_faults w))); simpl; [reflexivity|].
  destruct (store w !! path); reflexivity.
Qed.

Lemma queryAndSetFoundFileStatus_present (path : string) (w : World) row :
  store w !! path = Some row →
  next_statement_ok w →
  Part004.queryAndSetFoundFileStatus path w =
    (Val (Ok (Some {| Part004.Status := row_status row;
                      Part004.Cid := default "" (row_cid row);
                      Part004.ErrorMessage := default "" (row_error row) |})),
     after_query path w).
Proof.
  intros Hrow Hok.
  unfold Part004.queryAndSetFoundFileStatus, after_query, next_db_fault, emit,
    get_store, mbind, M_bind, bind, mret, M_ret, ret.
  unfold set_db_faults, add_event; simpl.
  rewrite Hok; simpl. rewrite Hrow. reflexivity.
Qed.

(** ** The replay policy on a terminal status *)

Lemma status_switch_005 env post path project w row :
  store w !! path = Some row →
  next_statement_ok w →
  Part005.handleNewFileWith env post path project w =
    if bool_decide (row_status row = FileStatusFound) then
      Part005.process env post path project (default "" (row_cid row))
        (after_query path w)
    else if bool_decide (row_status row = FileStatusUploading) then
      Part005.process env post path project (default "" (row_cid row))
        (after_query path w)
    else if bool_decide (row_status row = FileStatusSuccess) then
      (Val (default "" (row_cid row), None), after_query path w)
    else if bool_decide (row_status row = FileStatusError) then
      (Val ("", Some ("file " +:+ path +:+ " has error: "
                      +:+ default "" (row_error row))),
       after_query path w)
    else
      (err ← Database.setFileStatusFound path;
       match err with
       | Some err =>
           mret ("", Some ("error setting file status to found: " +:+ err))
       | None =>
           Part005.process env post path project (default "" (row_cid row))
       end) (after_query path w).
Proof.
  intros Hrow Hok. unfold Part005.handleNewFileWith.
  rewrite bind_run, queryIfFileExists_run, Hok, Hrow. simpl.
  repeat case_bool_decide; reflexivity.
Qed.

Lemma status_switch_003 env post path project w row :
  store w !! path = Some row →
  next_statement_ok w →
  Part003.handleNewFileWith env post path project w =
    if bool_decide (row_status row = FileStatusFound) then
      Part003.process env post path project (default "" (row_cid row))
        (after_query path w)
    else if bool_decide (row_status row = FileStatusUploading) then
      Part003.process env post path project (default "" (row_cid row))
        (after_query path w)
    else if bool_decide (row_status row = FileStatusSuccess) then
      (Val (default "" (row_cid row), None), after_query path w)
    else if bool_decide (row_status row = FileStatusError) then
      (Val ("", Some ("file " +:+ path +:+ " has error: "
                      +:+ default "" (row_error row))),
       after_query path w)
    else
      (err ← Database.setFileStatusFound path;
       match err with
       | Some err =>
           mret ("", Some ("error setting file status to found: " +:+ err))
       | None =>
           Part003.process env post path project (default "" (row_cid row))
       end) (after_query path w).
Proof.
  intros Hrow Hok. unfold Part003.handleNewFileWith.
  rewrite bind_run, queryIfFileExists_run, Hok, Hrow. simpl.
  repeat case_bool_decide; reflexivity.
Qed.

(** C3 (as amended).  When the stored status of a path is Error and the
    status query goes through, the handler (part_005 and part_003 alike, whatever the
    project and the environment) returns the error
    [file <path> has error: <stored message>]; the table is left as it was
    and the only effect performed is that one query: no file is opened,
    read, hashed, sniffed or verified and no request is posted. *)
Theorem C3_error_status_short_circuits
    (env : Env) (path : string) (project : option Database.ProjectQueryResult)
    (w : World) (row : Row) :
  store w !! path = Some row →
  row_status row = FileStatusError →
  next_statement_ok w →
  let outcome :=
    (Val ("", Some ("file " +:+ path +:+ " has error: "
                    +:+ default "" (row_error row))),
     after_query path w) in
  Part005.handleNewFile env path project w = outcome
  ∧ Part003.handleNewFile env path project w = outcome
  ∧ store (after_query path w) = store w
  ∧ trace (after_query path w) = trace w ++ [EvDbQuery path].
Proof.
  intros Hrow Hst Hok outcome. subst outcome.
  unfold Part005.handleNewFile, Part003.handleNewFile.
  rewrite (status_switch_005 _ _ _ _ _ _ Hrow Hok).
  rewrite (status_switch_003 _ _ _ _ _ _ Hrow Hok).
  rewrite Hst. repeat split; reflexivity.
Qed.

Lemma C3_witness :
  let outcome :=
    (Val ("", Some "file /data/note.txt has error: EOF"),
     after_query "/data/note.txt" Demo.w_error) in
  Part005.handleNewFile Demo.env "/data/note.txt" (Some Demo.project)
    Demo.w_error = outcome
  ∧ Part003.handleNewFile Demo.env "/data/note.txt" (Some Demo.project)
      Demo.w_error = outcome
  ∧ store (after_query "/data/note.txt" Demo.w_error) = store Demo.w_error
  ∧ trace (after_query "/data/note.txt" Demo.w_error)
    = trace Demo.w_error ++ [EvDbQuery "/data/note.txt"].
Proof.
  apply (C3_error_status_short_circuits Demo.env "/data/note.txt"
           (Some Demo.project) Demo.w_error
           (Demo.row FileStatusError None (Some "EOF")));
    vm_compute; reflexivity.
Defined.

(** C3, the claim as stated fails when the status query itself fails: the
    row of [/data/note.txt] is in state Error with the stored message
    [EOF], the query meets a refused connection, and the handler, of
    part_005 and part_003 alike, returns the error of the query, which does
    not carry the stored message. *)
Lemma C3_counterexample :
  let w := set_db_faults [Some "connection refused"] Demo.w_error in
  let refused :=
    Val ("", Some ("error checking if file exists in database: "
                   +:+ "connection refused")) in
  store w !! "/data/note.txt"
    = Some (Demo.row FileStatusError None (Some "EOF"))
  ∧ fst (Part005.handleNewFile Demo.env "/data/note.txt"
           (Some Demo.project) w) = refused
  ∧ fst (Part003.handleNewFile Demo.env "/data/note.txt"
           (Some Demo.project) w) = refused.
Proof. repeat split; vm_compute; reflexivity. Qed.

Lemma gate_004 env path project w :
  Part004.handleNewFile env path (Some project) w =
    if bool_decide (extension_allowed project path) then
      (result ← Part004.queryAndSetFoundFileStatus path;
       match result with
       | Err err =>
           mret ("", Some ("error checking if file exists in database: "
                           +:+ err))
       | Ok result =>
           let status := from_option Part004.Status "" result in
           let errorMessage := from_option Part004.ErrorMessage "" result in
           let cid := from_option Part004.Cid "" result in
           if bool_decide (status = FileStatusUploading) then
             Part004.process env path (Some project) cid
           else if bool_decide (status = FileStatusSuccess) then
             mret (cid, None)
           else if bool_decide (status = FileStatusError) then
             mret ("", Some ("file " +:+ path +:+ " has error: "
                             +:+ errorMessage))
           else Part004.process env path (Some project) cid
       end) w
    else (Val ("", None), w).
Proof.
  unfold Part004.handleNewFile, extension_allowed, slices_Contains.
  rewrite bind_run. simpl.
  destruct (Part004.FileExtensions project) as [|x l] eqn:Hx; simpl.
  - reflexivity.
  - destruct (decide (filepath_Ext path ∈ x :: l)) as [Hin|Hin].
    + rewrite (bool_decide_eq_true_2 _ Hin); simpl.
      rewrite bool_decide_eq_true_2 by (by right). reflexivity.
    + rewrite (bool_decide_eq_false_2 _ Hin); simpl.
      rewrite bool_decide_eq_false_2; [reflexivity|].
      intros [?|?]; [discriminate|contradiction].
Qed.

(** C2 (as amended).  When the stored status of a path is Success and the
    status query goes through, the handler of part_005 returns the stored
    content identifier, leaves the table as it was and performs no effect
    but that one query (no hashing, no classification, no upload).  The
    handler of part_004 does the same for a path that passes the project's
    extension gate; for a path that does not, it returns the empty
    identifier with no error before touching anything at all. *)
Theorem C2_success_status_short_circuits
    (env : Env) (path : string) (w : World) (row : Row) :
  store w !! path = Some row →
  row_status row = FileStatusSuccess →
  next_statement_ok w →
  let stored := (Val (default "" (row_cid row), None), after_query path w) in
  (∀ project, Part005.handleNewFile env path project w = stored)
  ∧ (∀ project, extension_allowed project path →
       Part004.handleNewFile env path (Some project) w = stored)
  ∧ (∀ project, ¬ extension_allowed project path →
       Part004.handleNewFile env path (Some project) w = (Val ("", None), w))
  ∧ store (after_query path w) = store w
  ∧ trace (after_query path w) = trace w ++ [EvDbQuery path].
Proof.
  intros Hrow Hst Hok stored. subst stored. repeat split.
  - intros project. unfold Part005.handleNewFile.
    rewrite (status_switch_005 _ _ _ _ _ _ Hrow Hok), Hst. reflexivity.
  - intros project Hallowed. rewrite gate_004.
    rewrite (bool_decide_eq_true_2 _ Hallowed).
    rewrite bind_run, (queryAndSetFoundFileStatus_present _ _ _ Hrow Hok).
    simpl. rewrite Hst. reflexivity.
  - intros project Hclosed. rewrite gate_004.
    rewrite (bool_decide_eq_false_2 _ Hclosed). reflexivity.
Qed.

Lemma C2_witness :
  let stored :=
    (Val ("bafy123", None), after_query "/data/note.txt" Demo.w_success) in
  (∀ project,
     Part005.handleNewFile Demo.env "/data/note.txt" project Demo.w_success
     = stored)
  ∧ (∀ project, extension_allowed project "/data/note.txt" →
       Part004.handleNewFile Demo.env "/data/note.txt" (Some project)
         Demo.w_success = stored)
  ∧ (∀ project, ¬ extension_allowed project "/data/note.txt" →
       Part004.handleNewFile Demo.env "/data/note.txt" (Some project)
         Demo.w_success = (Val ("", None), Demo.w_success))
  ∧ store (after_query "/data/note.txt" Demo.w_success) = store Demo.w_success
  ∧ trace (after_query "/data/note.txt" Demo.w_success)
    = trace Demo.w_success ++ [EvDbQuery "/data/note.txt"].
Proof.
  apply (C2_success_status_short_circuits Demo.env "/data/note.txt"
           Demo.w_success
           (Demo.row FileStatusSuccess (Some "bafy123") None));
    vm_compute; reflexivity.
Defined.

(** C2, the claim as stated fails on part_004: the row of
    [/data/note.txt] is in state Success with identifier [bafy123], the
    project admits [.jpg] only, and the handler returns the empty
    identifier instead of the stored one. *)
Lemma C2_counterexample :
  store Demo.w_success !! "/data/note.txt"
    = Some (Demo.row FileStatusSuccess (Some "bafy123") None)
  ∧ Part004.handleNewFile Demo.env "/data/note.txt"
      (Some (Demo.project004 [".jpg"])) Demo.w_success
    = (Val ("", None), Demo.w_success).
Proof. split; vm_compute; reflexivity. Qed.

(** ** The inclusion filter *)

Lemma checkShouldIncludeFile_nonempty env info :
  fi_Name info ≠ "" →
  FileGo.checkShouldIncludeFile env info =
    Val (negb (bool_decide (first_byte (fi_Name info) = Some "."%char))
         && negb (bool_decide (filepath_Ext (fi_Name info) = ".partial"))
         && bool_decide (filepath_Ext (fi_Name info) ∈ cfg_FileExtensions env)).
Proof.
  intros Hne. unfold FileGo.checkShouldIncludeFile, slices_Contains.
  destruct (fi_Name info) as [|c rest]; [congruence|].
  simpl first_byte. cbv beta iota zeta.
  destruct (Ascii.eqb c "."%char) eqn:Hc.
  - apply Ascii.eqb_eq in Hc as ->.
    rewrite (bool_decide_eq_true_2 (Some "."%char = Some "."%char)) by done.
    reflexivity.
  - apply Ascii.eqb_neq in Hc.
    rewrite (bool_decide_eq_false_2 (Some c = Some "."%char)) by congruence.
    simpl negb. rewrite andb_true_l.
    case_bool_decide; simpl; [reflexivity|].
    case_bool_decide; reflexivity.
Qed.

Lemma shouldIncludeFile_nonempty fileName :
  fileName ≠ "" →
  Part004.shouldIncludeFile fileName =
    Val (negb (bool_decide (first_byte fileName = Some "."%char))
         && negb (bool_decide (filepath_Ext fileName = ".partial"))).
Proof.
  intros Hne. unfold Part004.shouldIncludeFile.
  destruct fileName as [|c rest]; [congruence|].
  simpl first_byte. cbv beta iota zeta.
  destruct (Ascii.eqb c "."%char) eqn:Hc.
  - apply Ascii.eqb_eq in Hc as ->.
    rewrite (bool_decide_eq_true_2 (Some "."%char = Some "."%char)) by done.
    reflexivity.
  - apply Ascii.eqb_neq in Hc.
    rewrite (bool_decide_eq_false_2 (Some c = Some "."%char)) by congruence.
    reflexivity.
Qed.

(** On part_004 a file goes through [shouldIncludeFile] at discovery and
    through the project's extension gate in the handler: the two together
    are the specification's filter for the project's allow-list. *)
Lemma two_stage_filter_004 project path fileName :
  fileName ≠ "" →
  filepath_Ext path = filepath_Ext fileName →
  Part004.shouldIncludeFile fileName = Val true
  ∧ extension_allowed project path
  ↔ spec_includes (Part004.FileExtensions project) fileName = true.
Proof.
  intros Hname Hext.
  rewrite (shouldIncludeFile_nonempty fileName Hname).
  unfold spec_includes, extension_allowed. rewrite Hext.
  destruct (Part004.FileExtensions project) as [|x l].
  - rewrite andb_true_r. split.
    + intros [[= ->] _]. reflexivity.
    + intros ->. split; [reflexivity|by left].
  - rewrite andb_true_iff, bool_decide_eq_true. split.
    + intros [[= ->] [?|?]]; [discriminate|by split].
    + intros [-> ?]. split; [reflexivity|by right].
Qed.

(** C5 (as amended).  For a file with a non-empty name,
    [checkShouldIncludeFile] accepts exactly when the name does not begin
    with ['.'], the extension is not [.partial] and the extension is in the
    configured allow-list: it agrees with the specification's filter when
    the allow-list is non-empty, and accepts no file when the allow-list is
    empty.  [shouldIncludeFile] of part_004 consults no allow-list: it
    accepts exactly when the name does not begin with ['.'] and the
    extension is not [.partial], which is the specification's filter with
    no allow-list configured; together with the extension gate of the
    handler it is the specification's filter for the project's
    allow-list. *)
Theorem C5_inclusion_filter (env : Env) (info : FileInfo) (fileName : string) :
  fi_Name info ≠ "" →
  fileName ≠ "" →
  FileGo.checkShouldIncludeFile env info =
    Val (negb (bool_decide (first_byte (fi_Name info) = Some "."%char))
         && negb (bool_decide (filepath_Ext (fi_Name info) = ".partial"))
         && bool_decide (filepath_Ext (fi_Name info) ∈ cfg_FileExtensions env))
  ∧ (cfg_FileExtensions env ≠ [] →
       FileGo.checkShouldIncludeFile env info =
         Val (spec_includes (cfg_FileExtensions env) (fi_Name info)))
  ∧ (cfg_FileExtensions env = [] →
       FileGo.checkShouldIncludeFile env info = Val false)
  ∧ Part004.shouldIncludeFile fileName =
      Val (negb (bool_decide (first_byte fileName = Some "."%char))
           && negb (bool_decide (filepath_Ext fileName = ".partial")))
  ∧ Part004.shouldIncludeFile fileName = Val (spec_includes [] fileName)
  ∧ (∀ project path,
       filepath_Ext path = filepath_Ext fileName →
       Part004.shouldIncludeFile fileName = Val true
       ∧ extension_allowed project path
       ↔ spec_includes (Part004.FileExtensions project) fileName = true).
Proof.
  intros Hinfo Hname.
  pose proof (checkShouldIncludeFile_nonempty env info Hinfo) as Hcheck.
  pose proof (shouldIncludeFile_nonempty fileName Hname) as Hshould.
  split; [exact Hcheck|]. split; [|split; [|split; [exact Hshould|split]]].
  - intros Hlist. rewrite Hcheck. unfold spec_includes.
    destruct (cfg_FileExtensions env); [congruence|reflexivity].
  - intros Hlist. rewrite Hcheck, Hlist.
    rewrite (bool_decide_eq_false_2 (_ ∈ [])).
    + by rewrite andb_false_r.
    + apply not_elem_of_nil.
  - rewrite Hshould. unfold spec_includes. by rewrite andb_true_r.
  - intros project path Hext. by apply two_stage_filter_004.
Qed.

Lemma C5_witness :
  let env := Demo.env in
  let info := {| fi_Name := "video.mp4.partial"; fi_Size := 1; fi_ModTime := 0 |} in
  let fileName := "video.mp4" in
  FileGo.checkShouldIncludeFile env info =
    Val (negb (bool_decide (first_byte (fi_Name info) = Some "."%char))
         && negb (bool_decide (filepath_Ext (fi_Name info) = ".partial"))
         && bool_decide (filepath_Ext (fi_Name info) ∈ cfg_FileExtensions env))
  ∧ (cfg_FileExtensions env ≠ [] →
       FileGo.checkShouldIncludeFile env info =
         Val (spec_includes (cfg_FileExtensions env) (fi_Name info)))
  ∧ (cfg_FileExtensions env = [] →
       FileGo.checkShouldIncludeFile env info = Val false)
  ∧ Part004.shouldIncludeFile fileName =
      Val (negb (bool_decide (first_byte fileName = Some "."%char))
           && negb (bool_decide (filepath_Ext fileName = ".partial")))
  ∧ Part004.shouldIncludeFile fileName = Val (spec_includes [] fileName)
  ∧ (∀ project path,
       filepath_Ext path = filepath_Ext fileName →
       Part004.shouldIncludeFile fileName = Val true
       ∧ extension_allowed project path
       ↔ spec_includes (Part004.FileExtensions project) fileName = true).
Proof.
  apply (C5_inclusion_filter Demo.env
           {| fi_Name := "video.mp4.partial"; fi_Size := 1; fi_ModTime := 0 |}
           "video.mp4"); simpl; congruence.
Defined.

(** C5, the claim as stated fails on [checkShouldIncludeFile]: with no
    allow-list configured, [video.mp4] is neither hidden nor in progress,
    the specification's filter lets it qualify, and the code rejects it. *)
Lemma C5_counterexample :
  spec_includes [] "video.mp4" = true
  ∧ FileGo.checkShouldIncludeFile
      (Demo.env_with [] (Demo.reply 200 []))
      {| fi_Name := "video.mp4"; fi_Size := 1; fi_ModTime := 0 |}
    = Val false.
Proof. split; vm_compute; reflexivity. Qed.

(** C10.  Both inclusion filters index the first byte of the file name
    before anything else: they return a verdict exactly when the name is
    non-empty, and on the empty name they panic with an index out of
    range. *)
Theorem C10_inclusion_filter_indexes_first_byte
    (env : Env) (info : FileInfo) (fileName : string) :
  ((∃ b, FileGo.checkShouldIncludeFile env info = Val b) ↔ fi_Name info ≠ "")
  ∧ (FileGo.checkShouldIncludeFile env info = Panic index_out_of_range_0
     ↔ fi_Name info = "")
  ∧ ((∃ b, Part004.shouldIncludeFile fileName = Val b) ↔ fileName ≠ "")
  ∧ (Part004.shouldIncludeFile fileName = Panic index_out_of_range_0
     ↔ fileName = "").
Proof.
  assert (Hfile : fi_Name info = "" →
    FileGo.checkShouldIncludeFile env info = Panic index_out_of_range_0).
  { intros H. unfold FileGo.checkShouldIncludeFile. by rewrite H. }
  repeat split.
  - intros [b Hb] Hempty. rewrite (Hfile Hempty) in Hb. discriminate.
  - intros Hne. rewrite (checkShouldIncludeFile_nonempty env info Hne). eauto.
  - intros Hp. destruct (decide (fi_Name info = "")) as [|Hne]; [done|].
    rewrite (checkShouldIncludeFile_nonempty env info Hne) in Hp.
    discriminate.
  - exact Hfile.
  - intros [b Hb] ->. discriminate.
  - intros Hne. rewrite (shouldIncludeFile_nonempty fileName Hne). eauto.
  - intros Hp. destruct (decide (fileName = "")) as [|Hne]; [done|].
    rewrite (shouldIncludeFile_nonempty fileName Hne) in Hp. discriminate.
  - intros ->. reflexivity.
Qed.

(** ** The uploader's response handling *)

Lemma PostFileToWebHook_run
    (env : Env) (file : Reader) (metadata : Metadata)
    (opts : Webhook.PostGenericWebhookOpt) (w : World)
    (url : string) (bytes : list byte) (StatusCode : Z) (body : Body) :
  url_Parse env (Webhook.endpoint env opts) = Ok url →
  read_all file = Ok bytes →
  server env (Webhook.newRequest env url metadata opts bytes)
    = HttpResponse StatusCode body →
  Webhook.PostFileToWebHook env file metadata opts w =
    (Val (if bool_decide (StatusCode = 400 ∨ StatusCode = 404)%Z then
            Err "bad request"
          else if bool_decide (StatusCode ≠ 200%Z) then
            Err ("bad status code in response: " +:+ fmt_d StatusCode)
          else Webhook.Decode body),
     add_event (EvHttpPost (Webhook.newRequest env url metadata opts bytes)) w).
Proof.
  intros Hurl Hread Hserver.
  unfold Webhook.PostFileToWebHook.
  rewrite Hurl, Hread. cbv zeta. rewrite bind_run. simpl.
  rewrite Hserver.
  destruct (decide (StatusCode = 400%Z)) as [->|H400]; [reflexivity|].
  rewrite (bool_decide_eq_false_2 _ H400).
  destruct (decide (StatusCode = 404%Z)) as [->|H404]; [reflexivity|].
  rewrite (bool_decide_eq_false_2 _ H404).
  rewrite (bool_decide_eq_false_2 (StatusCode = 400 ∨ StatusCode = 404)%Z)
    by (intros [?|?]; contradiction).
  case_bool_decide; [reflexivity|].
  destruct (Webhook.Decode body); reflexivity.
Qed.

(** C7.  Once [client.Do] has delivered a response, the uploader answers by
    the status code alone unless it is 200: 400 and 404 give the rejected
    request error, every other code but 200 gives the bad-status error that
    carries the code, and a 200 gives whatever decoding the body as a JSON
    object gives, the identifier being the object's [cid] member. *)
Theorem C7_response_handling
    (env : Env) (file : Reader) (metadata : Metadata)
    (opts : Webhook.PostGenericWebhookOpt) (w : World)
    (url : string) (bytes : list byte) (StatusCode : Z) (body : Body) :
  url_Parse env (Webhook.endpoint env opts) = Ok url →
  read_all file = Ok bytes →
  server env (Webhook.newRequest env url metadata opts bytes)
    = HttpResponse StatusCode body →
  fst (Webhook.PostFileToWebHook env file metadata opts w) =
    Val (if bool_decide (StatusCode = 400 ∨ StatusCode = 404)%Z then
           Err "bad request"
         else if bool_decide (StatusCode ≠ 200%Z) then
           Err ("bad status code in response: " +:+ fmt_d StatusCode)
         else Webhook.Decode body)
  ∧ (∀ cid,
       Webhook.Decode (BodyJSON (JObject [("cid", JString cid)]))
       = Ok {| Webhook.Cid := cid; Webhook.Error := None |}).
Proof.
  intros Hurl Hread Hserver. split; [|reflexivity].
  rewrite (PostFileToWebHook_run _ _ _ _ _ _ _ _ _ Hurl Hread Hserver).
  reflexivity.
Qed.

Lemma C7_witness :
  fst (Webhook.PostFileToWebHook
         (Demo.env_with [] (Demo.reply 503 []))
         {| rd_bytes := Demo.note_bytes; rd_fault := None |} ∅
         Webhook.no_opts Demo.w_fresh)
  = Val (if bool_decide (503 = 400 ∨ 503 = 404)%Z then Err "bad request"
         else if bool_decide (503 ≠ 200)%Z then
           Err ("bad status code in response: " +:+ fmt_d 503)
         else Webhook.Decode (BodyJSON (JObject [])))
  ∧ (∀ cid,
       Webhook.Decode (BodyJSON (JObject [("cid", JString cid)]))
       = Ok {| Webhook.Cid := cid; Webhook.Error := None |}).
Proof.
  apply (C7_response_handling
           (Demo.env_with [] (Demo.reply 503 []))
           {| rd_bytes := Demo.note_bytes; rd_fault := None |} ∅
           Webhook.no_opts Demo.w_fresh
           "http://localhost:8080/generic" Demo.note_bytes 503
           (BodyJSON (JObject []))); reflexivity.
Defined.

Example response_503 :
  fst (Webhook.PostFileToWebHook
         (Demo.env_with [] (Demo.reply 503 []))
         {| rd_bytes := Demo.note_bytes; rd_fault := None |} ∅
         Webhook.no_opts Demo.w_fresh)
  = Val (Err "bad status code in response: 503").
Proof. vm_compute. reflexivity. Qed.

(** A decoder that has saved a type error ends with an error. *)
Lemma decode_saved members value e :
  ∃ value', foldl Webhook.decode_member (value, Some e) members
            = (value', Some e).
Proof.
  revert value. induction members as [|[key v] members IH]; intros value.
  - by exists value.
  - simpl. destruct (Webhook.key_is key "cid").
    + destruct v; apply IH.
    + destruct (Webhook.key_is key "error"); [destruct v|]; apply IH.
Qed.

(** A non-null member whose key folds to [error] cannot be stored in the
    [Error] field: decoding the object fails. *)
Lemma Decode_error_member members key v :
  (key, v) ∈ members →
  Webhook.key_is key "error" = true →
  v ≠ JNull →
  ∃ e, Webhook.Decode (BodyJSON (JObject members)) = Err e.
Proof.
  intros Hin Hkey Hv. unfold Webhook.Decode.
  cut (∀ st, ∃ value e,
         foldl Webhook.decode_member st members = (value, Some e)).
  { intros H. destruct (H ({| Webhook.Cid := ""; Webhook.Error := None |}, None))
      as (value & e & ->). eauto. }
  induction members as [|[key' v'] members IH]; intros [value saved].
  - by apply elem_of_nil in Hin.
  - apply elem_of_cons in Hin as [[= <- <-]|Hin].
    + simpl. assert (Webhook.key_is key "cid" = false) as ->.
      { unfold Webhook.key_is in *. apply bool_decide_eq_true in Hkey.
        rewrite Hkey. reflexivity. }
      rewrite Hkey.
      destruct saved as [e|]; destruct v; try congruence;
        unfold Webhook.saveError;
        match goal with
        | |- context [foldl _ (value, Some ?e) members] =>
            destruct (decode_saved members value e) as [value' ->]; eauto
        end.
    + simpl. apply IH. exact Hin.
Qed.

(** ** Fingerprinting *)

Lemma hexdigits_of_byte (v : byte) :
  hexdigit (N.shiftr (Byte.to_N v) 4) ∈ String.list_ascii_of_string hextable
  ∧ hexdigit (N.land (Byte.to_N v) 15) ∈ String.list_ascii_of_string hextable.
Proof.
  assert (Hdec : ∀ c : ascii,
    bool_decide (c ∈ String.list_ascii_of_string hextable) = true →
    c ∈ String.list_ascii_of_string hextable)
    by (intros c; apply bool_decide_eq_true).
  split; apply Hdec; destruct v; vm_compute; reflexivity.
Qed.

Lemma hex_EncodeToString_lowercase (src : list byte) :
  lowercase_hex (hex_EncodeToString src).
Proof.
  unfold lowercase_hex. induction src as [|v src IH]; simpl.
  - constructor.
  - destruct (hexdigits_of_byte v).
    constructor; [assumption|]. constructor; assumption.
Qed.

Lemma hex_EncodeToString_length (src : list byte) :
  String.length (hex_EncodeToString src) = 2 * length src.
Proof. induction src as [|v src IH]; simpl; [reflexivity|]. rewrite IH. lia. Qed.

Lemma read_all_no_fault (r : Reader) :
  rd_fault r = None → read_all r = Ok (rd_bytes r).
Proof. intros H. unfold read_all, fault_before. by rewrite H. Qed.

Lemma read_at_most_no_fault (r : Reader) (limit : nat) :
  rd_fault r = None → read_at_most r limit = Ok (take limit (rd_bytes r)).
Proof. intros H. unfold read_at_most, fault_before. by rewrite H. Qed.

(** C6, on file.go.  The three digests that [getFileMetadata] of file.go
    reports for a readable file are lowercase hexadecimal strings, but they
    are the digests of the header that [mimetype.DetectReader] pulls through
    the tee readers, the first 3072 bytes, not of the whole content. *)
Theorem C6_file_go_digests_cover_the_header
    (env : Env) (path : string) (w : World) (file : File) (info : FileInfo) :
  os_Open env path = Ok file →
  f_Stat file = Ok info →
  rd_fault (f_reader file) = None →
  let header := take FileGo.mimetype_readLimit (rd_bytes (f_reader file)) in
  ∃ m : Metadata,
    fst (FileGo.getFileMetadata env path w) = Val (Ok m)
    ∧ m !! "sha256" = Some (AString (hex_EncodeToString (sha256_Sum env header)))
    ∧ m !! "md5" = Some (AString (hex_EncodeToString (md5_Sum env header)))
    ∧ m !! "blake3" = Some (AString (hex_EncodeToString (blake3_Sum env header)))
    ∧ lowercase_hex (hex_EncodeToString (sha256_Sum env header))
    ∧ lowercase_hex (hex_EncodeToString (md5_Sum env header))
    ∧ lowercase_hex (hex_EncodeToString (blake3_Sum env header)).
Proof.
  intros Hopen Hstat Hfault header.
  unfold FileGo.getFileMetadata.
  rewrite !bind_run. simpl. rewrite Hopen, Hstat. rewrite !bind_run. simpl.
  rewrite (read_at_most_no_fault _ _ Hfault). simpl.
  eexists. split; [reflexivity|].
  repeat split; try reflexivity; apply hex_EncodeToString_lowercase.
Qed.

Lemma C6_witness :
  let header := take FileGo.mimetype_readLimit Demo.video_bytes in
  ∃ m : Metadata,
    fst (FileGo.getFileMetadata Demo.env "/data/video.mp4" Demo.w_fresh)
      = Val (Ok m)
    ∧ m !! "sha256"
      = Some (AString (hex_EncodeToString (sha256_Sum Demo.env header)))
    ∧ m !! "md5"
      = Some (AString (hex_EncodeToString (md5_Sum Demo.env header)))
    ∧ m !! "blake3"
      = Some (AString (hex_EncodeToString (blake3_Sum Demo.env header)))
    ∧ lowercase_hex (hex_EncodeToString (sha256_Sum Demo.env header))
    ∧ lowercase_hex (hex_EncodeToString (md5_Sum Demo.env header))
    ∧ lowercase_hex (hex_EncodeToString (blake3_Sum Demo.env header)).
Proof.
  apply (C6_file_go_digests_cover_the_header Demo.env "/data/video.mp4"
           Demo.w_fresh (Demo.file_of "video.mp4" Demo.video_bytes)
           {| fi_Name := "video.mp4"; fi_Size := 3073; fi_ModTime := 0 |});
    reflexivity.
Defined.

(** On the video of 3073 bytes the digest that file.go reports is the one
    of the first 3072 bytes and differs from the one of the content. *)
Example file_go_digest_of_a_long_file :
  length Demo.video_bytes = 3073
  ∧ match fst (FileGo.getFileMetadata Demo.env "/data/video.mp4"
                 Demo.w_fresh) with
    | Val (Ok m) =>
        m !! "sha256"
        = Some (AString (hex_EncodeToString
                           (sha256_Sum Demo.env (take 3072 Demo.video_bytes))))
        ∧ m !! "sha256"
          ≠ Some (AString (hex_EncodeToString
                             (sha256_Sum Demo.env Demo.video_bytes)))
    | _ => False
    end.
Proof. vm_compute. repeat split. discriminate. Qed.

(** The fingerprinter of part_005 reads the file to its end, once: for a
    readable file the three digests are those of the whole content, in
    lowercase hexadecimal; when reading fails the error is returned and no
    metadata map. *)
Theorem part005_digests_cover_the_content
    (env : Env) (path mediaType : string) (w : World)
    (file : File) (info : FileInfo) :
  os_Open env path = Ok file →
  f_Stat file = Ok info →
  let content := rd_bytes (f_reader file) in
  (rd_fault (f_reader file) = None →
     ∃ m : Metadata,
       Part005.getFileMetadata env path mediaType w
         = (Val (Ok m),
            add_event (EvHash path)
              (add_event (EvFileRead path) (add_event (EvFileOpen path) w)))
       ∧ m !! "sha256"
         = Some (AString (hex_EncodeToString (sha256_Sum env content)))
       ∧ m !! "md5"
         = Some (AString (hex_EncodeToString (md5_Sum env content)))
       ∧ m !! "blake3"
         = Some (AString (hex_EncodeToString (blake3_Sum env content)))
       ∧ lowercase_hex (hex_EncodeToString (sha256_Sum env content))
       ∧ lowercase_hex (hex_EncodeToString (md5_Sum env content))
       ∧ lowercase_hex (hex_EncodeToString (blake3_Sum env content)))
  ∧ (∀ e, read_all (f_reader file) = Err e →
       fst (Part005.getFileMetadata env path mediaType w) = Val (Err e)).
Proof.
  intros Hopen Hstat content. split.
  - intros Hfault. unfold Part005.getFileMetadata.
    rewrite !bind_run. simpl. rewrite Hopen, Hstat. rewrite !bind_run. simpl.
    rewrite (read_all_no_fault _ Hfault). simpl.
    eexists. split; [reflexivity|].
    repeat split; try reflexivity; apply hex_EncodeToString_lowercase.
  - intros e Hread. unfold Part005.getFileMetadata.
    rewrite !bind_run. simpl. rewrite Hopen, Hstat. rewrite !bind_run. simpl.
    rewrite Hread. reflexivity.
Qed.

Lemma part005_digests_witness :
  let content := Demo.video_bytes in
  let w := Demo.w_fresh in
  let path := "/data/video.mp4" in
  (rd_fault (f_reader (Demo.file_of "video.mp4" Demo.video_bytes)) = None →
     ∃ m : Metadata,
       Part005.getFileMetadata Demo.env path "video/mp4" w
         = (Val (Ok m),
            add_event (EvHash path)
              (add_event (EvFileRead path) (add_event (EvFileOpen path) w)))
       ∧ m !! "sha256"
         = Some (AString (hex_EncodeToString (sha256_Sum Demo.env content)))
       ∧ m !! "md5"
         = Some (AString (hex_EncodeToString (md5_Sum Demo.env content)))
       ∧ m !! "blake3"
         = Some (AString (hex_EncodeToString (blake3_Sum Demo.env content)))
       ∧ lowercase_hex (hex_EncodeToString (sha256_Sum Demo.env content))
       ∧ lowercase_hex (hex_EncodeToString (md5_Sum Demo.env content))
       ∧ lowercase_hex (hex_EncodeToString (blake3_Sum Demo.env content)))
  ∧ (∀ e, read_all (f_reader (Demo.file_of "video.mp4" Demo.video_bytes))
          = Err e →
       fst (Part005.getFileMetadata Demo.env path "video/mp4" w)
       = Val (Err e)).
Proof.
  apply (part005_digests_cover_the_content Demo.env "/data/video.mp4"
           "video/mp4" Demo.w_fresh
           (Demo.file_of "video.mp4" Demo.video_bytes)
           {| fi_Name := "video.mp4"; fi_Size := 3073; fi_ModTime := 0 |});
    reflexivity.
Defined.

(** ** Steps of the handlers on a table without faults *)

Lemma read_once_no_fault (r : Reader) (size : nat) :
  rd_fault r = None → rd_bytes r ≠ [] →
  read_once r size = Ok (take size (rd_bytes r)).
Proof.
  intros Hf Hne. unfold read_once. rewrite Hf.
  destruct (rd_bytes r); [congruence|reflexivity].
Qed.

Lemma setFileStatusFound_fresh (path : string) (w : World) :
  db_faults w = [] →
  store w !! path = None →
  ∃ w' row,
    Database.setFileStatusFound path w = (Val None, w')
    ∧ db_faults w' = []
    ∧ store w' !! path = Some row
    ∧ row_status row = FileStatusFound
    ∧ row_cid row = None.
Proof.
  intros Hq Hnone.
  unfold Database.setFileStatusFound, time_Now, next_db_fault, emit,
    get_store, modify_store, mbind, M_bind, bind, mret, M_ret, ret.
  unfold set_clock, set_db_faults, add_event, set_store. simpl.
  rewrite Hq. simpl. rewrite Hnone.
  eexists _, _. split; [reflexivity|]. simpl.
  rewrite lookup_insert_eq. repeat split; reflexivity.
Qed.

Lemma update_row_quiet (path status : string) (f : Row → Row) (w : World) :
  db_faults w = [] →
  ∃ w',
    Database.update_row path status f w = (Val None, w')
    ∧ db_faults w' = []
    ∧ store w' = alter f path (store w).
Proof.
  intros Hq.
  unfold Database.update_row, next_db_fault, emit, modify_store,
    mbind, M_bind, bind, mret, M_ret, ret.
  unfold set_db_faults, add_event, set_store. simpl. rewrite Hq. simpl.
  eexists. split; [reflexivity|]. split; reflexivity.
Qed.

Lemma setFileStatusUploading_quiet (path sha256 : string) (w : World) row :
  db_faults w = [] →
  store w !! path = Some row →
  ∃ w' row',
    Database.setFileStatusUploading path sha256 w = (Val None, w')
    ∧ db_faults w' = []
    ∧ store w' !! path = Some row'
    ∧ row_status row' = FileStatusUploading
    ∧ row_cid row' = row_cid row.
Proof.
  intros Hq Hrow. unfold Database.setFileStatusUploading.
  rewrite bind_run. unfold time_Now.
  match goal with
  | |- context [Database.update_row ?p ?s ?f ?w1] =>
      destruct (update_row_quiet p s f w1 Hq) as (w' & -> & Hq' & Hs)
  end.
  eexists w', _. split; [reflexivity|]. split; [exact Hq'|].
  rewrite Hs. simpl. rewrite lookup_alter_eq, Hrow. simpl.
  repeat split; reflexivity.
Qed.

Lemma setFileStatusError_quiet (path msg : string) (w : World) row :
  db_faults w = [] →
  store w !! path = Some row →
  ∃ w' row',
    Database.setFileStatusError path msg w = (Val None, w')
    ∧ db_faults w' = []
    ∧ store w' !! path = Some row'
    ∧ row_status row' = FileStatusError
    ∧ row_error row' = Some msg
    ∧ row_cid row' = row_cid row.
Proof.
  intros Hq Hrow. unfold Database.setFileStatusError.
  rewrite bind_run. unfold time_Now.
  match goal with
  | |- context [Database.update_row ?p ?s ?f ?w1] =>
      destruct (update_row_quiet p s f w1 Hq) as (w' & -> & Hq' & Hs)
  end.
  eexists w', _. split; [reflexivity|]. split; [exact Hq'|].
  rewrite Hs. simpl. rewrite lookup_alter_eq, Hrow. simpl.
  repeat split; reflexivity.
Qed.

Lemma setFileStatusDone_quiet (path cid : string) (w : World) row :
  db_faults w = [] →
  store w !! path = Some row →
  ∃ w' row',
    Database.setFileStatusDone path cid w = (Val None, w')
    ∧ db_faults w' = []
    ∧ store w' !! path = Some row'
    ∧ row_status row' = FileStatusSuccess
    ∧ row_cid row' = Some cid.
Proof.
  intros Hq Hrow. unfold Database.setFileStatusDone.
  rewrite bind_run. unfold time_Now.
  match goal with
  | |- context [Database.update_row ?p ?s ?f ?w1] =>
      destruct (update_row_quiet p s f w1 Hq) as (w' & -> & Hq' & Hs)
  end.
  eexists w', _. split; [reflexivity|]. split; [exact Hq'|].
  rewrite Hs. simpl. rewrite lookup_alter_eq, Hrow. simpl.
  repeat split; reflexivity.
Qed.

Lemma annotate_run project_id project_path project (m : Metadata) w :
  Database.ProjectId project = Some project_id →
  Database.ProjectPath project = Some project_path →
  ∃ m' : Metadata,
    Common.annotate project m w = (Val m', w)
    ∧ m' !! "sha256" = m !! "sha256"
    ∧ m' !! "file_name" = m !! "file_name".
Proof.
  intros Hid Hpath. unfold Common.annotate.
  rewrite Hid, Hpath. rewrite !bind_run. simpl.
  case_bool_decide; (eexists; split; [reflexivity|]);
    rewrite ?lookup_insert_ne by done; split; reflexivity.
Qed.

Lemma PostFileToWebHook_returns env url StatusCode body :
  url_Parse env (Webhook.endpoint env Webhook.no_opts) = Ok url →
  (∀ req, server env req = HttpResponse StatusCode body) →
  ∀ (file : Reader) metadata w bytes,
    read_all file = Ok bytes →
    ∃ w',
      Webhook.PostFileToWebHook env file metadata Webhook.no_opts w =
        (Val (if bool_decide (StatusCode = 400 ∨ StatusCode = 404)%Z then
                Err "bad request"
              else if bool_decide (StatusCode ≠ 200%Z) then
                Err ("bad status code in response: " +:+ fmt_d StatusCode)
              else Webhook.Decode body), w')
      ∧ store w' = store w ∧ db_faults w' = db_faults w.
Proof.
  intros Hurl Hserver file metadata w bytes Hread.
  rewrite (PostFileToWebHook_run _ _ _ _ _ _ _ _ _ Hurl Hread (Hserver _)).
  eexists. split; [reflexivity|]. split; reflexivity.
Qed.

Arguments Database.setFileStatusFound : simpl never.
Arguments Database.setFileStatusUploading : simpl never.
Arguments Database.setFileStatusDone : simpl never.
Arguments Database.setFileStatusError : simpl never.
Arguments Database.queryIfFileExists : simpl never.
Arguments Webhook.PostFileToWebHook : simpl never.
Arguments hex_EncodeToString : simpl never.

Lemma PostFileToWebHook_200 env url body :
  url_Parse env (Webhook.endpoint env Webhook.no_opts) = Ok url →
  (∀ req, server env req = HttpResponse 200 body) →
  post_returns (Webhook.PostFileToWebHook env) (Webhook.Decode body).
Proof.
  intros Hurl Hserver file metadata w Hfault.
  exact (PostFileToWebHook_returns env url 200 body Hurl Hserver file metadata
           w (rd_bytes file) (read_all_no_fault file Hfault)).
Qed.

(** ** The identifier written by the Success transition *)

Lemma getFileMetadata_003_readable env path file info w :
  os_Open env path = Ok file →
  f_Stat file = Ok info →
  rd_fault (f_reader file) = None →
  ∃ w' (m : Metadata),
    Part003.getFileMetadata env path w = (Val (Ok m), w')
    ∧ store w' = store w ∧ db_faults w' = db_faults w
    ∧ m !! "sha256"
      = Some (AString (hex_EncodeToString
                         (sha256_Sum env (rd_bytes (f_reader file))))).
Proof.
  intros Hopen Hstat Hfault. unfold Part003.getFileMetadata.
  rewrite !bind_run. simpl. rewrite Hopen, Hstat. rewrite !bind_run. simpl.
  rewrite (read_all_no_fault _ Hfault). rewrite !bind_run. simpl.
  eexists _, _. split; [reflexivity|]. repeat split; reflexivity.
Qed.

Lemma annotate_003 project (m : Metadata) w :
  well_formed project →
  ∃ m' : Metadata,
    match project with
    | Some project => Common.annotate project m
    | None => mret m
    end w = (Val m', w)
    ∧ m' !! "sha256" = m !! "sha256".
Proof.
  destruct project as [project|]; simpl.
  - intros [[project_id Hid] [project_path Hpath]].
    destruct (annotate_run _ _ _ m w Hid Hpath) as (m' & E & Hsha & _).
    exists m'. split; assumption.
  - intros _. exists m. split; reflexivity.
Qed.

Lemma process_003 env post path project cid w file info resp row :
  db_faults w = [] →
  store w !! path = Some row →
  well_formed project →
  os_Open env path = Ok file →
  f_Stat file = Ok info →
  rd_fault (f_reader file) = None →
  post_path_returns post path (Ok resp) →
  ∃ w' row',
    Part003.process env post path project cid w
      = (Val (Webhook.Cid resp, None), w')
    ∧ store w' !! path = Some row'
    ∧ row_status row' = FileStatusSuccess
    ∧ row_cid row' = Some cid.
Proof.
  intros Hq Hrow Hwf Hopen Hstat Hfault Hpost.
  unfold Part003.process.
  destruct (getFileMetadata_003_readable env path file info w Hopen Hstat
              Hfault) as (w1 & m & E1 & Hs1 & Hq1 & Hsha).
  rewrite (bind_val _ _ _ _ _ E1).
  destruct (annotate_003 project m w1 Hwf) as (m' & E2 & Hsha').
  rewrite (bind_val _ _ _ _ _ E2).
  rewrite Hsha', Hsha. rewrite bind_run. simpl.
  assert (Hq1' : db_faults w1 = []) by congruence.
  assert (Hrow1 : store w1 !! path = Some row) by congruence.
  destruct (setFileStatusUploading_quiet path
              (hex_EncodeToString (sha256_Sum env (rd_bytes (f_reader file))))
              w1 row Hq1' Hrow1)
    as (w2 & row2 & E3 & Hq2 & Hrow2 & _ & _).
  rewrite (bind_val _ _ _ _ _ E3).
  destruct (Hpost m' w2) as (w3 & E4 & Hs3 & Hq3).
  rewrite (bind_val _ _ _ _ _ E4). unfold Part003.finish.
  assert (Hq3' : db_faults w3 = []) by (rewrite Hq3; exact Hq2).
  assert (Hrow3 : store w3 !! path = Some row2) by (rewrite Hs3; exact Hrow2).
  destruct (setFileStatusDone_quiet path cid w3 row2 Hq3' Hrow3)
    as (w4 & row4 & E5 & _ & Hrow4 & Hst4 & Hcid4).
  rewrite (bind_val _ _ _ _ _ E5). simpl.
  exists w4, row4. repeat split; assumption.
Qed.

(** The uploader that part_003 is linked with answers what the server's
    reply decodes to. *)
Lemma PostFileToWebHook_003_returns env path file url body :
  os_Open env path = Ok file →
  rd_fault (f_reader file) = None →
  url_Parse env (Webhook.endpoint env Webhook.no_opts) = Ok url →
  (∀ req, server env req = HttpResponse 200 body) →
  post_path_returns (Part003.PostFileToWebHook env) path (Webhook.Decode body).
Proof.
  intros Hopen Hfault Hurl Hserver metadata w.
  unfold Part003.PostFileToWebHook. rewrite bind_run. simpl. rewrite Hopen.
  destruct (PostFileToWebHook_200 env url body Hurl Hserver (f_reader file)
              metadata (add_event (EvFileOpen path) w) Hfault)
    as (w' & E & Hs & Hq).
  exists w'. repeat split; assumption.
Qed.

(** C1, on part_003.  A readable file on a path that is new to the table or
    in a retryable state is uploaded, the uploader returns a response with
    the identifier [Cid resp], and the handler returns that identifier; but
    the Success transition writes the local [cid] read from the table before
    the upload, the empty string for a new path, not the identifier the
    uploader returned. *)
Theorem C1_part003_success_writes_the_identifier_read_before_the_upload
    (env : Env)
    (post : string → Metadata → Webhook.PostGenericWebhookOpt →
            M (result Webhook.PostGenericWebhookResponse))
    (path : string) (project : option Database.ProjectQueryResult)
    (w : World) (file : File) (info : FileInfo)
    (resp : Webhook.PostGenericWebhookResponse) :
  db_faults w = [] →
  retryable w path →
  well_formed project →
  os_Open env path = Ok file →
  f_Stat file = Ok info →
  rd_fault (f_reader file) = None →
  post_path_returns post path (Ok resp) →
  ∃ w' row',
    Part003.handleNewFileWith env post path project w
      = (Val (Webhook.Cid resp, None), w')
    ∧ store w' !! path = Some row'
    ∧ row_status row' = FileStatusSuccess
    ∧ row_cid row' = Some (default "" (stored_cid w path)).
Proof.
  intros Hq Hretry Hwf Hopen Hstat Hfault Hpost.
  assert (Hok : next_statement_ok w) by (unfold next_statement_ok; by rewrite Hq).
  assert (Hq1 : db_faults (after_query path w) = []) by (simpl; by rewrite Hq).
  unfold retryable, stored_cid in *.
  destruct (store w !! path) as [row|] eqn:Hrow.
  - rewrite (status_switch_003 _ _ _ _ _ _ Hrow Hok).
    assert (Hrow1 : store (after_query path w) !! path = Some row) by exact Hrow.
    destruct (process_003 env post path project (default "" (row_cid row))
                (after_query path w) file info resp row
                Hq1 Hrow1 Hwf Hopen Hstat Hfault Hpost)
      as (w' & row' & E & Hrow' & Hst' & Hcid').
    destruct Hretry as [Hst|Hst]; rewrite Hst; simpl; rewrite E;
      exists w', row'; repeat split; assumption.
  - unfold Part003.handleNewFileWith.
    rewrite bind_run, queryIfFileExists_run, Hok, Hrow. simpl.
    destruct (setFileStatusFound_fresh path (after_query path w) Hq1 Hrow)
      as (w1 & row1 & E1 & Hq1' & Hrow1 & _ & _).
    rewrite (bind_val _ _ _ _ _ E1).
    destruct (process_003 env post path project "" w1 file info resp row1
                Hq1' Hrow1 Hwf Hopen Hstat Hfault Hpost)
      as (w' & row' & E & Hrow' & Hst' & Hcid').
    rewrite E. exists w', row'. repeat split; assumption.
Qed.

Lemma C1_witness :
  ∃ w' row',
    Part003.handleNewFile Demo.env "/data/note.txt" (Some Demo.project)
      Demo.w_fresh
      = (Val ("bafy123", None), w')
    ∧ store w' !! "/data/note.txt" = Some row'
    ∧ row_status row' = FileStatusSuccess
    ∧ row_cid row' = Some "".
Proof.
  apply (C1_part003_success_writes_the_identifier_read_before_the_upload
           Demo.env (Part003.PostFileToWebHook Demo.env)
           "/data/note.txt" (Some Demo.project) Demo.w_fresh
           (Demo.file_of "note.txt" Demo.note_bytes)
           {| fi_Name := "note.txt"; fi_Size := 10; fi_ModTime := 0 |}
           {| Webhook.Cid := "bafy123"; Webhook.Error := None |}).
  - reflexivity.
  - vm_compute. exact I.
  - split; eexists; reflexivity.
  - reflexivity.
  - reflexivity.
  - reflexivity.
  - apply (PostFileToWebHook_003_returns Demo.env "/data/note.txt"
             (Demo.file_of "note.txt" Demo.note_bytes)
             "http://localhost:8080/generic"
             (BodyJSON (JObject [("cid", JString "bafy123")])));
      reflexivity.
Defined.

(** On part_004 the Success transition is reached with no upload at all
    for a web archive, whose [case] in the upload switch is empty, and for
    a signed bundle that holds no asset: the row ends in state Success with
    the empty identifier and no request was posted. *)
Example part004_web_archive_success_without_upload :
  match Part004.handleNewFile Demo.env "/data/site.wacz"
          (Some (Demo.project004 [])) Demo.w_fresh with
  | (r, w') =>
      r = Val ("", None)
      ∧ row_status <$> store w' !! "/data/site.wacz" = Some FileStatusSuccess
      ∧ row_cid <$> store w' !! "/data/site.wacz" = Some (Some "")
      ∧ filter is_post (trace w') = []
  end.
Proof. vm_compute. repeat split. Qed.

Example part004_success_without_upload :
  match Part004.handleNewFile Demo.env "/data/bundle.zip"
          (Some (Demo.project004 [])) Demo.w_fresh with
  | (r, w') =>
      r = Val ("", None)
      ∧ row_status <$> store w' !! "/data/bundle.zip" = Some FileStatusSuccess
      ∧ row_cid <$> store w' !! "/data/bundle.zip" = Some (Some "")
      ∧ filter is_post (trace w') = []
  end.
Proof. vm_compute. repeat split. Qed.

(** ** Panics *)

Lemma sat_ret {A} (a : A) (P : A → Prop) E : P a → sat (mret a) P E.
Proof. intros H w. exact H. Qed.

Lemma sat_panic {A} msg (P : A → Prop) (E : string → Prop) :
  E msg → sat (panic msg : M A) P E.
Proof. intros H w. exact H. Qed.

Lemma sat_bind {A B} (m : M A) (k : A → M B) (Q : A → Prop) P E :
  sat m Q E → (∀ a, Q a → sat (k a) P E) → sat (m ≫= k) P E.
Proof.
  intros Hm Hk w. rewrite bind_run. specialize (Hm w).
  destruct (m w) as [[a|msg] w']; simpl in *; [|exact Hm].
  apply (Hk a Hm).
Qed.

Lemma sat_mono {A} (m : M A) (P Q : A → Prop) E :
  sat m P E → (∀ a, P a → Q a) → sat m Q E.
Proof.
  intros Hm HPQ w. specialize (Hm w).
  destruct (fst (m w)); [by apply HPQ|exact Hm].
Qed.

Lemma sat_lift {A} (r : Res A) (P : A → Prop) (E : string → Prop) :
  match r with Val a => P a | Panic msg => E msg end → sat (lift r) P E.
Proof. intros H w. exact H. Qed.

Lemma sat_emit e E : sat (emit e) (λ _, True) E.
Proof. intros w. exact I. Qed.

Lemma sat_time_Now E : sat time_Now (λ _, True) E.
Proof. intros w. exact I. Qed.

Lemma sat_next_db_fault E : sat next_db_fault (λ _, True) E.
Proof. intros w. exact I. Qed.

Lemma sat_get_store E : sat get_store (λ _, True) E.
Proof. intros w. exact I. Qed.

Lemma sat_modify_store f E : sat (modify_store f) (λ _, True) E.
Proof. intros w. exact I. Qed.

Create HintDb sat discriminated.
#[local] Hint Resolve sat_emit sat_time_Now sat_next_db_fault sat_get_store
  sat_modify_store : sat.

(** One step of a proof that straight-line code does not panic. *)
Ltac sat_step :=
  lazymatch goal with
  | |- sat (mret _) _ _ => apply sat_ret; try exact I
  | |- sat (_ ≫= _) _ _ =>
      eapply (sat_bind _ _ (λ _, True)); [solve [eauto with sat]|intros ? _]
  | |- sat (match ?x with _ => _ end) _ _ => destruct x
  | |- sat (let '(_, _) := ?x in _) _ _ => destruct x
  | |- sat _ _ _ => solve [eauto with sat]
  end.

Lemma sat_update_row path status f E :
  sat (Database.update_row path status f) (λ _, True) E.
Proof. unfold Database.update_row. repeat sat_step. Qed.

Lemma sat_setFileStatusFound path E :
  sat (Database.setFileStatusFound path) (λ _, True) E.
Proof. unfold Database.setFileStatusFound. repeat sat_step. Qed.

Lemma sat_setFileStatusUploading path sha256 E :
  sat (Database.setFileStatusUploading path sha256) (λ _, True) E.
Proof.
  unfold Database.setFileStatusUploading.
  eapply (sat_bind _ _ (λ _, True)); [apply sat_time_Now|intros ? _].
  apply sat_update_row.
Qed.

Lemma sat_setFileStatusDone path cid E :
  sat (Database.setFileStatusDone path cid) (λ _, True) E.
Proof.
  unfold Database.setFileStatusDone.
  eapply (sat_bind _ _ (λ _, True)); [apply sat_time_Now|intros ? _].
  apply sat_update_row.
Qed.

Lemma sat_setFileStatusError path msg E :
  sat (Database.setFileStatusError path msg) (λ _, True) E.
Proof.
  unfold Database.setFileStatusError.
  eapply (sat_bind _ _ (λ _, True)); [apply sat_time_Now|intros ? _].
  apply sat_update_row.
Qed.

Lemma sat_queryIfFileExists path E :
  sat (Database.queryIfFileExists path) (λ _, True) E.
Proof. unfold Database.queryIfFileExists. repeat sat_step. Qed.

Lemma sat_PostFileToWebHook env file metadata opts E :
  sat (Webhook.PostFileToWebHook env file metadata opts) (λ _, True) E.
Proof.
  unfold Webhook.PostFileToWebHook. cbv zeta.
  repeat first [sat_step | case_bool_decide].
Qed.

#[local] Hint Resolve sat_update_row sat_setFileStatusFound
  sat_setFileStatusUploading sat_setFileStatusDone sat_setFileStatusError
  sat_queryIfFileExists sat_PostFileToWebHook : sat.

Lemma sat_checkFileType env path E :
  sat (Part005.checkFileType env path)
    (λ r, match r with
          | Ok (fileType, _) => fileType = "generic" ∨ fileType = "proofmode"
          | Err _ => True
          end) E.
Proof.
  intros w. unfold Part005.checkFileType.
  rewrite !bind_run. simpl.
  destruct (os_Open env path) as [file|e]; [|exact I].
  rewrite !bind_run. simpl.
  destruct (read_once (f_reader file) 512) as [buffer|e]; [|exact I].
  rewrite !bind_run. simpl.
  case_bool_decide; [|by left].
  rewrite !bind_run. simpl.
  destruct (util_CheckIsProofModeFile env path); [by right|by left].
Qed.

Lemma asserted_assetMetadata env path asset :
  asserted (Part005.assetMetadata env path asset).
Proof. split; eexists; reflexivity. Qed.

Lemma sat_getProofModeFileMetadatas env path E :
  sat (Part005.getProofModeFileMetadatas env path)
    (λ r, match r with
          | Ok metadatas =>
              Forall asserted metadatas
              ∧ (metadatas = [] →
                 util_ReadAndVerifyProofModeMetadata env path = Ok [])
          | Err _ => True
          end) E.
Proof.
  intros w. unfold Part005.getProofModeFileMetadatas.
  rewrite !bind_run. simpl.
  destruct (util_ReadAndVerifyProofModeMetadata env path) as [assets|e];
    [|exact I].
  simpl. split.
  - apply Forall_fmap, Forall_forall. intros asset _.
    apply asserted_assetMetadata.
  - intros Hnil. apply fmap_nil_inv in Hnil. by rewrite Hnil.
Qed.

Lemma sat_getFileMetadata env path mediaType E :
  sat (Part005.getFileMetadata env path mediaType)
    (λ r, match r with Ok m => asserted m | Err _ => True end) E.
Proof.
  intros w. unfold Part005.getFileMetadata.
  rewrite !bind_run. simpl.
  destruct (os_Open env path) as [file|e]; [|exact I].
  destruct (f_Stat file) as [info|e]; [|exact I].
  rewrite !bind_run. simpl.
  destruct (read_all (f_reader file)) as [bytes|e]; [|exact I].
  simpl. split; eexists; reflexivity.
Qed.

Lemma sat_annotate project (m : Metadata) E :
  is_Some (Database.ProjectId project) →
  is_Some (Database.ProjectPath project) →
  asserted m →
  sat (Common.annotate project m) asserted E.
Proof.
  intros [project_id Hid] [project_path Hpath] [[sha Hsha] [name Hname]] w.
  destruct (annotate_run _ _ _ m w Hid Hpath) as (m' & -> & Hsha' & Hname').
  simpl. split; [exists sha|exists name]; congruence.
Qed.

Lemma sat_forM_annotate project (metadatas : list Metadata) E :
  is_Some (Database.ProjectId project) →
  is_Some (Database.ProjectPath project) →
  Forall asserted metadatas →
  sat (forM metadatas (Common.annotate project))
    (λ l, Forall asserted l ∧ (l = [] → metadatas = [])) E.
Proof.
  intros Hid Hpath. induction 1 as [|m metadatas Hm Hrest IH]; simpl.
  - apply sat_ret. by split.
  - eapply sat_bind; [by apply sat_annotate|]. intros m' Hm'.
    eapply sat_bind; [exact IH|]. intros l [Hl _].
    apply sat_ret. split; [by constructor|discriminate].
Qed.

Lemma sat_uploadAssets post path fileMap metadatas cid E :
  (∀ file metadata opts, sat (post file metadata opts) (λ _, True) E) →
  Forall asserted metadatas →
  sat (Part005.uploadAssets post path fileMap metadatas cid) (λ _, True) E.
Proof.
  intros Hpost Hall. revert cid.
  induction Hall as [|m metadatas [_ [name Hname]] Hrest IH]; intros cid; simpl.
  - by apply sat_ret.
  - rewrite Hname. eapply (sat_bind _ _ (λ _, True)); [by apply sat_lift|].
    intros fileName _.
    destruct (fileMap !! fileName) as [zipFile|]; [|repeat sat_step].
    destruct (zf_Open zipFile) as [file|e]; [|repeat sat_step].
    eapply (sat_bind _ _ (λ _, True)); [apply Hpost|]. intros [resp|e] _.
    + apply IH.
    + repeat sat_step.
Qed.

Lemma sat_finish path cid E : sat (Part005.finish path cid) (λ _, True) E.
Proof. unfold Part005.finish. repeat sat_step. Qed.

Lemma sat_uploadByType env post path fileType metadatas first cid E :
  (∀ file metadata opts, sat (post file metadata opts) (λ _, True) E) →
  Forall asserted metadatas →
  sat (Part005.uploadByType env post path fileType metadatas first cid)
    (λ _, True) E.
Proof.
  intros Hpost Hall. unfold Part005.uploadByType.
  pose proof (sat_finish path) as Hfinish.
  repeat case_bool_decide.
  - eapply (sat_bind _ _ (λ _, True)); [apply sat_emit|intros _ _].
    destruct (zip_OpenReader env path) as [zipListing|e]; [|repeat sat_step].
    destruct (util_GetProofModeZipFiles env zipListing) as [fileMap|e];
      [|repeat sat_step].
    eapply (sat_bind _ _ (λ _, True)); [by apply sat_uploadAssets|].
    intros [cid'|e] _; [apply Hfinish|repeat sat_step].
  - eapply (sat_bind _ _ (λ _, True)); [apply sat_emit|intros _ _].
    destruct (os_Open env path) as [file|e]; [|repeat sat_step].
    eapply (sat_bind _ _ (λ _, True)); [apply Hpost|].
    intros [resp|e] _; [apply Hfinish|repeat sat_step].
  - apply Hfinish.
Qed.

(** The handler's only panic, for a project whose pointers are not nil, is
    the index out of range on an empty metadata list, which only the
    signed-bundle collaborator can produce. *)
Lemma sat_upload env post path project fileType cid metadatas :
  let E := λ msg, msg = index_out_of_range_0
                  ∧ util_ReadAndVerifyProofModeMetadata env path = Ok [] in
  (∀ file metadata opts, sat (post file metadata opts) (λ _, True) E) →
  well_formed project →
  Forall asserted metadatas →
  (metadatas = [] → util_ReadAndVerifyProofModeMetadata env path = Ok []) →
  sat (Part005.upload env post path project fileType cid metadatas)
    (λ _, True) E.
Proof.
  intros E Hpost Hwf Hall Hnil. unfold Part005.upload.
  eapply (sat_bind _ _ (λ l, Forall asserted l ∧ (l = [] → metadatas = []))).
  { destruct project as [project|].
    - destruct Hwf as [Hid Hpath]. by apply sat_forM_annotate.
    - by apply sat_ret. }
  intros l [Hl Hlnil].
  destruct l as [|first rest].
  - eapply (sat_bind _ _ (λ _, False)); [|intros ? []].
    apply sat_panic. split; [reflexivity|]. by apply Hnil, Hlnil.
  - eapply (sat_bind _ _ (λ m, m = first)); [by apply sat_ret|intros ? ->].
    apply Forall_cons in Hl as [[[sha Hsha] Hname] Hrest].
    rewrite Hsha.
    eapply (sat_bind _ _ (λ _, True)); [by apply sat_lift|intros ? _].
    eapply (sat_bind _ _ (λ _, True)); [eauto with sat|intros [e|] _].
    + repeat sat_step.
    + apply sat_uploadByType; [exact Hpost|].
      apply Forall_cons. split; [|exact Hrest]. split; eauto.
Qed.

Lemma sat_process env post path project cid :
  let E := λ msg, msg = index_out_of_range_0
                  ∧ util_ReadAndVerifyProofModeMetadata env path = Ok [] in
  (∀ file metadata opts, sat (post file metadata opts) (λ _, True) E) →
  well_formed project →
  sat (Part005.process env post path project cid) (λ _, True) E.
Proof.
  intros E Hpost Hwf. unfold Part005.process.
  eapply sat_bind; [apply sat_checkFileType|].
  intros [[fileType mediaType]|e] Htype; [|repeat sat_step].
  destruct Htype as [-> | ->]; simpl.
  - eapply sat_bind; [apply sat_getFileMetadata|].
    intros [m|e] Hm; [|repeat sat_step].
    apply sat_upload; [exact Hpost|exact Hwf| |discriminate].
    constructor; [exact Hm|constructor].
  - eapply sat_bind; [apply sat_getProofModeFileMetadatas|].
    intros [metadatas|e] Hm; [|repeat sat_step].
    destruct Hm. by apply sat_upload.
Qed.

Lemma sat_handleNewFile env path project :
  well_formed project →
  sat (Part005.handleNewFile env path project) (λ _, True)
    (λ msg, msg = index_out_of_range_0
            ∧ util_ReadAndVerifyProofModeMetadata env path = Ok []).
Proof.
  intros Hwf. unfold Part005.handleNewFile, Part005.handleNewFileWith.
  pose proof (sat_process env (Webhook.PostFileToWebHook env) path project)
    as Hprocess. cbv zeta in Hprocess.
  eapply (sat_bind _ _ (λ _, True)); [eauto with sat|].
  intros [result|e] _; [|repeat sat_step]. cbv zeta.
  assert (Hp : ∀ cid, sat (Part005.process env (Webhook.PostFileToWebHook env)
                             path project cid) (λ _, True)
                        (λ msg, msg = index_out_of_range_0
                           ∧ util_ReadAndVerifyProofModeMetadata env path
                             = Ok []))
    by (intros cid; apply Hprocess;
        [intros; apply sat_PostFileToWebHook|exact Hwf]).
  repeat case_bool_decide; try apply Hp; repeat sat_step.
Qed.

Lemma checkFileType_bundle env path file w :
  bundle_file env path file →
  ∃ w' mediaType,
    Part005.checkFileType env path w = (Val (Ok ("proofmode", mediaType)), w').
Proof.
  intros [Hopen Hfault Hne Hzip Hprobe]. unfold Part005.checkFileType.
  rewrite !bind_run. simpl. rewrite Hopen. rewrite !bind_run. simpl.
  rewrite (read_once_no_fault _ _ Hfault Hne). rewrite !bind_run. simpl.
  rewrite (bool_decide_eq_true_2 _ Hzip). rewrite !bind_run. simpl.
  rewrite Hprobe. eexists _, _. reflexivity.
Qed.

Lemma process_empty_bundle env post path project cid file w :
  bundle_file env path file →
  util_ReadAndVerifyProofModeMetadata env path = Ok [] →
  fst (Part005.process env post path project cid w)
  = Panic index_out_of_range_0.
Proof.
  intros Hfile Hverify. unfold Part005.process.
  destruct (checkFileType_bundle env path file w Hfile)
    as (w1 & mediaType & E1).
  rewrite (bind_val _ _ _ _ _ E1). simpl.
  unfold Part005.getProofModeFileMetadatas.
  rewrite !bind_run. simpl. rewrite Hverify. simpl.
  unfold Part005.upload. rewrite !bind_run.
  destruct project; reflexivity.
Qed.

(** ** The metadata list of a signed bundle *)

(** C9.  The handler of part_005 takes [metadatas[0]] for the Uploading
    transition whatever the classification produced.  On a signed bundle
    that verifies with an empty asset list the metadata list is empty and
    the handler panics with an index out of range; and, the project's
    pointers being non-nil, that is the only way it panics: whenever
    classification yields at least one record, it returns. *)
Theorem C9_empty_bundle_indexes_out_of_range
    (env : Env) (path : string) (project : option Database.ProjectQueryResult)
    (w : World) :
  (∀ file,
     db_faults w = [] →
     retryable w path →
     bundle_file env path file →
     util_ReadAndVerifyProofModeMetadata env path = Ok [] →
     fst (Part005.handleNewFile env path project w)
     = Panic index_out_of_range_0)
  ∧ (∀ msg,
       well_formed project →
       fst (Part005.handleNewFile env path project w) = Panic msg →
       msg = index_out_of_range_0
       ∧ util_ReadAndVerifyProofModeMetadata env path = Ok []).
Proof.
  split.
  - intros file Hq Hretry Hfile Hverify.
    assert (Hok : next_statement_ok w)
      by (unfold next_statement_ok; by rewrite Hq).
    assert (Hq1 : db_faults (after_query path w) = [])
      by (simpl; by rewrite Hq).
    unfold Part005.handleNewFile, retryable in *.
    destruct (store w !! path) as [row|] eqn:Hrow.
    + rewrite (status_switch_005 _ _ _ _ _ _ Hrow Hok).
      destruct Hretry as [Hst|Hst]; rewrite Hst; simpl;
        by apply (process_empty_bundle _ _ _ _ _ file).
    + unfold Part005.handleNewFileWith.
      rewrite bind_run, queryIfFileExists_run, Hok, Hrow. simpl.
      destruct (setFileStatusFound_fresh path (after_query path w) Hq1 Hrow)
        as (w1 & row1 & E1 & _).
      rewrite (bind_val _ _ _ _ _ E1).
      by apply (process_empty_bundle _ _ _ _ _ file).
  - intros msg Hwf Hpanic.
    pose proof (sat_handleNewFile env path project Hwf w) as Hsat.
    rewrite Hpanic in Hsat. exact Hsat.
Qed.

Lemma bundle_is_a_bundle :
  bundle_file Demo.env "/data/bundle.zip"
    (Demo.file_of "bundle.zip" Demo.zip_magic).
Proof. split; vm_compute; congruence. Qed.

Lemma C9_witness :
  fst (Part005.handleNewFile Demo.env "/data/bundle.zip" (Some Demo.project)
         Demo.w_fresh)
  = Panic index_out_of_range_0.
Proof.
  apply (proj1 (C9_empty_bundle_indexes_out_of_range Demo.env
                  "/data/bundle.zip" (Some Demo.project) Demo.w_fresh)
           (Demo.file_of "bundle.zip" Demo.zip_magic)).
  - reflexivity.
  - vm_compute. exact I.
  - apply bundle_is_a_bundle.
  - reflexivity.
Defined.

(** ** Rows that a run does not touch *)

Lemma frames_ret {A} path (a : A) : frames path (mret a).
Proof. intros w. reflexivity. Qed.

Lemma frames_panic {A} path msg : frames path (panic msg : M A).
Proof. intros w. reflexivity. Qed.

Lemma frames_bind {A B} path (m : M A) (k : A → M B) :
  frames path m → (∀ a, frames path (k a)) → frames path (m ≫= k).
Proof.
  intros Hm Hk w. rewrite bind_run. specialize (Hm w).
  destruct (m w) as [[a|msg] w']; simpl in *; [|exact Hm].
  rewrite (Hk a w'). exact Hm.
Qed.

Lemma frames_lift {A} path (r : Res A) : frames path (lift r).
Proof. intros w. reflexivity. Qed.

Lemma frames_emit path e : frames path (emit e).
Proof. intros w. reflexivity. Qed.

Lemma frames_time_Now path : frames path time_Now.
Proof. intros w. reflexivity. Qed.

Lemma frames_next_db_fault path : frames path next_db_fault.
Proof. intros w. reflexivity. Qed.

Lemma frames_get_store path : frames path get_store.
Proof. intros w. reflexivity. Qed.

Lemma frames_insert path other row :
  other ≠ path → frames path (modify_store (insert other row)).
Proof. intros Hne w. simpl. by rewrite lookup_insert_ne. Qed.

Lemma frames_alter path other f :
  other ≠ path → frames path (modify_store (alter f other)).
Proof. intros Hne w. simpl. by rewrite lookup_alter_ne. Qed.

Lemma frames_forM {A B} path (l : list A) (body : A → M B) :
  (∀ x, frames path (body x)) → frames path (forM l body).
Proof.
  intros Hbody. induction l as [|x l IH]; simpl.
  - apply frames_ret.
  - apply frames_bind; [apply Hbody|intros y].
    apply frames_bind; [exact IH|intros ys]. apply frames_ret.
Qed.

Create HintDb frames discriminated.
#[local] Hint Resolve frames_lift frames_emit frames_time_Now
  frames_next_db_fault frames_get_store frames_insert frames_alter : frames.

(** One step of a proof that a piece of code leaves a row alone. *)
Ltac frames_step :=
  lazymatch goal with
  | |- frames _ (mret _) => apply frames_ret
  | |- frames _ (panic _) => apply frames_panic
  | |- frames _ (_ ≫= _) => apply frames_bind; [|intros ?]
  | |- frames _ (match ?x with _ => _ end) => destruct x
  | |- frames _ _ => solve [eauto with frames]
  end.

Lemma frames_update_row path other status f :
  other ≠ path → frames path (Database.update_row other status f).
Proof. intros Hne. unfold Database.update_row. repeat frames_step. Qed.

Lemma frames_setFileStatusFound path other :
  other ≠ path → frames path (Database.setFileStatusFound other).
Proof. intros Hne. unfold Database.setFileStatusFound. repeat frames_step. Qed.

Lemma frames_setFileStatusUploading path other sha256 :
  other ≠ path → frames path (Database.setFileStatusUploading other sha256).
Proof.
  intros Hne. unfold Database.setFileStatusUploading.
  apply frames_bind; [apply frames_time_Now|intros ?].
  by apply frames_update_row.
Qed.

Lemma frames_setFileStatusDone path other cid :
  other ≠ path → frames path (Database.setFileStatusDone other cid).
Proof.
  intros Hne. unfold Database.setFileStatusDone.
  apply frames_bind; [apply frames_time_Now|intros ?].
  by apply frames_update_row.
Qed.

Lemma frames_setFileStatusError path other msg :
  other ≠ path → frames path (Database.setFileStatusError other msg).
Proof.
  intros Hne. unfold Database.setFileStatusError.
  apply frames_bind; [apply frames_time_Now|intros ?].
  by apply frames_update_row.
Qed.

Lemma frames_queryIfFileExists path other :
  frames path (Database.queryIfFileExists other).
Proof. unfold Database.queryIfFileExists. repeat frames_step. Qed.

Lemma frames_PostFileToWebHook path env file metadata opts :
  frames path (Webhook.PostFileToWebHook env file metadata opts).
Proof.
  unfold Webhook.PostFileToWebHook. cbv zeta.
  repeat first [frames_step | case_bool_decide].
Qed.

Lemma frames_annotate path project (m : Metadata) :
  frames path (Common.annotate project m).
Proof.
  unfold Common.annotate, deref.
  repeat first [frames_step | case_bool_decide].
Qed.

#[local] Hint Resolve frames_update_row frames_setFileStatusFound
  frames_setFileStatusUploading frames_setFileStatusDone
  frames_setFileStatusError frames_queryIfFileExists
  frames_PostFileToWebHook frames_annotate : frames.

Lemma frames_uploadAssets path env other fileMap metadatas cid :
  other ≠ path →
  frames path
    (Part005.uploadAssets (Webhook.PostFileToWebHook env) other fileMap
       metadatas cid).
Proof.
  intros Hne. revert cid.
  induction metadatas as [|m metadatas IH]; intros cid; simpl.
  - apply frames_ret.
  - apply frames_bind; [apply frames_lift|intros fileName].
    destruct (fileMap !! fileName) as [zipFile|]; [|repeat frames_step].
    destruct (zf_Open zipFile) as [file|e]; [|repeat frames_step].
    apply frames_bind; [apply frames_PostFileToWebHook|intros [resp|e]].
    + apply IH.
    + repeat frames_step.
Qed.

Lemma frames_process path env other project cid :
  other ≠ path →
  frames path
    (Part005.process env (Webhook.PostFileToWebHook env) other project cid).
Proof.
  intros Hne.
  pose proof (frames_uploadAssets path env other) as Hloop.
  assert (Hannot : ∀ p l, frames path (forM l (Common.annotate p)))
    by (intros; apply frames_forM; intros; apply frames_annotate).
  unfold Part005.process, Part005.upload, Part005.uploadByType,
    Part005.finish, Part005.checkFileType, Part005.getFileMetadata,
    Part005.getProofModeFileMetadatas.
  cbv zeta.
  repeat first [frames_step | case_bool_decide].
Qed.

Lemma frames_handleNewFile path env other project :
  other ≠ path → frames path (Part005.handleNewFile env other project).
Proof.
  intros Hne. pose proof (frames_process path env other project) as Hprocess.
  unfold Part005.handleNewFile, Part005.handleNewFileWith. cbv zeta.
  repeat first [frames_step | case_bool_decide].
Qed.

Lemma terminal_row_short_circuits env path project w row :
  store w !! path = Some row →
  terminal row →
  store (snd (Part005.handleNewFile env path project w)) = store w.
Proof.
  intros Hrow Hterminal.
  unfold Part005.handleNewFile, Part005.handleNewFileWith.
  rewrite bind_run, queryIfFileExists_run.
  destruct (default None (head (db_faults w))) as [e|]; [reflexivity|].
  rewrite Hrow. simpl.
  destruct Hterminal as [-> | ->]; reflexivity.
Qed.

Lemma handleNewFile_keeps_terminal_rows env other project w path row :
  store w !! path = Some row →
  terminal row →
  store (snd (Part005.handleNewFile env other project w)) !! path = Some row.
Proof.
  intros Hrow Hterminal. destruct (decide (other = path)) as [->|Hne].
  - by rewrite (terminal_row_short_circuits env path project w row).
  - by rewrite (frames_handleNewFile path env other project Hne w).
Qed.

(** ** Terminal states *)

(** C4.  Once the row of a path is in state Success or Error, no sequence
    of later invocations of the handler, on that path or on any other, with
    whatever environment, project and database faults, changes it: the
    table holds the very same row at the end of the run. *)
Theorem C4_terminal_rows_are_never_overwritten
    (invocations : list Invocation) (w : World) (path : string) (row : Row) :
  store w !! path = Some row →
  terminal row →
  store (run invocations w) !! path = Some row.
Proof.
  revert w. induction invocations as [|i rest IH]; intros w Hrow Hterminal.
  - exact Hrow.
  - simpl.
    pose proof (handleNewFile_keeps_terminal_rows (inv_env i) (inv_path i)
                  (inv_project i) w path row Hrow Hterminal) as Hkeep.
    destruct (Part005.handleNewFile (inv_env i) (inv_path i) (inv_project i) w)
      as [[r|msg] w']; simpl in Hkeep.
    + by apply IH.
    + exact Hkeep.
Qed.

Lemma C4_witness :
  store
    (run [ {| inv_env := Demo.env; inv_path := "/data/note.txt";
              inv_project := Some Demo.project |};
           {| inv_env := Demo.env_server_error; inv_path := "/data/video.mp4";
              inv_project := None |};
           {| inv_env := Demo.env; inv_path := "/data/note.txt";
              inv_project := None |} ]
       Demo.w_success) !! "/data/note.txt"
  = Some (Demo.row FileStatusSuccess (Some "bafy123") None).
Proof.
  apply (C4_terminal_rows_are_never_overwritten _ Demo.w_success
           "/data/note.txt"
           (Demo.row FileStatusSuccess (Some "bafy123") None)).
  - reflexivity.
  - left. reflexivity.
Defined.

(** ** A run on the note *)

(** The scenario of the specification: the ten-byte note under the sync
    root [/data], allow-list [[".txt"]], is found, classified generic,
    hashed and uploaded; the server answers [bafy123] and the row ends in
    state Success with that identifier, after exactly one request. *)
Example scenario_note :
  FileGo.checkShouldIncludeFile Demo.env
    {| fi_Name := "note.txt"; fi_Size := 10; fi_ModTime := 0 |} = Val true
  ∧ match Part005.handleNewFile Demo.env "/data/note.txt"
            (Some Demo.project) Demo.w_fresh with
    | (r, w') =>
        r = Val ("bafy123", None)
        ∧ row_status <$> store w' !! "/data/note.txt" = Some FileStatusSuccess
        ∧ row_cid <$> store w' !! "/data/note.txt" = Some (Some "bafy123")
        ∧ length (filter is_post (trace w')) = 1
    end.
Proof. vm_compute. repeat split. Qed.

(** ** What the uploader can answer *)

Lemma decode_members members value saved :
  Webhook.Error value = None →
  foldl Webhook.decode_member (value, saved) members =
    ({| Webhook.Cid :=
          default (Webhook.Cid value) (last (omap member_cid members));
        Webhook.Error := None |},
     match saved with
     | Some e => Some e
     | None => head (omap member_error members)
     end).
Proof.
  revert value saved.
  induction members as [|[key v] members IH]; intros [cid err] saved Herr;
    simpl in Herr; subst err.
  - simpl. by destruct saved.
  - simpl. destruct (Webhook.key_is key "cid") eqn:Hcid.
    + destruct v; rewrite IH by reflexivity; simpl;
        rewrite ?last_cons; destruct saved; simpl;
        try reflexivity; try (by destruct (last _)).
    + destruct (Webhook.key_is key "error") eqn:Herror.
      * destruct v; rewrite IH by reflexivity; simpl;
          destruct saved; reflexivity.
      * rewrite IH by reflexivity. reflexivity.
Qed.

(** Decoding a response object, member by member: the first member that
    does not fit its field decides the error (a [cid] that is neither a
    string nor null, an [error] that is not null, keys compared without
    regard to letter case); when every member fits, the identifier is the
    one of the last string-valued [cid] member, the empty string when there
    is none, and the [Error] field is nil. *)
Theorem Decode_object (members : list (string * JSON)) :
  Webhook.Decode (BodyJSON (JObject members)) =
    match head (omap member_error members) with
    | Some e => Err e
    | None =>
        Ok {| Webhook.Cid := default "" (last (omap member_cid members));
              Webhook.Error := None |}
    end.
Proof.
  unfold Webhook.Decode. rewrite decode_members by reflexivity. simpl.
  by destruct (head _).
Qed.

Lemma Decode_Error_nil body value :
  Webhook.Decode body = Ok value → Webhook.Error value = None.
Proof.
  destruct body as [[| | | | |members]|e]; try discriminate.
  - by intros [= <-].
  - rewrite Decode_object. destruct (head _); [discriminate|].
    by intros [= <-].
Qed.

(** The uploader hands a response to its caller only when the URL parsed,
    the whole file was read and sent, the server answered 200 to that
    request and the body decoded; and the [Error] field of a response it
    hands over is always nil. *)
Theorem uploader_returns_a_response_only_on_200
    (env : Env) (file : Reader) (metadata : Metadata)
    (opts : Webhook.PostGenericWebhookOpt) (w : World)
    (resp : Webhook.PostGenericWebhookResponse) :
  fst (Webhook.PostFileToWebHook env file metadata opts w) = Val (Ok resp) →
  ∃ url body,
    url_Parse env (Webhook.endpoint env opts) = Ok url
    ∧ read_all file = Ok (rd_bytes file)
    ∧ server env (Webhook.newRequest env url metadata opts (rd_bytes file))
      = HttpResponse 200 body
    ∧ Webhook.Decode body = Ok resp
    ∧ Webhook.Error resp = None.
Proof.
  unfold Webhook.PostFileToWebHook.
  destruct (url_Parse env _) as [url|e]; [|discriminate].
  destruct (read_all file) as [bytes|e] eqn:Hread; [|discriminate].
  assert (bytes = rd_bytes file) as ->.
  { unfold read_all in Hread. destruct (fault_before _ _); congruence. }
  cbv zeta. rewrite bind_run. simpl.
  destruct (server env _) as [e|StatusCode body] eqn:Hserver; [discriminate|].
  repeat case_bool_decide; try discriminate.
  destruct (Webhook.Decode body) as [value|e] eqn:Hdecode; [|discriminate].
  intros [= <-]. exists url, body.
  assert (StatusCode = 200%Z) as ->
    by (destruct (decide (StatusCode = 200%Z)); [done|contradiction]).
  repeat split; try done. by apply (Decode_Error_nil body).
Qed.

Lemma uploader_returns_a_response_only_on_200_witness :
  ∃ url body,
    url_Parse Demo.env (Webhook.endpoint Demo.env Webhook.no_opts) = Ok url
    ∧ read_all {| rd_bytes := Demo.note_bytes; rd_fault := None |}
      = Ok Demo.note_bytes
    ∧ server Demo.env
        (Webhook.newRequest Demo.env url ∅ Webhook.no_opts Demo.note_bytes)
      = HttpResponse 200 body
    ∧ Webhook.Decode body
      = Ok {| Webhook.Cid := "bafy123"; Webhook.Error := None |}
    ∧ Webhook.Error {| Webhook.Cid := "bafy123"; Webhook.Error := None |}
      = None.
Proof.
  apply (uploader_returns_a_response_only_on_200 Demo.env
           {| rd_bytes := Demo.note_bytes; rd_fault := None |} ∅
           Webhook.no_opts Demo.w_fresh).
  reflexivity.
Defined.

(** The project identifier passed in the options is added to a copy of the
    URL's query and never written back: two calls that differ in
    [ProjectId] only send the same request and give the same answer. *)
Theorem project_id_never_reaches_the_server
    (env : Env) (file : Reader) (metadata : Metadata)
    (opts opts' : Webhook.PostGenericWebhookOpt) :
  Webhook.Source opts = Webhook.Source opts' →
  Webhook.Format opts = Webhook.Format opts' →
  Webhook.PostFileToWebHook env file metadata opts
  = Webhook.PostFileToWebHook env file metadata opts'.
Proof.
  intros Hs Hf. unfold Webhook.PostFileToWebHook, Webhook.endpoint,
    Webhook.sourcePath_of, Webhook.newRequest.
  rewrite Hs, Hf. reflexivity.
Qed.

Lemma project_id_never_reaches_the_server_witness :
  Webhook.PostFileToWebHook Demo.env
    {| rd_bytes := Demo.note_bytes; rd_fault := None |} ∅
    {| Webhook.Source := ""; Webhook.ProjectId := "p1";
       Webhook.Format := "cbor" |}
  = Webhook.PostFileToWebHook Demo.env
      {| rd_bytes := Demo.note_bytes; rd_fault := None |} ∅
      {| Webhook.Source := ""; Webhook.ProjectId := "";
         Webhook.Format := "cbor" |}.
Proof.
  apply (project_id_never_reaches_the_server Demo.env); reflexivity.
Defined.

(** ** The statements of database.go *)

Ltac run_db :=
  unfold then_query, Database.setFileStatusFound,
    Database.setFileStatusUploading, Database.setFileStatusDone,
    Database.setFileStatusError, Database.update_row,
    Database.queryIfFileExists, time_Now, next_db_fault, emit, get_store,
    modify_store, mbind, M_bind, bind, mret, M_ret, ret;
  unfold set_clock, set_db_faults, add_event, set_store; simpl.

(** What the status query reads back after each statement, on a table that
    meets no fault.  On a path without a row the INSERT creates the row in
    state Found and the three UPDATEs succeed without creating anything: the
    query still finds no row.  On a path with a row the INSERT fails on the
    unique constraint and leaves the row alone; each UPDATE sets the status
    and its own column and keeps the other, whatever the status was. *)
Theorem table_round_trips (path : string) (w : World) :
  db_faults w = [] →
  match store w !! path with
  | None =>
      fst (then_query (Database.setFileStatusFound path) path w)
      = Val (None, Ok (Some {| Database.Status := Some FileStatusFound;
                               Database.Cid := None;
                               Database.ErrorMessage := None |}))
      ∧ (∀ sha256,
           fst (then_query (Database.setFileStatusUploading path sha256) path w)
           = Val (None, Ok None))
      ∧ (∀ cid,
           fst (then_query (Database.setFileStatusDone path cid) path w)
           = Val (None, Ok None))
      ∧ (∀ msg,
           fst (then_query (Database.setFileStatusError path msg) path w)
           = Val (None, Ok None))
  | Some row =>
      fst (then_query (Database.setFileStatusFound path) path w)
      = Val (Some Database.unique_violation, Ok (Some (view row)))
      ∧ (∀ sha256,
           fst (then_query (Database.setFileStatusUploading path sha256) path w)
           = Val (None,
                  Ok (Some {| Database.Status := Some FileStatusUploading;
                              Database.Cid := row_cid row;
                              Database.ErrorMessage := row_error row |})))
      ∧ (∀ cid,
           fst (then_query (Database.setFileStatusDone path cid) path w)
           = Val (None,
                  Ok (Some {| Database.Status := Some FileStatusSuccess;
                              Database.Cid := Some cid;
                              Database.ErrorMessage := row_error row |})))
      ∧ (∀ msg,
           fst (then_query (Database.setFileStatusError path msg) path w)
           = Val (None,
                  Ok (Some {| Database.Status := Some FileStatusError;
                              Database.Cid := row_cid row;
                              Database.ErrorMessage := Some msg |})))
  end.
Proof.
  intros Hq. destruct (store w !! path) as [row|] eqn:Hrow.
  - repeat split; intros; run_db; rewrite Hq; simpl; rewrite ?Hrow; simpl;
      rewrite ?lookup_alter_eq, ?Hrow; reflexivity.
  - repeat split; intros; run_db; rewrite Hq; simpl; rewrite ?Hrow; simpl;
      rewrite ?lookup_insert_eq, ?lookup_alter_eq, ?Hrow; reflexivity.
Qed.

Lemma table_round_trips_witness :
  let path := "/data/note.txt" in
  let row := Demo.row FileStatusError None (Some "EOF") in
  fst (then_query (Database.setFileStatusFound path) path Demo.w_error)
  = Val (Some Database.unique_violation, Ok (Some (view row)))
  ∧ (∀ sha256,
       fst (then_query (Database.setFileStatusUploading path sha256) path
              Demo.w_error)
       = Val (None,
              Ok (Some {| Database.Status := Some FileStatusUploading;
                          Database.Cid := None;
                          Database.ErrorMessage := Some "EOF" |})))
  ∧ (∀ cid,
       fst (then_query (Database.setFileStatusDone path cid) path Demo.w_error)
       = Val (None,
              Ok (Some {| Database.Status := Some FileStatusSuccess;
                          Database.Cid := Some cid;
                          Database.ErrorMessage := Some "EOF" |})))
  ∧ (∀ msg,
       fst (then_query (Database.setFileStatusError path msg) path Demo.w_error)
       = Val (None,
              Ok (Some {| Database.Status := Some FileStatusError;
                          Database.Cid := None;
                          Database.ErrorMessage := Some msg |}))).
Proof.
  exact (table_round_trips "/data/note.txt" Demo.w_error eq_refl).
Defined.

(** A statement that fails changes nothing: the error is returned, the
    table is as before, and the query reports the failure instead of a
    row. *)
Theorem failed_statement_changes_nothing
    (path : string) (w : World) (e : error) (rest : list (option error)) :
  db_faults w = Some e :: rest →
  (∀ sha256 cid msg op,
     op ∈ [Database.setFileStatusFound path;
           Database.setFileStatusUploading path sha256;
           Database.setFileStatusDone path cid;
           Database.setFileStatusError path msg] →
     fst (op w) = Val (Some e)
     ∧ store (snd (op w)) = store w
     ∧ db_faults (snd (op w)) = rest)
  ∧ fst (Database.queryIfFileExists path w) = Val (Err e)
  ∧ store (snd (Database.queryIfFileExists path w)) = store w.
Proof.
  intros Hq. split; [|split].
  - intros sha256 cid msg op Hop.
    repeat (apply elem_of_cons in Hop as [->|Hop]);
      [..|by apply elem_of_nil in Hop];
      run_db; rewrite Hq; repeat split; reflexivity.
  - run_db. rewrite Hq. reflexivity.
  - run_db. rewrite Hq. reflexivity.
Qed.

Lemma failed_statement_changes_nothing_witness :
  let w := {| store := store Demo.w_success; clock := 7;
              db_faults := [Some "connection reset"]; trace := [] |} in
  let path := "/data/note.txt" in
  (∀ sha256 cid msg op,
     op ∈ [Database.setFileStatusFound path;
           Database.setFileStatusUploading path sha256;
           Database.setFileStatusDone path cid;
           Database.setFileStatusError path msg] →
     fst (op w) = Val (Some "connection reset")
     ∧ store (snd (op w)) = store w
     ∧ db_faults (snd (op w)) = [])
  ∧ fst (Database.queryIfFileExists path w) = Val (Err "connection reset")
  ∧ store (snd (Database.queryIfFileExists path w)) = store w.
Proof.
  exact (failed_statement_changes_nothing "/data/note.txt"
           {| store := store Demo.w_success; clock := 7;
              db_faults := [Some "connection reset"]; trace := [] |}
           "connection reset" [] eq_refl).
Defined.

(** ** Code that leaves part of the world alone *)

Lemma preserves_ret {A T} (f : World → T) (a : A) : preserves f (mret a).
Proof. intros w. reflexivity. Qed.

Lemma preserves_panic {A T} (f : World → T) msg : preserves f (panic msg : M A).
Proof. intros w. reflexivity. Qed.

Lemma preserves_lift {A T} (f : World → T) (r : Res A) : preserves f (lift r).
Proof. intros w. reflexivity. Qed.

Lemma preserves_bind {A B T} (f : World → T) (m : M A) (k : A → M B) :
  preserves f m → (∀ a, preserves f (k a)) → preserves f (m ≫= k).
Proof.
  intros Hm Hk w. rewrite bind_run. specialize (Hm w).
  destruct (m w) as [[a|msg] w']; simpl in *; [|exact Hm].
  rewrite (Hk a w'). exact Hm.
Qed.

Lemma preserves_forM {A B T} (f : World → T) (l : list A) (body : A → M B) :
  (∀ x, preserves f (body x)) → preserves f (forM l body).
Proof.
  intros Hbody. induction l as [|x l IH]; simpl.
  - apply preserves_ret.
  - apply preserves_bind; [apply Hbody|intros y].
    apply preserves_bind; [exact IH|intros ys]. apply preserves_ret.
Qed.

Lemma posts_add_event e w :
  posts (add_event e w)
  = posts w ++ match e with EvHttpPost req => [req] | _ => [] end.
Proof. unfold posts. simpl. rewrite omap_app. by destruct e. Qed.

Lemma preserves_table_emit e : preserves table (emit e).
Proof. intros w. reflexivity. Qed.

Lemma preserves_posts_emit e : is_post e = false → preserves posts (emit e).
Proof.
  intros He w. simpl. rewrite posts_add_event.
  destruct e; try discriminate; apply app_nil_r.
Qed.

Create HintDb preserves discriminated.
#[local] Hint Resolve preserves_lift preserves_table_emit : preserves.
#[local] Hint Extern 1 (preserves posts (emit _)) =>
  apply preserves_posts_emit; reflexivity : preserves.
#[local] Hint Extern 1 (preserves posts time_Now) =>
  intros ?; reflexivity : preserves.
#[local] Hint Extern 1 (preserves posts next_db_fault) =>
  intros ?; reflexivity : preserves.
#[local] Hint Extern 1 (preserves posts get_store) =>
  intros ?; reflexivity : preserves.
#[local] Hint Extern 1 (preserves posts (modify_store _)) =>
  intros ?; reflexivity : preserves.

Ltac preserves_step :=
  lazymatch goal with
  | |- preserves _ (mret _) => apply preserves_ret
  | |- preserves _ (panic _) => apply preserves_panic
  | |- preserves _ (_ ≫= _) => apply preserves_bind; [|intros ?]
  | |- preserves _ (match ?x with _ => _ end) => destruct x
  | |- preserves _ _ => solve [eauto with preserves]
  end.

Ltac preserves_all := repeat first [preserves_step | case_bool_decide].

(** The statements of database.go post nothing. *)

Lemma silent_setFileStatusFound path :
  preserves posts (Database.setFileStatusFound path).
Proof. unfold Database.setFileStatusFound. preserves_all. Qed.

Lemma silent_update_row path status f :
  preserves posts (Database.update_row path status f).
Proof. unfold Database.update_row. preserves_all. Qed.

#[local] Hint Resolve silent_update_row : preserves.

Lemma silent_setFileStatusUploading path sha256 :
  preserves posts (Database.setFileStatusUploading path sha256).
Proof. unfold Database.setFileStatusUploading. preserves_all. Qed.

Lemma silent_setFileStatusDone path cid :
  preserves posts (Database.setFileStatusDone path cid).
Proof. unfold Database.setFileStatusDone. preserves_all. Qed.

Lemma silent_setFileStatusError path msg :
  preserves posts (Database.setFileStatusError path msg).
Proof. unfold Database.setFileStatusError. preserves_all. Qed.

(** The uploader, the classifier and the fingerprinters leave the table
    alone. *)

Lemma inert_PostFileToWebHook env file metadata opts :
  preserves table (Webhook.PostFileToWebHook env file metadata opts).
Proof. unfold Webhook.PostFileToWebHook. cbv zeta. preserves_all. Qed.

Lemma inert_annotate project (m : Metadata) :
  preserves table (Common.annotate project m).
Proof. unfold Common.annotate, deref. preserves_all. Qed.

Lemma inert_checkFileType env path :
  preserves table (Part005.checkFileType env path).
Proof. unfold Part005.checkFileType. cbv zeta. preserves_all. Qed.

Lemma inert_getFileMetadata env path mediaType :
  preserves table (Part005.getFileMetadata env path mediaType).
Proof. unfold Part005.getFileMetadata. cbv zeta. preserves_all. Qed.

Lemma inert_getProofModeFileMetadatas env path :
  preserves table (Part005.getProofModeFileMetadatas env path).
Proof. unfold Part005.getProofModeFileMetadatas. preserves_all. Qed.

(** ** Pre- and postconditions of the handlers *)

Lemma hoare_ret {A} (P : World → Prop) (a : A) (Q : A → World → Prop) R :
  (∀ w, P w → Q a w) → hoare P (mret a) Q R.
Proof. intros H w Hw. by apply H. Qed.

Lemma hoare_panic {A} (P : World → Prop) msg (Q : A → World → Prop)
    (R : World → Prop) :
  (∀ w, P w → R w) → hoare P (panic msg) Q R.
Proof. intros H w Hw. by apply H. Qed.

Lemma hoare_bind {A B} (P : World → Prop) (m : M A) (k : A → M B)
    (Q' : A → World → Prop) (Q : B → World → Prop) (R : World → Prop) :
  hoare P m Q' R → (∀ a, hoare (Q' a) (k a) Q R) → hoare P (m ≫= k) Q R.
Proof.
  intros Hm Hk w Hw. rewrite bind_run. specialize (Hm w Hw).
  destruct (m w) as [[a|msg] w']; [|exact Hm]. by apply Hk.
Qed.

Lemma hoare_pre {A} (P P' : World → Prop) (m : M A) Q R :
  hoare P' m Q R → (∀ w, P w → P' w) → hoare P m Q R.
Proof. intros Hm HP w Hw. apply Hm. by apply HP. Qed.

Lemma hoare_preserved {A} (P : World → Prop) (m : M A) :
  preserves table m →
  (∀ w w', table w' = table w → P w → P w') →
  hoare P m (λ _, P) P.
Proof.
  intros Hm HP w Hw. specialize (Hm w).
  destruct (m w) as [[a|msg] w']; simpl in Hm; by apply (HP w).
Qed.

Lemma in_progress_table path w w' :
  table w' = table w → in_progress path w → in_progress path w'.
Proof. unfold table, in_progress. intros [= -> ->]. done. Qed.

Lemma append_assoc (a b c : string) : (a +:+ b) +:+ c = a +:+ (b +:+ c).
Proof.
  induction a as [|x a IH]; [reflexivity|].
  change (String x ((a +:+ b) +:+ c) = String x (a +:+ (b +:+ c))).
  by rewrite IH.
Qed.

Lemma ends_with_refl e : ends_with e e.
Proof. by exists "". Qed.

Lemma ends_with_app p msg e : ends_with msg e → ends_with (p +:+ msg) e.
Proof. intros [q ->]. exists (p +:+ q). by rewrite append_assoc. Qed.

Ltac ends_with := repeat first [apply ends_with_refl | apply ends_with_app].

Ltac hoare_inert :=
  eapply hoare_bind;
  [apply hoare_preserved;
   [solve [eauto with preserves]|apply in_progress_table]
  |intros ?].

Lemma hoare_setFileStatusError path e R :
  hoare (in_progress path) (Database.setFileStatusError path e)
    (λ _ w', failed_with path e w') R.
Proof.
  intros w [Hq (row & Hrow & _)].
  destruct (setFileStatusError_quiet path e w row Hq Hrow)
    as (w' & row' & E & _ & Hrow' & Hst & Herr & _).
  rewrite E. exists row', e. repeat split; try done. apply ends_with_refl.
Qed.

Lemma hoare_fail path e msg R :
  ends_with msg e →
  hoare (in_progress path)
    (Database.setFileStatusError path e;; mret ("", Some msg))
    (settled path) R.
Proof.
  intros Hmsg. eapply hoare_bind; [apply hoare_setFileStatusError|].
  intros ?. apply hoare_ret. intros w (row & e' & Hrow & Hst & He & He').
  split; [reflexivity|]. exists row, e'. repeat split; try done.
  destruct Hmsg as [p ->], He' as [q ->]. exists (p +:+ q).
  by rewrite append_assoc.
Qed.

Lemma hoare_fail_loop path e msg R :
  ends_with msg e →
  hoare (in_progress path)
    (Database.setFileStatusError path e;; mret (Err msg : result string))
    (λ r w', match r with
             | Ok _ => in_progress path w'
             | Err msg => failed_with path msg w'
             end) R.
Proof.
  intros Hmsg. eapply hoare_bind; [apply hoare_setFileStatusError|].
  intros ?. apply hoare_ret. intros w (row & e' & Hrow & Hst & He & He').
  exists row, e'. repeat split; try done.
  destruct Hmsg as [p ->], He' as [q ->]. exists (p +:+ q).
  by rewrite append_assoc.
Qed.

Lemma hoare_setFileStatusUploading path sha256 R :
  hoare (in_progress path) (Database.setFileStatusUploading path sha256)
    (λ err w', err = None ∧ in_progress path w') R.
Proof.
  intros w [Hq (row & Hrow & _)].
  destruct (setFileStatusUploading_quiet path sha256 w row Hq Hrow)
    as (w' & row' & E & Hq' & Hrow' & Hst & _).
  rewrite E. split; [reflexivity|]. split; [exact Hq'|]. exists row'. by auto.
Qed.

Lemma hoare_finish path cid R :
  hoare (in_progress path) (Part005.finish path cid) (settled path) R.
Proof.
  intros w [Hq (row & Hrow & _)]. unfold Part005.finish.
  destruct (setFileStatusDone_quiet path cid w row Hq Hrow)
    as (w' & row' & E & _ & Hrow' & Hst & Hcid).
  rewrite (bind_val _ _ _ _ _ E). simpl. by exists row'.
Qed.

Section part005.
Context (env : Env).
Variable post :
  Reader → Metadata → Webhook.PostGenericWebhookOpt →
  M (result Webhook.PostGenericWebhookResponse).
Hypothesis inert_post : ∀ file metadata opts,
  preserves table (post file metadata opts).

Lemma hoare_uploadAssets path fileMap metadatas cid :
  hoare (in_progress path)
    (Part005.uploadAssets post path fileMap metadatas cid)
    (λ r w', match r with
             | Ok _ => in_progress path w'
             | Err msg => failed_with path msg w'
             end)
    (in_progress path).
Proof using inert_post.
  revert cid. induction metadatas as [|m metadatas IH]; intros cid; simpl.
  - by apply hoare_ret.
  - hoare_inert.
    destruct (fileMap !! _) as [zipFile|].
    + destruct (zf_Open zipFile) as [file|e].
      * eapply hoare_bind;
          [apply hoare_preserved; [apply inert_post|apply in_progress_table]|].
        intros [resp|e]; [apply IH|]. apply hoare_fail_loop. ends_with.
      * apply hoare_fail_loop. ends_with.
    + apply hoare_fail_loop. ends_with.
Qed.

Lemma hoare_uploadByType path fileType metadatas first cid :
  hoare (in_progress path)
    (Part005.uploadByType env post path fileType metadatas first cid)
    (settled path) (in_progress path).
Proof using inert_post.
  unfold Part005.uploadByType. repeat case_bool_decide.
  - hoare_inert. destruct (zip_OpenReader env path) as [zipListing|e];
      [|apply hoare_fail; ends_with].
    destruct (util_GetProofModeZipFiles env zipListing) as [fileMap|e];
      [|apply hoare_fail; ends_with].
    eapply hoare_bind; [apply hoare_uploadAssets|].
    intros [cid'|msg]; [apply hoare_finish|].
    apply hoare_ret. intros w Hw. by split.
  - hoare_inert. destruct (os_Open env path) as [file|e];
      [|apply hoare_fail; ends_with].
    eapply hoare_bind;
      [apply hoare_preserved; [apply inert_post|apply in_progress_table]|].
    intros [resp|e]; [apply hoare_finish|apply hoare_fail; ends_with].
  - apply hoare_finish.
Qed.

Lemma hoare_upload path project fileType cid metadatas :
  hoare (in_progress path)
    (Part005.upload env post path project fileType cid metadatas)
    (settled path) (in_progress path).
Proof using inert_post.
  unfold Part005.upload.
  eapply hoare_bind.
  { apply hoare_preserved; [|apply in_progress_table].
    destruct project; [|apply preserves_ret].
    apply preserves_forM. intros. apply inert_annotate. }
  intros metadatas'. eapply hoare_bind.
  { apply hoare_preserved; [|apply in_progress_table].
    destruct metadatas'; [apply preserves_panic|apply preserves_ret]. }
  intros first. hoare_inert.
  eapply hoare_bind; [apply hoare_setFileStatusUploading|].
  intros [e|].
  - intros w [? _]. discriminate.
  - eapply hoare_pre; [apply hoare_uploadByType|]. by intros w [_ ?].
Qed.

Lemma hoare_process path project cid :
  hoare (in_progress path) (Part005.process env post path project cid)
    (settled path) (in_progress path).
Proof using inert_post.
  unfold Part005.process.
  eapply hoare_bind;
    [apply hoare_preserved;
     [apply inert_checkFileType|apply in_progress_table]|].
  intros [[fileType mediaType]|e]; [|apply hoare_fail; ends_with].
  repeat case_bool_decide.
  - eapply hoare_bind;
      [apply hoare_preserved;
       [apply inert_getProofModeFileMetadatas|apply in_progress_table]|].
    intros [metadatas|e]; [apply hoare_upload|apply hoare_fail; ends_with].
  - eapply hoare_bind;
      [apply hoare_preserved;
       [apply inert_getFileMetadata|apply in_progress_table]|].
    intros [metadata|e]; [apply hoare_upload|apply hoare_fail; ends_with].
  - apply hoare_upload.
Qed.

Lemma hoare_handleNewFileWith path project w :
  db_faults w = [] →
  retryable w path →
  match Part005.handleNewFileWith env post path project w with
  | (Val r, w') => settled path r w'
  | (Panic _, w') => in_progress path w'
  end.
Proof using inert_post.
  intros Hq Hretry.
  assert (Hok : next_statement_ok w)
    by (unfold next_statement_ok; by rewrite Hq).
  assert (Hq1 : db_faults (after_query path w) = [])
    by (simpl; by rewrite Hq).
  unfold retryable in Hretry.
  destruct (store w !! path) as [row|] eqn:Hrow.
  - rewrite (status_switch_005 _ _ _ _ _ _ Hrow Hok).
    assert (Hin : in_progress path (after_query path w))
      by (split; [exact Hq1|by exists row]).
    destruct Hretry as [Hst|Hst]; rewrite Hst; simpl;
      by apply hoare_process.
  - unfold Part005.handleNewFileWith.
    rewrite bind_run, queryIfFileExists_run, Hok, Hrow. simpl.
    destruct (setFileStatusFound_fresh path (after_query path w) Hq1 Hrow)
      as (w1 & row1 & E1 & Hq1' & Hrow1 & Hst1 & _).
    rewrite (bind_val _ _ _ _ _ E1).
    apply hoare_process. split; [exact Hq1'|]. exists row1. by auto.
Qed.

End part005.

(** On part_005, on a table that meets no fault and for a path that is new
    or in a retryable state, the handler's answer and the row it leaves
    agree, whatever the file, the environment and the server do.  When it
    returns no error, the row is in state Success and carries the very
    identifier returned; when it returns an error, it returns no identifier,
    the row is in state Error and the stored message is the cause that the
    returned error wraps; and when it panics, the row is still in state
    Found or Uploading, so that the next run retries it. *)
Theorem part005_verdict_and_row_agree
    (env : Env) (path : string) (project : option Database.ProjectQueryResult)
    (w : World) :
  db_faults w = [] →
  retryable w path →
  match Part005.handleNewFile env path project w with
  | (Val r, w') => settled path r w'
  | (Panic _, w') => in_progress path w'
  end.
Proof.
  apply hoare_handleNewFileWith. apply inert_PostFileToWebHook.
Qed.

Lemma part005_verdict_and_row_agree_witness :
  match Part005.handleNewFile Demo.env "/data/note.txt" (Some Demo.project)
          Demo.w_fresh with
  | (Val r, w') => settled "/data/note.txt" r w'
  | (Panic _, w') => in_progress "/data/note.txt" w'
  end.
Proof.
  apply (part005_verdict_and_row_agree Demo.env "/data/note.txt"
           (Some Demo.project) Demo.w_fresh).
  - reflexivity.
  - vm_compute. exact I.
Defined.

(** ** What the server receives *)

Lemma handleNewFileWith_retryable env post path project w :
  db_faults w = [] →
  retryable w path →
  ∃ w1 row1,
    Part005.handleNewFileWith env post path project w
    = Part005.process env post path project
        (default "" (stored_cid w path)) w1
    ∧ db_faults w1 = []
    ∧ store w1 !! path = Some row1
    ∧ (row_status row1 = FileStatusFound
       ∨ row_status row1 = FileStatusUploading)
    ∧ row_cid row1 = stored_cid w path
    ∧ posts w1 = posts w.
Proof.
  intros Hq Hretry.
  assert (Hok : next_statement_ok w)
    by (unfold next_statement_ok; by rewrite Hq).
  assert (Hq1 : db_faults (after_query path w) = [])
    by (simpl; by rewrite Hq).
  assert (Hp1 : posts (after_query path w) = posts w).
  { unfold after_query. rewrite posts_add_event. apply app_nil_r. }
  unfold retryable, stored_cid in *.
  destruct (store w !! path) as [row|] eqn:Hrow; simpl.
  - rewrite (status_switch_005 _ _ _ _ _ _ Hrow Hok).
    exists (after_query path w), row.
    split; [destruct Hretry as [Hst|Hst]; rewrite Hst; reflexivity|].
    by repeat split.
  - unfold Part005.handleNewFileWith.
    rewrite bind_run, queryIfFileExists_run, Hok, Hrow. simpl.
    destruct (setFileStatusFound_fresh path (after_query path w) Hq1 Hrow)
      as (w1 & row1 & E1 & Hq1' & Hrow1 & Hst1 & Hcid1).
    pose proof (silent_setFileStatusFound path (after_query path w)) as Hp.
    rewrite E1 in Hp. simpl in Hp.
    rewrite (bind_val _ _ _ _ _ E1).
    exists w1, row1. repeat split; try done; [by left|congruence].
Qed.

Lemma silent_checkFileType env path :
  preserves posts (Part005.checkFileType env path).
Proof. unfold Part005.checkFileType. cbv zeta. preserves_all. Qed.

Lemma silent_getFileMetadata env path mediaType :
  preserves posts (Part005.getFileMetadata env path mediaType).
Proof. unfold Part005.getFileMetadata. cbv zeta. preserves_all. Qed.

Lemma silent_getProofModeFileMetadatas env path :
  preserves posts (Part005.getProofModeFileMetadatas env path).
Proof. unfold Part005.getProofModeFileMetadatas. preserves_all. Qed.

(** The classifier's answer on a readable generic file, zip container or
    not. *)
Lemma checkFileType_generic_run env path file info w :
  generic_file env path file info →
  ∃ w',
    Part005.checkFileType env path w =
      (Val (Ok ("generic",
                http_DetectContentType env
                  (take 512 (rd_bytes (f_reader file))))), w')
    ∧ table w' = table w ∧ posts w' = posts w.
Proof.
  intros Hfile.
  pose proof (inert_checkFileType env path w) as Ht.
  pose proof (silent_checkFileType env path w) as Hp.
  destruct Hfile as [Hopen _ Hfault Hne Hgen].
  revert Ht Hp. unfold Part005.checkFileType.
  rewrite !bind_run. simpl. rewrite Hopen. rewrite !bind_run. simpl.
  rewrite (read_once_no_fault _ _ Hfault Hne). rewrite !bind_run. simpl.
  case_bool_decide as Hzip.
  - rewrite bind_run. simpl. rewrite (Hgen Hzip). intros Ht Hp.
    eexists. split; [reflexivity|]. by split.
  - intros Ht Hp. eexists. split; [reflexivity|]. by split.
Qed.

Lemma getFileMetadata_generic_run env path mediaType file info w :
  generic_file env path file info →
  ∃ m : Metadata,
    Part005.getFileMetadata env path mediaType w =
      (Val (Ok m),
       add_event (EvHash path)
         (add_event (EvFileRead path) (add_event (EvFileOpen path) w)))
    ∧ (mediaType
       = http_DetectContentType env (take 512 (rd_bytes (f_reader file))) →
       fingerprinted env path file info m)
    ∧ m !! "project_id" = None ∧ m !! "project_path" = None.
Proof.
  intros [Hopen Hstat Hfault _ _]. unfold Part005.getFileMetadata.
  rewrite !bind_run. simpl. rewrite Hopen, Hstat. rewrite !bind_run. simpl.
  rewrite (read_all_no_fault _ Hfault). simpl.
  eexists. split; [reflexivity|]. split; [intros ->|];
    repeat split; reflexivity.
Qed.

Lemma annotate_keys project_id project_path project (m : Metadata) w :
  Database.ProjectId project = Some project_id →
  Database.ProjectPath project = Some project_path →
  ∃ m' : Metadata,
    Common.annotate project m w = (Val m', w)
    ∧ m' !! "project_id" = Some (AString project_id)
    ∧ m' !! "project_path" = Some (AString project_path)
    ∧ ∀ k, k ≠ "project_id" → k ≠ "project_path" → k ≠ "author" →
           m' !! k = m !! k.
Proof.
  intros Hid Hpath. unfold Common.annotate.
  rewrite Hid, Hpath. rewrite !bind_run. simpl.
  case_bool_decide; (eexists; split; [reflexivity|]);
    (split; [|split]);
    rewrite ?lookup_insert_ne by done; rewrite ?lookup_insert_eq;
    try reflexivity; intros k ? ? ?; by rewrite ?lookup_insert_ne.
Qed.

Lemma annotate_generic env path file info project (m : Metadata) w :
  well_formed project →
  fingerprinted env path file info m →
  m !! "project_id" = None → m !! "project_path" = None →
  ∃ m' : Metadata,
    match project with
    | Some project => forM [m] (Common.annotate project)
    | None => mret [m]
    end w = (Val [m'], w)
    ∧ fingerprinted env path file info m'
    ∧ labelled project m'.
Proof.
  intros Hwf Hm Hno1 Hno2. destruct project as [project|]; simpl.
  - destruct Hwf as [[project_id Hid] [project_path Hpath]].
    destruct (annotate_keys _ _ _ m w Hid Hpath) as (m' & E & H1 & H2 & Hk).
    exists m'. split; [rewrite bind_run, E; reflexivity|].
    split; [|by rewrite Hid, Hpath].
    unfold fingerprinted in *. rewrite !Hk by done. exact Hm.
  - exists m. split; [reflexivity|]. split; [exact Hm|]. by split.
Qed.

Lemma PostFileToWebHook_posts env file metadata opts url w :
  url_Parse env (Webhook.endpoint env opts) = Ok url →
  rd_fault file = None →
  ∃ r,
    Webhook.PostFileToWebHook env file metadata opts w =
      (Val r,
       add_event
         (EvHttpPost (Webhook.newRequest env url metadata opts (rd_bytes file)))
         w).
Proof.
  intros Hurl Hfault. unfold Webhook.PostFileToWebHook.
  rewrite Hurl, (read_all_no_fault _ Hfault). cbv zeta.
  rewrite bind_run. simpl.
  destruct (server env _) as [e|StatusCode body]; [by eexists|].
  repeat case_bool_decide; try (by eexists).
  destruct (Webhook.Decode body); by eexists.
Qed.

(** The uploader on a stream that reads without fault: one request, and
    the verdict on what the server answers to it. *)
Lemma PostFileToWebHook_answer env file metadata opts url w :
  url_Parse env (Webhook.endpoint env opts) = Ok url →
  rd_fault file = None →
  Webhook.PostFileToWebHook env file metadata opts w =
    (Val (verdict
            (server env
               (Webhook.newRequest env url metadata opts (rd_bytes file)))),
     add_event
       (EvHttpPost (Webhook.newRequest env url metadata opts (rd_bytes file)))
       w).
Proof.
  intros Hurl Hfault.
  destruct (server env (Webhook.newRequest env url metadata opts
                          (rd_bytes file)))
    as [e|StatusCode body] eqn:Hserver.
  - unfold Webhook.PostFileToWebHook.
    rewrite Hurl, (read_all_no_fault _ Hfault). cbv zeta.
    rewrite bind_run. simpl. rewrite Hserver. reflexivity.
  - exact (PostFileToWebHook_run env file metadata opts w url (rd_bytes file)
             StatusCode body Hurl (read_all_no_fault _ Hfault) Hserver).
Qed.

Lemma silent_finish path cid : preserves posts (Part005.finish path cid).
Proof.
  unfold Part005.finish.
  apply preserves_bind; [apply silent_setFileStatusDone|intros [e|]];
    apply preserves_ret.
Qed.

(** The run of the handler below the status switch on a readable generic
    file, on a table that meets no fault: the one request, the verdict and
    the row that the verdict leaves. *)
Lemma process_generic_run env path project cid w file info row url :
  db_faults w = [] →
  store w !! path = Some row →
  well_formed project →
  generic_file env path file info →
  url_Parse env (Webhook.endpoint env Webhook.no_opts) = Ok url →
  ∃ (m : Metadata) req w' row',
    req = Webhook.newRequest env url m Webhook.no_opts
            (rd_bytes (f_reader file))
    ∧ fingerprinted env path file info m
    ∧ labelled project m
    ∧ Part005.process env (Webhook.PostFileToWebHook env) path project cid w
      = (Val match verdict (server env req) with
             | Err e =>
                 ("", Some ("error posting metadata for file " +:+ path
                            +:+ ": " +:+ e))
             | Ok resp => (Webhook.Cid resp, None)
             end, w')
    ∧ posts w' = posts w ++ [req]
    ∧ store w' !! path = Some row'
    ∧ match verdict (server env req) with
      | Err e =>
          row_status row' = FileStatusError ∧ row_error row' = Some e
          ∧ row_cid row' = row_cid row
      | Ok resp =>
          row_status row' = FileStatusSuccess
          ∧ row_cid row' = Some (Webhook.Cid resp)
      end.
Proof.
  intros Hq Hrow Hwf Hfile Hurl. unfold Part005.process.
  destruct (checkFileType_generic_run env path file info w Hfile)
    as (w1 & E1 & [= Hs1 Hq1] & Hp1).
  rewrite (bind_val _ _ _ _ _ E1). simpl.
  match goal with
  | |- context [mbind _ (Part005.getFileMetadata env path ?mt) ?w1] =>
      destruct (getFileMetadata_generic_run env path mt file info w1 Hfile)
        as (m & E2 & Hm & Hno1 & Hno2)
  end.
  rewrite (bind_val _ _ _ _ _ E2). specialize (Hm eq_refl).
  unfold Part005.upload.
  match goal with
  | |- context [mbind _ (match project with _ => _ end) ?w2] =>
      destruct (annotate_generic env path file info project m w2 Hwf Hm Hno1 Hno2)
        as (m' & E3 & Hm' & Hl');
      set (w2' := w2) in *
  end.
  rewrite (bind_val _ _ _ _ _ E3).
  rewrite !bind_run. simpl.
  pose proof Hm' as (Hsha & _). rewrite Hsha. simpl.
  assert (Hq2 : db_faults w2' = []) by (subst w2'; simpl; by rewrite Hq1).
  assert (Hrow2 : store w2' !! path = Some row)
    by (subst w2'; simpl; by rewrite Hs1).
  assert (Hp2 : posts w2' = posts w).
  { subst w2'. rewrite !posts_add_event. simpl. by rewrite !app_nil_r. }
  clearbody w2'.
  destruct (setFileStatusUploading_quiet path
              (hex_EncodeToString (sha256_Sum env (rd_bytes (f_reader file))))
              w2' row Hq2 Hrow2)
    as (w3 & row3 & E4 & Hq3 & Hrow3 & _ & Hcid3).
  pose proof (silent_setFileStatusUploading path
                (hex_EncodeToString (sha256_Sum env (rd_bytes (f_reader file))))
                w2') as Hp3.
  rewrite E4 in Hp3. simpl in Hp3.
  rewrite bind_run. simpl. rewrite (bind_val _ _ _ _ _ E4).
  unfold Part005.uploadByType. simpl.
  rewrite bind_run. simpl. rewrite (gf_open _ _ _ _ Hfile).
  rewrite (bind_val _ _ _ _ _
             (PostFileToWebHook_answer env (f_reader file) m' Webhook.no_opts
                url (add_event (EvFileOpen path) w3) Hurl
                (gf_fault _ _ _ _ Hfile))).
  set (req := Webhook.newRequest env url m' Webhook.no_opts
                (rd_bytes (f_reader file))).
  set (w4 := add_event (EvHttpPost req) (add_event (EvFileOpen path) w3)).
  assert (Hq4 : db_faults w4 = []) by exact Hq3.
  assert (Hrow4 : store w4 !! path = Some row3) by exact Hrow3.
  assert (Hp4 : posts w4 = posts w ++ [req]).
  { subst w4. rewrite !posts_add_event. simpl. by rewrite app_nil_r, Hp3, Hp2. }
  clearbody w4.
  exists m', req.
  destruct (verdict (server env req)) as [resp|e].
  - unfold Part005.finish.
    destruct (setFileStatusDone_quiet path (Webhook.Cid resp) w4 row3
                Hq4 Hrow4) as (w5 & row5 & E6 & _ & Hrow5 & Hst5 & Hcid5).
    pose proof (silent_setFileStatusDone path (Webhook.Cid resp) w4) as Hp5.
    rewrite E6 in Hp5. simpl in Hp5.
    rewrite (bind_val _ _ _ _ _ E6). simpl.
    exists w5, row5. split; [reflexivity|]. split; [exact Hm'|].
    split; [exact Hl'|]. split; [reflexivity|]. split; [by rewrite Hp5|].
    by split.
  - destruct (setFileStatusError_quiet path e w4 row3 Hq4 Hrow4)
      as (w5 & row5 & E6 & _ & Hrow5 & Hst5 & Herr5 & Hcid5).
    pose proof (silent_setFileStatusError path e w4) as Hp5.
    rewrite E6 in Hp5. simpl in Hp5.
    rewrite (bind_val _ _ _ _ _ E6). simpl.
    exists w5, row5. split; [reflexivity|]. split; [exact Hm'|].
    split; [exact Hl'|]. split; [reflexivity|]. split; [by rewrite Hp5|].
    split; [exact Hrow5|]. split; [exact Hst5|]. split; [exact Herr5|].
    by rewrite Hcid5.
Qed.

Lemma handle_generic_run env path project w file info url :
  db_faults w = [] →
  retryable w path →
  well_formed project →
  generic_file env path file info →
  url_Parse env (Webhook.endpoint env Webhook.no_opts) = Ok url →
  ∃ (m : Metadata) req w' row',
    req = Webhook.newRequest env url m Webhook.no_opts
            (rd_bytes (f_reader file))
    ∧ fingerprinted env path file info m
    ∧ labelled project m
    ∧ Part005.handleNewFile env path project w
      = (Val match verdict (server env req) with
             | Err e =>
                 ("", Some ("error posting metadata for file " +:+ path
                            +:+ ": " +:+ e))
             | Ok resp => (Webhook.Cid resp, None)
             end, w')
    ∧ posts w' = posts w ++ [req]
    ∧ store w' !! path = Some row'
    ∧ match verdict (server env req) with
      | Err e =>
          row_status row' = FileStatusError ∧ row_error row' = Some e
          ∧ row_cid row' = stored_cid w path
      | Ok resp =>
          row_status row' = FileStatusSuccess
          ∧ row_cid row' = Some (Webhook.Cid resp)
      end.
Proof.
  intros Hq Hretry Hwf Hfile Hurl.
  destruct (handleNewFileWith_retryable env (Webhook.PostFileToWebHook env)
              path project w Hq Hretry)
    as (w1 & row1 & E & Hq1 & Hrow1 & _ & Hcid1 & Hp1).
  destruct (process_generic_run env path project
              (default "" (stored_cid w path)) w1 file info row1 url
              Hq1 Hrow1 Hwf Hfile Hurl)
    as (m & req & w' & row' & Hreq & Hm & Hl & E' & Hp & Hrow' & Hr).
  exists m, req, w', row'. unfold Part005.handleNewFile. rewrite E, E'.
  split; [exact Hreq|]. split; [exact Hm|]. split; [exact Hl|].
  split; [reflexivity|]. split; [by rewrite Hp, Hp1|].
  split; [exact Hrow'|].
  destruct (verdict (server env req)); [exact Hr|].
  destruct Hr as (? & ? & Hc). by rewrite Hc.
Qed.

Lemma note_is_generic (server : Request → HttpOutcome) :
  generic_file (Demo.env_with [".txt"] server) "/data/note.txt"
    (Demo.file_of "note.txt" Demo.note_bytes)
    {| fi_Name := "note.txt"; fi_Size := 10; fi_ModTime := 0 |}.
Proof. split; vm_compute; congruence. Qed.

(** On part_005, when no database statement fails: for a readable generic
    file (a zip container that is no signed bundle included) on a path that
    is new or in state Found or Uploading, with no project or a project
    whose identifier and path are set, and an endpoint URL that parses, the
    handler posts exactly one request, whatever the server then answers: to
    the parsed endpoint, with JSON metadata, carrying the whole content of
    the file together with a metadata record that holds the digests of that
    same content, the file's size and name, the sniffed media type, the
    origin under the sync root and the project's identifier and path. *)
Theorem part005_sends_the_file_with_its_digests
    (env : Env) (path : string) (project : option Database.ProjectQueryResult)
    (w : World) (file : File) (info : FileInfo) (url : string) :
  db_faults w = [] →
  retryable w path →
  well_formed project →
  generic_file env path file info →
  url_Parse env (Webhook.endpoint env Webhook.no_opts) = Ok url →
  ∃ req,
    posts (snd (Part005.handleNewFile env path project w)) = posts w ++ [req]
    ∧ req_url req = url
    ∧ req_metadata_format req = "application/json"
    ∧ req_file req = rd_bytes (f_reader file)
    ∧ fingerprinted env path file info (req_metadata req)
    ∧ labelled project (req_metadata req).
Proof.
  intros Hq Hretry Hwf Hfile Hurl.
  destruct (handle_generic_run env path project w file info url
              Hq Hretry Hwf Hfile Hurl)
    as (m & req & w' & row' & -> & Hm & Hl & E & Hp & _).
  eexists. rewrite E. split; [exact Hp|].
  split; [reflexivity|]. split; [reflexivity|]. split; [reflexivity|].
  split; [exact Hm|exact Hl].
Qed.

Lemma part005_sends_the_file_with_its_digests_witness :
  let file := Demo.file_of "note.txt" Demo.note_bytes in
  let info := {| fi_Name := "note.txt"; fi_Size := 10; fi_ModTime := 0 |} in
  ∃ req,
    posts (snd (Part005.handleNewFile Demo.env "/data/note.txt"
                  (Some Demo.project) Demo.w_fresh))
    = posts Demo.w_fresh ++ [req]
    ∧ req_url req = "http://localhost:8080/generic"
    ∧ req_metadata_format req = "application/json"
    ∧ req_file req = rd_bytes (f_reader file)
    ∧ fingerprinted Demo.env "/data/note.txt" file info (req_metadata req)
    ∧ labelled (Some Demo.project) (req_metadata req).
Proof.
  apply (part005_sends_the_file_with_its_digests Demo.env "/data/note.txt"
           (Some Demo.project) Demo.w_fresh
           (Demo.file_of "note.txt" Demo.note_bytes)
           {| fi_Name := "note.txt"; fi_Size := 10; fi_ModTime := 0 |}
           "http://localhost:8080/generic").
  - reflexivity.
  - vm_compute. exact I.
  - split; eexists; reflexivity.
  - apply note_is_generic.
  - reflexivity.
Defined.

(** ** The identifier recorded by part_005 *)

(** On part_005, when no database statement fails: for a readable generic
    file on a path that is new or in state Found or Uploading, with no
    project or a project whose identifier and path are set, and an endpoint
    URL that parses, the handler posts one request and the uploader's
    verdict on the server's answer to that request decides the row.  When
    the verdict is a response, the row ends in state Success with the
    identifier of that response, which is also what the handler returns;
    on any other verdict (transport failure, rejected request, bad status,
    undecodable body) the handler returns the wrapped error, the row ends in
    state Error with the uploader's message and the identifier column is
    left as it was. *)
Theorem part005_identifier_comes_from_a_clean_upload
    (env : Env) (path : string) (project : option Database.ProjectQueryResult)
    (w : World) (file : File) (info : FileInfo) (url : string) :
  db_faults w = [] →
  retryable w path →
  well_formed project →
  generic_file env path file info →
  url_Parse env (Webhook.endpoint env Webhook.no_opts) = Ok url →
  ∃ req w' row',
    posts w' = posts w ++ [req]
    ∧ Part005.handleNewFile env path project w =
        (Val match verdict (server env req) with
             | Err e =>
                 ("", Some ("error posting metadata for file " +:+ path
                            +:+ ": " +:+ e))
             | Ok resp => (Webhook.Cid resp, None)
             end, w')
    ∧ store w' !! path = Some row'
    ∧ match verdict (server env req) with
      | Err e =>
          row_status row' = FileStatusError ∧ row_error row' = Some e
          ∧ row_cid row' = stored_cid w path
      | Ok resp =>
          row_status row' = FileStatusSuccess
          ∧ row_cid row' = Some (Webhook.Cid resp)
      end.
Proof.
  intros Hq Hretry Hwf Hfile Hurl.
  destruct (handle_generic_run env path project w file info url
              Hq Hretry Hwf Hfile Hurl)
    as (m & req & w' & row' & _ & _ & _ & E & Hp & Hrow' & Hr).
  by exists req, w', row'.
Qed.

Lemma part005_identifier_witness :
  let outcome (server : Request → HttpOutcome) :=
    let env := Demo.env_with [".txt"] server in
    ∃ req w' row',
      posts w' = posts Demo.w_fresh ++ [req]
      ∧ Part005.handleNewFile env "/data/note.txt" (Some Demo.project)
          Demo.w_fresh =
          (Val match verdict (server req) with
               | Err e =>
                   ("", Some ("error posting metadata for file "
                              +:+ "/data/note.txt" +:+ ": " +:+ e))
               | Ok resp => (Webhook.Cid resp, None)
               end, w')
      ∧ store w' !! "/data/note.txt" = Some row'
      ∧ match verdict (server req) with
        | Err e =>
            row_status row' = FileStatusError ∧ row_error row' = Some e
            ∧ row_cid row' = stored_cid Demo.w_fresh "/data/note.txt"
        | Ok resp =>
            row_status row' = FileStatusSuccess
            ∧ row_cid row' = Some (Webhook.Cid resp)
        end in
  outcome (Demo.reply 200 [("cid", JString "bafy123")])
  ∧ outcome (Demo.reply 503 []).
Proof.
  split.
  - apply (part005_identifier_comes_from_a_clean_upload
             (Demo.env_with [".txt"]
                (Demo.reply 200 [("cid", JString "bafy123")]))
             "/data/note.txt" (Some Demo.project) Demo.w_fresh
             (Demo.file_of "note.txt" Demo.note_bytes)
             {| fi_Name := "note.txt"; fi_Size := 10; fi_ModTime := 0 |}
             "http://localhost:8080/generic").
    + reflexivity.
    + vm_compute. exact I.
    + split; eexists; reflexivity.
    + apply note_is_generic.
    + reflexivity.
  - apply (part005_identifier_comes_from_a_clean_upload
             (Demo.env_with [".txt"] (Demo.reply 503 []))
             "/data/note.txt" (Some Demo.project) Demo.w_fresh
             (Demo.file_of "note.txt" Demo.note_bytes)
             {| fi_Name := "note.txt"; fi_Size := 10; fi_ModTime := 0 |}
             "http://localhost:8080/generic").
    + reflexivity.
    + vm_compute. exact I.
    + split; eexists; reflexivity.
    + apply note_is_generic.
    + reflexivity.
Defined.

(** ** A server-side error in a 200 response *)

Lemma PostFileToWebHook_Error_nil env file metadata opts w resp :
  fst (Webhook.PostFileToWebHook env file metadata opts w) = Val (Ok resp) →
  Webhook.Error resp = None.
Proof.
  unfold Webhook.PostFileToWebHook.
  destruct (url_Parse env _) as [url|e]; [|discriminate].
  destruct (read_all file) as [bytes|e]; cbv zeta; rewrite bind_run; simpl;
    [|discriminate].
  destruct (server env _) as [e|StatusCode body]; [discriminate|].
  repeat case_bool_decide; try discriminate.
  destruct (Webhook.Decode body) as [value|e] eqn:Hdecode; [|discriminate].
  intros [= <-]. exact (Decode_Error_nil body value Hdecode).
Qed.

(** C8 (as amended).  Take an upload by the handler of part_005 of a
    readable generic file: a path that is new or in state Found or
    Uploading, no project or a project whose identifier and path are set,
    an endpoint URL that parses, no failing database statement; and let the
    server answer the request of that upload with 200 and a JSON object
    holding a non-null member named [error].  The uploader itself fails:
    the member cannot be decoded into the field of interface type [error],
    so [PostFileToWebHook] returns the decoding error.  The handler treats
    it like any failed upload: it returns the wrapped error and no
    identifier, the row ends in the terminal state Error with the decoding
    error as its message, and the identifier column is left as it was.
    The caller has no field to check: a response that the uploader returns
    always has a nil [Error]. *)
Theorem C8_error_member_fails_the_upload
    (env : Env) (path : string) (project : option Database.ProjectQueryResult)
    (w : World) (file : File) (info : FileInfo) (url : string)
    (req : Request) (members : list (string * JSON)) (key : string) (v : JSON) :
  db_faults w = [] →
  retryable w path →
  well_formed project →
  generic_file env path file info →
  url_Parse env (Webhook.endpoint env Webhook.no_opts) = Ok url →
  posts (snd (Part005.handleNewFile env path project w)) = posts w ++ [req] →
  server env req = HttpResponse 200 (BodyJSON (JObject members)) →
  (key, v) ∈ members →
  Webhook.key_is key "error" = true →
  v ≠ JNull →
  (∃ e w' row',
     Webhook.Decode (BodyJSON (JObject members)) = Err e
     ∧ Part005.handleNewFile env path project w =
         (Val ("", Some ("error posting metadata for file " +:+ path
                         +:+ ": " +:+ e)), w')
     ∧ store w' !! path = Some row'
     ∧ row_status row' = FileStatusError
     ∧ row_error row' = Some e
     ∧ row_cid row' = stored_cid w path)
  ∧ (∀ file' metadata opts w0 resp,
       fst (Webhook.PostFileToWebHook env file' metadata opts w0)
       = Val (Ok resp) →
       Webhook.Error resp = None).
Proof.
  intros Hq Hretry Hwf Hfile Hurl Hposted Hserver Hin Hkey Hv.
  split; [|intros file' metadata opts w0 resp;
           apply PostFileToWebHook_Error_nil].
  destruct (Decode_error_member members key v Hin Hkey Hv) as [e He].
  destruct (handle_generic_run env path project w file info url
              Hq Hretry Hwf Hfile Hurl)
    as (m & req' & w' & row' & _ & _ & _ & E & Hp & Hrow' & Hr).
  assert (req' = req) as ->.
  { rewrite E in Hposted. simpl in Hposted. rewrite Hp in Hposted.
    apply app_inv_head in Hposted. congruence. }
  assert (Hverdict : verdict (server env req) = Err e)
    by (rewrite Hserver; exact He).
  rewrite Hverdict in E, Hr.
  by exists e, w', row'.
Qed.

Lemma C8_witness :
  let env := Demo.env_server_error in
  let path := "/data/note.txt" in
  let project := Some Demo.project in
  let w := Demo.w_fresh in
  let members :=
    [("cid", JString "bafy123"); ("error", JString "quota exceeded")] in
  (∃ e w' row',
     Webhook.Decode (BodyJSON (JObject members)) = Err e
     ∧ Part005.handleNewFile env path project w =
         (Val ("", Some ("error posting metadata for file " +:+ path
                         +:+ ": " +:+ e)), w')
     ∧ store w' !! path = Some row'
     ∧ row_status row' = FileStatusError
     ∧ row_error row' = Some e
     ∧ row_cid row' = stored_cid w path)
  ∧ (∀ file' metadata opts w0 resp,
       fst (Webhook.PostFileToWebHook env file' metadata opts w0)
       = Val (Ok resp) →
       Webhook.Error resp = None).
Proof.
  apply (C8_error_member_fails_the_upload Demo.env_server_error
           "/data/note.txt" (Some Demo.project) Demo.w_fresh
           (Demo.file_of "note.txt" Demo.note_bytes)
           {| fi_Name := "note.txt"; fi_Size := 10; fi_ModTime := 0 |}
           "http://localhost:8080/generic" note_request
           [("cid", JString "bafy123"); ("error", JString "quota exceeded")]
           "error" (JString "quota exceeded")).
  - reflexivity.
  - vm_compute. exact I.
  - split; eexists; reflexivity.
  - apply note_is_generic.
  - reflexivity.
  - vm_compute. reflexivity.
  - reflexivity.
  - apply list_elem_of_further, list_elem_of_here.
  - reflexivity.
  - discriminate.
Defined.

(** C8, the claim as stated fails when the statement that records the
    failure fails itself.  The note of [/data] is new to the table, the
    server answers its upload with 200 and the members [cid] and [error],
    and the fourth database statement of the run, the one that sets the
    status Error, meets a lost connection: the handler returns the upload
    error, but the row stays in state Uploading, which is no terminal
    state. *)
Lemma C8_counterexample :
  let w :=
    set_db_faults [None; None; None; Some "connection lost"] Demo.w_fresh in
  match Part005.handleNewFile Demo.env_server_error "/data/note.txt"
          (Some Demo.project) w with
  | (r, w') =>
      posts w' = [note_request]
      ∧ server Demo.env_server_error note_request
        = HttpResponse 200
            (BodyJSON (JObject [("cid", JString "bafy123");
                                ("error", JString "quota exceeded")]))
      ∧ r = Val ("", Some ("error posting metadata for file /data/note.txt: "
                           +:+ "json: cannot unmarshal string into Go struct "
                           +:+ "field PostGenericWebhookResponse.error of "
                           +:+ "type error"))
      ∧ row_status <$> store w' !! "/data/note.txt"
        = Some FileStatusUploading
      ∧ row_error <$> store w' !! "/data/note.txt" = Some None
  end.
Proof. vm_compute. repeat split. Qed.

(** ** Failures before the upload *)

Lemma fail_run path e (msg : string) w row :
  db_faults w = [] →
  store w !! path = Some row →
  ∃ w' row',
    (Database.setFileStatusError path e;; mret ("", Some msg)) w
    = (Val ("", Some msg), w')
    ∧ store w' !! path = Some row'
    ∧ row_status row' = FileStatusError
    ∧ row_error row' = Some e
    ∧ row_cid row' = row_cid row
    ∧ posts w' = posts w.
Proof.
  intros Hq Hrow.
  destruct (setFileStatusError_quiet path e w row Hq Hrow)
    as (w' & row' & E & _ & Hrow' & Hst & Herr & Hcid).
  pose proof (silent_setFileStatusError path e w) as Hp.
  rewrite E in Hp. simpl in Hp.
  exists w', row'. rewrite (bind_val _ _ _ _ _ E). by repeat split.
Qed.

Lemma recorded_failure_intro env path project w text e :
  db_faults w = [] →
  retryable w path →
  (∀ cid w1 row1,
     db_faults w1 = [] → store w1 !! path = Some row1 →
     ∃ w2,
       Part005.process env (Webhook.PostFileToWebHook env) path project cid w1
       = (Database.setFileStatusError path e;; mret ("", Some (text +:+ e))) w2
       ∧ table w2 = table w1 ∧ posts w2 = posts w1) →
  recorded_failure env path project w text e.
Proof.
  intros Hq Hretry Hprocess.
  destruct (handleNewFileWith_retryable env (Webhook.PostFileToWebHook env)
              path project w Hq Hretry)
    as (w1 & row1 & E & Hq1 & Hrow1 & _ & Hcid1 & Hp1).
  destruct (Hprocess (default "" (stored_cid w path)) w1 row1 Hq1 Hrow1)
    as (w2 & E2 & [= Hs2 Hq2] & Hp2).
  assert (Hq2' : db_faults w2 = []) by congruence.
  assert (Hrow2 : store w2 !! path = Some row1) by congruence.
  destruct (fail_run path e (text +:+ e) w2 row1 Hq2' Hrow2)
    as (w' & row' & E3 & Hrow' & Hst & Herr & Hcid & Hp).
  exists w', row'. unfold Part005.handleNewFile. rewrite E, E2, E3.
  repeat split; try done; congruence.
Qed.

Lemma classified_run env path fileType mediaType w :
  classified env path fileType mediaType →
  ∃ w',
    Part005.checkFileType env path w = (Val (Ok (fileType, mediaType)), w')
    ∧ table w' = table w ∧ posts w' = posts w.
Proof.
  intros Hc. specialize (Hc w).
  pose proof (inert_checkFileType env path w) as Ht.
  pose proof (silent_checkFileType env path w) as Hp.
  destruct (Part005.checkFileType env path w) as [r w']. simpl in *.
  subst r. by exists w'.
Qed.

Lemma classification_failure_recorded env path project w e :
  db_faults w = [] →
  retryable w path →
  classification_fails env path e →
  recorded_failure env path project w "error checking file type: " e.
Proof.
  intros Hq Hretry He. apply recorded_failure_intro; [done..|].
  intros cid w1 row1 Hq1 Hrow1. unfold Part005.process, Part005.checkFileType.
  unfold classification_fails in He.
  rewrite !bind_run. simpl.
  destruct (os_Open env path) as [file|e'].
  - rewrite !bind_run. simpl. rewrite He.
    eexists. split; [reflexivity|]. split; [reflexivity|].
    rewrite !posts_add_event. simpl. by rewrite !app_nil_r.
  - subst e'. eexists. split; [reflexivity|]. split; [reflexivity|].
    rewrite !posts_add_event. simpl. by rewrite !app_nil_r.
Qed.

(** On part_005, when no database statement fails and for a path that is
    new or in state Found or Uploading, every failure before the upload is
    recorded: the handler returns the wrapped error, the row ends in state
    Error with the cause as its message, the identifier column is left as it
    was and nothing is posted.  The failures are: the file cannot be opened
    or its first read fails; in particular an empty file fails its first
    read with [EOF] and so ends in the terminal state Error; a file
    classified generic cannot be stat'ed or read to its end; a file
    classified as a signed bundle does not verify. *)
Theorem part005_failures_before_the_upload_are_recorded
    (env : Env) (path : string) (project : option Database.ProjectQueryResult)
    (w : World) (text : string) (e : error) :
  db_faults w = [] →
  retryable w path →
  early_failure env path text e →
  recorded_failure env path project w text e.
Proof.
  intros Hq Hretry [e' He|file Hopen Hempty Hfault|mediaType e' Hc He
                    |mediaType e' Hc He].
  - by apply classification_failure_recorded.
  - apply classification_failure_recorded; [done..|].
    unfold classification_fails, read_once. by rewrite Hopen, Hfault, Hempty.
  - apply recorded_failure_intro; [done..|].
    intros cid w1 row1 Hq1 Hrow1. unfold Part005.process.
    destruct (classified_run env path _ _ w1 Hc) as (w2 & E & Ht & Hp).
    rewrite (bind_val _ _ _ _ _ E). simpl.
    unfold Part005.getFileMetadata, hashing_fails in *.
    rewrite !bind_run. simpl.
    destruct (os_Open env path) as [file|e''].
    + destruct (f_Stat file) as [info|e''].
      * rewrite !bind_run. simpl. rewrite He.
        eexists. split; [reflexivity|]. split; [exact Ht|].
        rewrite !posts_add_event. simpl. by rewrite !app_nil_r.
      * subst e''. eexists. split; [reflexivity|]. split; [exact Ht|].
        rewrite !posts_add_event. simpl. by rewrite !app_nil_r.
    + subst e''. eexists. split; [reflexivity|]. split; [exact Ht|].
      rewrite !posts_add_event. simpl. by rewrite !app_nil_r.
  - apply recorded_failure_intro; [done..|].
    intros cid w1 row1 Hq1 Hrow1. unfold Part005.process.
    destruct (classified_run env path _ _ w1 Hc) as (w2 & E & Ht & Hp).
    rewrite (bind_val _ _ _ _ _ E). simpl.
    unfold Part005.getProofModeFileMetadatas.
    rewrite !bind_run. simpl. rewrite He.
    eexists. split; [reflexivity|]. split; [exact Ht|].
    rewrite !posts_add_event. simpl. by rewrite !app_nil_r.
Qed.

Lemma part005_failures_before_the_upload_are_recorded_witness :
  let failure := recorded_failure damaged_env in
  failure "/data/missing.txt" None Demo.w_fresh
    "error checking file type: "
    "open /data/missing.txt: no such file or directory"
  ∧ failure "/data/empty.txt" None Demo.w_fresh
      "error checking file type: " "EOF"
  ∧ failure "/data/torn.txt" (Some Demo.project) Demo.w_fresh
      "error getting file metadata: " "input/output error"
  ∧ failure "/data/forged.zip" (Some Demo.project) Demo.w_fresh
      "error getting proofmode file metadatas: " "signature mismatch".
Proof.
  split; [|split; [|split]].
  - apply (part005_failures_before_the_upload_are_recorded damaged_env
             "/data/missing.txt" None Demo.w_fresh).
    + reflexivity.
    + vm_compute. exact I.
    + apply cannot_classify. vm_compute. reflexivity.
  - apply (part005_failures_before_the_upload_are_recorded damaged_env
             "/data/empty.txt" None Demo.w_fresh).
    + reflexivity.
    + vm_compute. exact I.
    + apply (empty_file damaged_env "/data/empty.txt"
               (Demo.file_of "empty.txt" [])); reflexivity.
  - apply (part005_failures_before_the_upload_are_recorded damaged_env
             "/data/torn.txt" (Some Demo.project) Demo.w_fresh).
    + reflexivity.
    + vm_compute. exact I.
    + apply (cannot_hash damaged_env "/data/torn.txt"
               "text/plain; charset=utf-8").
      * intros w. vm_compute. reflexivity.
      * vm_compute. reflexivity.
  - apply (part005_failures_before_the_upload_are_recorded damaged_env
             "/data/forged.zip" (Some Demo.project) Demo.w_fresh).
    + reflexivity.
    + vm_compute. exact I.
    + apply (cannot_verify damaged_env "/data/forged.zip" "application/zip").
      * intros w. vm_compute. reflexivity.
      * reflexivity.
Defined.

(** ** A row with a status of its own *)

(** A row whose status is none of the four constants blocks its path, on
    part_005 and part_003 alike and whatever the database does.  When the
    status query fails, the handler returns that error.  Otherwise it falls
    to the default branch of the status switch, where the INSERT of a Found
    row fails, with the fault it meets or else on the unique constraint of
    [file_path], and the handler returns that error.  In every case no row
    is changed and no file is opened: the run consists of the query and, at
    most, the INSERT. *)
Theorem unknown_status_blocks_the_path
    (env : Env) (path : string) (project : option Database.ProjectQueryResult)
    (w : World) (row : Row) :
  store w !! path = Some row →
  ¬ known_status (row_status row) →
  let refused :=
    Val ("", Some match db_faults w with
                  | Some e :: _ =>
                      "error checking if file exists in database: " +:+ e
                  | _ :: Some e :: _ =>
                      "error setting file status to found: " +:+ e
                  | _ =>
                      "error setting file status to found: "
                      +:+ Database.unique_violation
                  end) in
  let stopped (w' : World) :=
    store w' = store w
    ∧ trace w' = trace w ++ match db_faults w with
                            | Some _ :: _ => [EvDbQuery path]
                            | _ => [EvDbQuery path;
                                    EvDbExec path FileStatusFound]
                            end in
  fst (Part005.handleNewFile env path project w) = refused
  ∧ stopped (snd (Part005.handleNewFile env path project w))
  ∧ fst (Part003.handleNewFile env path project w) = refused
  ∧ stopped (snd (Part003.handleNewFile env path project w)).
Proof.
  intros Hrow Hst refused stopped.
  unfold known_status in Hst. rewrite !elem_of_cons, elem_of_nil in Hst.
  unfold stopped, refused.
  unfold Part005.handleNewFile, Part003.handleNewFile,
    Part005.handleNewFileWith, Part003.handleNewFileWith.
  rewrite !bind_run, !queryIfFileExists_run.
  destruct (db_faults w) as [|[e|] faults] eqn:Hq; simpl.
  - rewrite Hrow. simpl. rewrite !bool_decide_eq_false_2 by tauto.
    run_db. rewrite Hq. simpl. rewrite Hrow. simpl.
    rewrite <- !app_assoc. by repeat split.
  - by repeat split.
  - rewrite Hrow. simpl. rewrite !bool_decide_eq_false_2 by tauto.
    run_db. rewrite Hq. simpl.
    destruct faults as [|[e|] faults]; simpl; rewrite ?Hrow; simpl;
      rewrite <- !app_assoc; by repeat split.
Qed.

Lemma unknown_status_blocks_the_path_witness :
  let blocked (faults : list (option error)) (msg : string) :=
    let w :=
      set_db_faults faults
        (Demo.world {[ "/data/note.txt" := Demo.row "Queued" None None ]}) in
    let stopped (w' : World) :=
      store w' = store w
      ∧ trace w' = trace w ++ match db_faults w with
                              | Some _ :: _ => [EvDbQuery "/data/note.txt"]
                              | _ => [EvDbQuery "/data/note.txt";
                                      EvDbExec "/data/note.txt"
                                        FileStatusFound]
                              end in
    fst (Part005.handleNewFile Demo.env "/data/note.txt" None w)
    = Val ("", Some msg)
    ∧ stopped (snd (Part005.handleNewFile Demo.env "/data/note.txt" None w))
    ∧ fst (Part003.handleNewFile Demo.env "/data/note.txt" None w)
      = Val ("", Some msg)
    ∧ stopped (snd (Part003.handleNewFile Demo.env "/data/note.txt" None w)) in
  blocked []
    ("error setting file status to found: " +:+ Database.unique_violation)
  ∧ blocked [Some "connection refused"]
      "error checking if file exists in database: connection refused"
  ∧ blocked [None; Some "connection lost"]
      "error setting file status to found: connection lost".
Proof.
  assert (Hunknown : ¬ known_status "Queued").
  { unfold known_status. rewrite !elem_of_cons, elem_of_nil.
    intros [H|[H|[H|[H|[]]]]]; discriminate H. }
  split; [|split].
  - apply (unknown_status_blocks_the_path Demo.env "/data/note.txt" None
             (set_db_faults []
                (Demo.world
                   {[ "/data/note.txt" := Demo.row "Queued" None None ]}))
             (Demo.row "Queued" None None)); [reflexivity|exact Hunknown].
  - apply (unknown_status_blocks_the_path Demo.env "/data/note.txt" None
             (set_db_faults [Some "connection refused"]
                (Demo.world
                   {[ "/data/note.txt" := Demo.row "Queued" None None ]}))
             (Demo.row "Queued" None None)); [reflexivity|exact Hunknown].
  - apply (unknown_status_blocks_the_path Demo.env "/data/note.txt" None
             (set_db_faults [None; Some "connection lost"]
                (Demo.world
                   {[ "/data/note.txt" := Demo.row "Queued" None None ]}))
             (Demo.row "Queued" None None)); [reflexivity|exact Hunknown].
Defined.

(** ** A project row with nil columns *)

Lemma archive_is_generic :
  generic_file Demo.env "/data/site.wacz"
    (Demo.file_of "site.wacz" Demo.zip_magic)
    {| fi_Name := "site.wacz"; fi_Size := 4; fi_ModTime := 0 |}.
Proof. split; vm_compute; congruence. Qed.

(** On part_005 the project's identifier and path are dereferenced without
    a check.  When no database statement fails and the path is new or in
    state Found or Uploading, with a project whose identifier or path is
    nil, as the zero value of the record has them, the handler panics with
    a nil dereference on every readable generic file, a zip container that
    is no signed bundle included: nothing is posted and the row stays in
    state Found or Uploading. *)
Theorem part005_nil_project_column_panics
    (env : Env) (path : string) (project : Database.ProjectQueryResult)
    (w : World) (file : File) (info : FileInfo) :
  db_faults w = [] →
  retryable w path →
  generic_file env path file info →
  Database.ProjectId project = None ∨ Database.ProjectPath project = None →
  let out := Part005.handleNewFile env path (Some project) w in
  fst out = Panic nil_dereference
  ∧ posts (snd out) = posts w
  ∧ in_progress path (snd out).
Proof.
  intros Hq Hretry Hfile Hnil out. subst out.
  destruct (handleNewFileWith_retryable env (Webhook.PostFileToWebHook env)
              path (Some project) w Hq Hretry)
    as (w1 & row1 & E & Hq1 & Hrow1 & Hst1 & Hcid1 & Hp1).
  unfold Part005.handleNewFile. rewrite E. unfold Part005.process.
  destruct (checkFileType_generic_run env path file info w1 Hfile)
    as (w2 & E1 & [= Hs2 Hq2] & Hp2).
  rewrite (bind_val _ _ _ _ _ E1). simpl.
  match goal with
  | |- context [mbind _ (Part005.getFileMetadata env path ?mt) ?w2] =>
      destruct (getFileMetadata_generic_run env path mt file info w2 Hfile)
        as (m & E2 & _)
  end.
  rewrite (bind_val _ _ _ _ _ E2). unfold Part005.upload.
  match goal with
  | |- context [mbind _ (forM _ _) ?w3] =>
      assert (E3 : forM [m] (Common.annotate project) w3
                   = (Panic nil_dereference, w3))
  end.
  { simpl. unfold Common.annotate.
    destruct (Database.ProjectId project) as [project_id|] eqn:Hid.
    - destruct Hnil as [?|Hpath]; [discriminate|]. rewrite Hpath.
      reflexivity.
    - reflexivity. }
  rewrite (bind_panic _ _ _ _ _ E3). simpl.
  split; [reflexivity|]. split.
  - rewrite !posts_add_event. simpl. rewrite !app_nil_r. by rewrite Hp2.
  - split; [simpl; by rewrite Hq2|]. exists row1. simpl. by rewrite Hs2.
Qed.

Lemma part005_nil_project_column_panics_witness :
  let project :=
    {| Database.ProjectId := None; Database.ProjectPath := None;
       Database.AuthorType := None; Database.AuthorName := None;
       Database.AuthorIdentifier := None |} in
  let panics (path : string) :=
    let out :=
      Part005.handleNewFile Demo.env path (Some project) Demo.w_fresh in
    fst out = Panic nil_dereference
    ∧ posts (snd out) = posts Demo.w_fresh
    ∧ in_progress path (snd out) in
  panics "/data/note.txt" ∧ panics "/data/site.wacz".
Proof.
  split.
  - apply (part005_nil_project_column_panics Demo.env "/data/note.txt"
             {| Database.ProjectId := None; Database.ProjectPath := None;
                Database.AuthorType := None; Database.AuthorName := None;
                Database.AuthorIdentifier := None |}
             Demo.w_fresh (Demo.file_of "note.txt" Demo.note_bytes)
             {| fi_Name := "note.txt"; fi_Size := 10; fi_ModTime := 0 |}).
    + reflexivity.
    + vm_compute. exact I.
    + apply note_is_generic.
    + left. reflexivity.
  - apply (part005_nil_project_column_panics Demo.env "/data/site.wacz"
             {| Database.ProjectId := None; Database.ProjectPath := None;
                Database.AuthorType := None; Database.AuthorName := None;
                Database.AuthorIdentifier := None |}
             Demo.w_fresh (Demo.file_of "site.wacz" Demo.zip_magic)
             {| fi_Name := "site.wacz"; fi_Size := 4; fi_ModTime := 0 |}).
    + reflexivity.
    + vm_compute. exact I.
    + apply archive_is_generic.
    + left. reflexivity.
Defined.

(** ** Properties of the table that every run keeps *)

#[local] Hint Resolve inert_PostFileToWebHook inert_annotate
  inert_checkFileType inert_getFileMetadata inert_getProofModeFileMetadatas
  : preserves.

Section statement_invariants.
Context (J : gmap string Row → Prop) (HJ : statement_invariant J).

Lemma keeps_ret {A} (a : A) : keeps J (mret a).
Proof. apply hoare_ret. auto. Qed.

Lemma keeps_panic {A} msg : keeps J (panic msg : M A).
Proof. apply hoare_panic. auto. Qed.

Lemma keeps_bind {A B} (m : M A) (k : A → M B) :
  keeps J m → (∀ a, keeps J (k a)) → keeps J (m ≫= k).
Proof. intros Hm Hk. eapply hoare_bind; [exact Hm|exact Hk]. Qed.

Lemma keeps_inert {A} (m : M A) : preserves table m → keeps J m.
Proof.
  intros Hm. apply (hoare_preserved (λ w, J (store w))); [exact Hm|].
  intros w w' [= -> _]. done.
Qed.

Lemma keeps_setFileStatusFound path : keeps J (Database.setFileStatusFound path).
Proof using HJ.
  intros w Hw. run_db. destruct (default None (head (db_faults w))); [done|].
  simpl. destruct (store w !! path) eqn:Hrow; simpl; [done|].
  by apply (si_found J HJ).
Qed.

Lemma keeps_setFileStatusUploading path sha256 :
  keeps J (Database.setFileStatusUploading path sha256).
Proof using HJ.
  intros w Hw. run_db. destruct (default None (head (db_faults w))); [done|].
  simpl. by apply (si_uploading J HJ).
Qed.

Lemma keeps_setFileStatusDone path cid :
  keeps J (Database.setFileStatusDone path cid).
Proof using HJ.
  intros w Hw. run_db. destruct (default None (head (db_faults w))); [done|].
  simpl. by apply (si_done J HJ).
Qed.

Lemma keeps_setFileStatusError path msg :
  keeps J (Database.setFileStatusError path msg).
Proof using HJ.
  intros w Hw. run_db. destruct (default None (head (db_faults w))); [done|].
  simpl. by apply (si_error J HJ).
Qed.

Lemma keeps_queryIfFileExists path : keeps J (Database.queryIfFileExists path).
Proof.
  intros w Hw. run_db. destruct (default None (head (db_faults w))); [done|].
  simpl. by destruct (store w !! path).
Qed.

Ltac keeps_step :=
  lazymatch goal with
  | |- keeps _ (mret _) => apply keeps_ret
  | |- keeps _ (panic _) => apply keeps_panic
  | |- keeps _ (_ ≫= _) => apply keeps_bind; [|intros ?]
  | |- keeps _ (match ?x with _ => _ end) => destruct x
  | |- keeps _ (Database.queryIfFileExists _) =>
      apply keeps_queryIfFileExists
  | |- keeps _ (Database.setFileStatusFound _) =>
      apply keeps_setFileStatusFound
  | |- keeps _ (Database.setFileStatusUploading _ _) =>
      apply keeps_setFileStatusUploading
  | |- keeps _ (Database.setFileStatusDone _ _) =>
      apply keeps_setFileStatusDone
  | |- keeps _ (Database.setFileStatusError _ _) =>
      apply keeps_setFileStatusError
  | |- keeps _ (forM _ (Common.annotate _)) =>
      apply keeps_inert, preserves_forM; intros; apply inert_annotate
  | |- keeps _ _ => apply keeps_inert; solve [eauto with preserves]
  end.

Lemma keeps_uploadAssets env path fileMap metadatas cid :
  keeps J (Part005.uploadAssets (Webhook.PostFileToWebHook env) path fileMap
             metadatas cid).
Proof using HJ.
  revert cid. induction metadatas as [|m metadatas IH]; intros cid; simpl.
  - apply keeps_ret.
  - apply keeps_bind; [apply keeps_inert, preserves_lift|intros fileName].
    destruct (fileMap !! fileName) as [zipFile|]; [|repeat keeps_step].
    destruct (zf_Open zipFile) as [file|e]; [|repeat keeps_step].
    apply keeps_bind;
      [apply keeps_inert, inert_PostFileToWebHook|intros [resp|e]].
    + apply IH.
    + repeat keeps_step.
Qed.

Lemma keeps_process env path project cid :
  keeps J (Part005.process env (Webhook.PostFileToWebHook env) path project
             cid).
Proof using HJ.
  unfold Part005.process, Part005.upload, Part005.uploadByType,
    Part005.finish.
  repeat lazymatch goal with
         | |- keeps _ (Part005.uploadAssets _ _ _ _ _) =>
             apply keeps_uploadAssets
         | |- keeps _ (if bool_decide _ then _ else _) => case_bool_decide
         | |- _ => keeps_step
         end.
Qed.

Lemma keeps_handleNewFile env path project :
  keeps J (Part005.handleNewFile env path project).
Proof using HJ.
  unfold Part005.handleNewFile, Part005.handleNewFileWith. cbv zeta.
  repeat lazymatch goal with
         | |- keeps _ (Part005.process _ _ _ _ _) => apply keeps_process
         | |- keeps _ (if bool_decide _ then _ else _) => case_bool_decide
         | |- _ => keeps_step
         end.
Qed.

Lemma keeps_run invocations w : J (store w) → J (store (run invocations w)).
Proof using HJ.
  revert w. induction invocations as [|i rest IH]; intros w Hw; [exact Hw|].
  simpl.
  pose proof (keeps_handleNewFile (inv_env i) (inv_path i) (inv_project i)
                w Hw) as Hkeep.
  destruct (Part005.handleNewFile _ _ _ w) as [[r|msg] w']; [by apply IH|done].
Qed.

End statement_invariants.

Lemma consistent_is_kept :
  statement_invariant (map_Forall (λ _, consistent)).
Proof.
  assert (Hknown : ∀ s, s ∈ [FileStatusFound; FileStatusUploading;
                              FileStatusSuccess; FileStatusError] →
                        known_status s) by done.
  split.
  - intros rows path c u _ Hrows. apply map_Forall_insert_2; [|exact Hrows].
    split; [apply Hknown; rewrite !elem_of_cons; auto|]. repeat split; discriminate.
  - intros rows path sha256 u Hrows p r.
    destruct (decide (path = p)) as [->|Hne].
    + rewrite lookup_alter_eq. destruct (rows !! p) eqn:E; [|discriminate].
      intros [= <-]. split; [apply Hknown; rewrite !elem_of_cons; auto|].
      repeat split; simpl; try discriminate. by eexists.
    + rewrite lookup_alter_ne by done. apply Hrows.
  - intros rows path cid u Hrows p r.
    destruct (decide (path = p)) as [->|Hne].
    + rewrite lookup_alter_eq. destruct (rows !! p) eqn:E; [|discriminate].
      intros [= <-]. split; [apply Hknown; rewrite !elem_of_cons; auto|].
      repeat split; simpl; try discriminate. by eexists.
    + rewrite lookup_alter_ne by done. apply Hrows.
  - intros rows path msg u Hrows p r.
    destruct (decide (path = p)) as [->|Hne].
    + rewrite lookup_alter_eq. destruct (rows !! p) eqn:E; [|discriminate].
      intros [= <-]. split; [apply Hknown; rewrite !elem_of_cons; auto|].
      repeat split; simpl; try discriminate. by eexists.
    + rewrite lookup_alter_ne by done. apply Hrows.
Qed.

(** Whatever the handler of part_005 is run on, and whatever the
    environments, the database faults and the panics on the way, the table
    stays consistent: every row has one of the four statuses, a row in state
    Success has an identifier, a row in state Error has a message and a row
    in state Uploading has a digest. *)
Theorem rows_stay_consistent (invocations : list Invocation) (w : World) :
  map_Forall (λ _, consistent) (store w) →
  map_Forall (λ _, consistent) (store (run invocations w)).
Proof. apply keeps_run, consistent_is_kept. Qed.

Lemma rows_stay_consistent_witness :
  map_Forall (λ _, consistent)
    (store
       (run [ {| inv_env := Demo.env; inv_path := "/data/video.mp4";
                 inv_project := None |};
              {| inv_env := Demo.env; inv_path := "/data/bundle.zip";
                 inv_project := Some Demo.project |} ]
          Demo.w_success)).
Proof.
  apply (rows_stay_consistent _ Demo.w_success).
  apply map_Forall_singleton. unfold consistent, known_status. simpl.
  rewrite !elem_of_cons. repeat split; (by eauto) || discriminate.
Defined.

Lemma row_is_kept path c :
  statement_invariant
    (λ rows, ∃ row, rows !! path = Some row ∧ row_created_at row = c).
Proof.
  split.
  - intros rows p c' u Hfresh (row & Hrow & Hc). exists row.
    rewrite lookup_insert_ne by congruence. done.
  - intros rows p sha256 u (row & Hrow & Hc).
    destruct (decide (p = path)) as [->|Hne].
    + eexists. rewrite lookup_alter_eq, Hrow. split; [reflexivity|exact Hc].
    + exists row. by rewrite lookup_alter_ne.
  - intros rows p cid u (row & Hrow & Hc).
    destruct (decide (p = path)) as [->|Hne].
    + eexists. rewrite lookup_alter_eq, Hrow. split; [reflexivity|exact Hc].
    + exists row. by rewrite lookup_alter_ne.
  - intros rows p msg u (row & Hrow & Hc).
    destruct (decide (p = path)) as [->|Hne].
    + eexists. rewrite lookup_alter_eq, Hrow. split; [reflexivity|exact Hc].
    + exists row. by rewrite lookup_alter_ne.
Qed.

(** No run of the handler of part_005 deletes a row or changes the time at
    which it was created. *)
Theorem rows_are_never_deleted
    (invocations : list Invocation) (w : World) (path : string) (row : Row) :
  store w !! path = Some row →
  ∃ row', store (run invocations w) !! path = Some row'
          ∧ row_created_at row' = row_created_at row.
Proof.
  intros Hrow.
  apply (keeps_run _ (row_is_kept path (row_created_at row))). by exists row.
Qed.

Lemma rows_are_never_deleted_witness :
  ∃ row',
    store
      (run [ {| inv_env := Demo.env_server_error; inv_path := "/data/note.txt";
                inv_project := None |} ]
         Demo.w_error) !! "/data/note.txt" = Some row'
    ∧ row_created_at row' = 1.
Proof.
  apply (rows_are_never_deleted _ Demo.w_error "/data/note.txt"
           (Demo.row FileStatusError None (Some "EOF"))).
  reflexivity.
Defined.

(** ** The shape of an extension *)

Lemma ext_scan_spec (l passed : list ascii) :
  forallb plain passed = true →
  (∃ stem, rev l ++ passed = stem ++ ext_scan l passed)
  ∧ (ext_scan l passed = []
     ∨ ∃ tail, ext_scan l passed = "."%char :: tail
               ∧ forallb plain tail = true).
Proof.
  revert passed. induction l as [|c l IH]; intros passed Hpassed; simpl.
  - split; [exists passed; by rewrite app_nil_r|by left].
  - destruct (Ascii.eqb c "/") eqn:Hslash.
    + split; [eexists; by rewrite app_nil_r|by left].
    + destruct (Ascii.eqb c ".") eqn:Hdot.
      * apply Ascii.eqb_eq in Hdot as ->. split.
        -- exists (rev l). by rewrite <- app_assoc.
        -- right. by exists passed.
      * destruct (IH (c :: passed)) as [[stem Hstem] Hshape].
        { simpl. unfold plain at 1. by rewrite Hslash, Hdot. }
        split; [|exact Hshape].
        exists stem. by rewrite <- app_assoc.
Qed.

Lemma string_of_list_ascii_app (a b : list ascii) :
  String.string_of_list_ascii (a ++ b)
  = String.string_of_list_ascii a +:+ String.string_of_list_ascii b.
Proof.
  induction a as [|c a IH]; [reflexivity|].
  change (String c (String.string_of_list_ascii (a ++ b))
          = String c (String.string_of_list_ascii a
                      +:+ String.string_of_list_ascii b)).
  by rewrite IH.
Qed.

Lemma filepath_Ext_spec (path : string) :
  (∃ stem, path = stem +:+ filepath_Ext path)
  ∧ extension_shaped (filepath_Ext path) = true.
Proof.
  unfold filepath_Ext.
  destruct (ext_scan_spec (rev (String.list_ascii_of_string path)) [] eq_refl)
    as [[stem Hstem] Hshape].
  rewrite rev_involutive, app_nil_r in Hstem. split.
  - exists (String.string_of_list_ascii stem).
    rewrite <- string_of_list_ascii_app, <- Hstem.
    by rewrite String.string_of_list_ascii_of_string.
  - destruct Hshape as [->|(tail & -> & Htail)]; [reflexivity|].
    simpl. by rewrite String.list_ascii_of_string_of_list_ascii.
Qed.

(** The allow-lists are matched against what [filepath.Ext] returns, which
    is the end of the name from its last dot on, or nothing.  A file that
    [checkShouldIncludeFile] accepts has a name that ends with an entry of
    the configured list, and that entry is empty or a dot followed by bytes
    other than the dot and the separator; the same holds for a path that
    passes the gate of part_004 on a non-empty list.  So an entry of another
    shape, such as [jpg] or [.tar.gz], admits no file at all. *)
Theorem allow_list_matches_the_final_extension
    (env : Env) (info : FileInfo) (project : Part004.ProjectQueryResult)
    (path : string) :
  (FileGo.checkShouldIncludeFile env info = Val true →
   ∃ stem e,
     fi_Name info = stem +:+ e
     ∧ e ∈ cfg_FileExtensions env
     ∧ extension_shaped e = true
     ∧ e ≠ ".partial")
  ∧ (Part004.FileExtensions project ≠ [] →
     extension_allowed project path →
     ∃ stem e,
       path = stem +:+ e
       ∧ e ∈ Part004.FileExtensions project
       ∧ extension_shaped e = true)
  ∧ (∀ entry,
       extension_shaped entry = false →
       cfg_FileExtensions env = [entry] →
       FileGo.checkShouldIncludeFile env info ≠ Val true).
Proof.
  assert (H1 : FileGo.checkShouldIncludeFile env info = Val true →
    filepath_Ext (fi_Name info) ∈ cfg_FileExtensions env
    ∧ filepath_Ext (fi_Name info) ≠ ".partial").
  { unfold FileGo.checkShouldIncludeFile, slices_Contains.
    destruct (first_byte (fi_Name info)) as [c|]; [|discriminate].
    destruct (Ascii.eqb c "."); [discriminate|].
    repeat case_bool_decide; try discriminate. done. }
  split; [|split].
  - intros Hyes. destruct (H1 Hyes) as [Hin Hne].
    destruct (filepath_Ext_spec (fi_Name info)) as [[stem Hstem] Hshape].
    by exists stem, (filepath_Ext (fi_Name info)).
  - intros Hlist [Hempty|Hin]; [contradiction|].
    destruct (filepath_Ext_spec path) as [[stem Hstem] Hshape].
    by exists stem, (filepath_Ext path).
  - intros entry Hentry Hlist Hyes. destruct (H1 Hyes) as [Hin _].
    rewrite Hlist in Hin. apply list_elem_of_singleton in Hin.
    destruct (filepath_Ext_spec (fi_Name info)) as [_ Hshape].
    congruence.
Qed.

(** ** The handler of part_004 *)

Ltac run_db004 :=
  unfold Part004.queryAndSetFoundFileStatus, Part004.setFileStatusUploading,
    Part004.setFileStatusDone, Part004.setFileStatusError;
  run_db.

Lemma handleNewFile004_retryable env path project w :
  db_faults w = [] →
  extension_allowed project path →
  retryable w path →
  ∃ w1 row1,
    Part004.handleNewFile env path (Some project) w
    = Part004.process env path (Some project)
        (default "" (stored_cid w path)) w1
    ∧ db_faults w1 = []
    ∧ store w1 !! path = Some row1
    ∧ (row_status row1 = FileStatusFound
       ∨ row_status row1 = FileStatusUploading)
    ∧ row_cid row1 = stored_cid w path
    ∧ posts w1 = posts w.
Proof.
  intros Hq Hallowed Hretry. rewrite gate_004.
  rewrite (bool_decide_eq_true_2 _ Hallowed).
  assert (Hok : next_statement_ok w)
    by (unfold next_statement_ok; by rewrite Hq).
  unfold retryable, stored_cid in *.
  destruct (store w !! path) as [row|] eqn:Hrow; simpl.
  - rewrite bind_run, (queryAndSetFoundFileStatus_present _ _ _ Hrow Hok).
    simpl. exists (after_query path w), row.
    assert (Hp1 : posts (after_query path w) = posts w).
    { unfold after_query. rewrite posts_add_event. apply app_nil_r. }
    assert (Hq1 : db_faults (after_query path w) = [])
      by (simpl; by rewrite Hq).
    split; [|by repeat split].
    destruct Hretry as [Hst|Hst]; rewrite Hst; reflexivity.
  - rewrite bind_run. run_db004. rewrite Hq. simpl. rewrite Hrow. simpl.
    eexists _, _. split; [reflexivity|]. simpl.
    rewrite lookup_insert_eq. repeat split; try reflexivity; [by left|].
    unfold posts. simpl. rewrite !omap_app. simpl. by rewrite !app_nil_r.
Qed.

Lemma classified004_run env path fileType mediaType w :
  classified004 env path fileType mediaType →
  ∃ w',
    Part004.checkFileType env path w = (Val (Ok (fileType, mediaType)), w')
    ∧ table w' = table w ∧ posts w' = posts w.
Proof.
  intros Hc. specialize (Hc w).
  assert (Ht : preserves table (Part004.checkFileType env path))
    by (unfold Part004.checkFileType; cbv zeta; preserves_all).
  assert (Hp : preserves posts (Part004.checkFileType env path))
    by (unfold Part004.checkFileType; cbv zeta; preserves_all).
  specialize (Ht w). specialize (Hp w).
  destruct (Part004.checkFileType env path w) as [r w']. simpl in *.
  subst r. by exists w'.
Qed.

Lemma upload004_without_posts env path project cid metadatas w row fileType :
  db_faults w = [] →
  store w !! path = Some row →
  fileType = "wacz" ∨ (fileType = "proofmode" ∧ metadatas = []
                       ∧ ∃ listing fileMap,
                           zip_OpenReader env path = Ok listing
                           ∧ util_GetProofModeZipFiles env listing = Ok fileMap) →
  ∃ w' row',
    Part004.upload env path project fileType cid metadatas w
    = (Val (cid, None), w')
    ∧ store w' !! path = Some row'
    ∧ row_status row' = FileStatusSuccess
    ∧ row_cid row' = Some cid
    ∧ posts w' = posts w.
Proof.
  intros Hq Hrow Htype. unfold Part004.upload.
  rewrite bind_run. run_db004. rewrite Hq. simpl.
  unfold Part004.uploadByType, Part004.finish.
  destruct Htype as [->|(-> & -> & listing & fileMap & Hzip & Hmap)].
  - simpl. rewrite bind_run. run_db004.
    eexists _, _. split; [reflexivity|]. simpl.
    rewrite !lookup_alter_eq, Hrow. simpl.
    repeat split. unfold posts. simpl. rewrite !omap_app. simpl.
    by rewrite !app_nil_r.
  - simpl. rewrite bind_run. simpl. rewrite Hzip, Hmap.
    destruct project; simpl; rewrite bind_run; run_db004;
      (eexists _, _; split; [reflexivity|]; simpl;
       rewrite !lookup_alter_eq, Hrow; simpl;
       repeat split; unfold posts; simpl; rewrite !omap_app; simpl;
       by rewrite !app_nil_r).
Qed.

(** On part_004 the second switch on the file type has an empty case for
    web archives, and the loop over the assets of a signed bundle posts
    nothing when there is no asset.  When no database statement fails, for
    a path that passes the project's extension gate and is new or in state
    Found or Uploading: a web archive that opens, answers [Stat] and whose
    metadata is read and verified, and likewise a signed bundle that
    verifies with no asset and whose zip opens and yields its file map,
    ends in state Success with the identifier the row already had, the
    empty one for a new path, and without any request to the server. *)
Theorem part004_success_without_an_upload
    (env : Env) (path : string) (project : Part004.ProjectQueryResult)
    (w : World) :
  db_faults w = [] →
  extension_allowed project path →
  retryable w path →
  nothing_to_upload004 env path →
  success_without_upload env path project w.
Proof.
  intros Hq Hallowed Hretry Hnothing.
  destruct (handleNewFile004_retryable env path project w Hq Hallowed Hretry)
    as (w1 & row1 & E & Hq1 & Hrow1 & _ & Hcid1 & Hp1).
  destruct Hnothing as [mediaType file info archive Hc Hopen Hstat Harchive
                       |mediaType listing fileMap Hc Hverify Hzip Hmap].
  - destruct (classified004_run env path _ _ w1 Hc) as (w2 & E2 & [= Hs2 Hq2] & Hp2).
    unfold success_without_upload. rewrite E. unfold Part004.process.
    rewrite (bind_val _ _ _ _ _ E2). simpl.
    unfold Part004.getFileMetadata, Part004.getWaczFileMetadata.
    rewrite !bind_run. simpl. rewrite Hopen, Hstat. simpl.
    rewrite !bind_run. simpl. rewrite Harchive.
    rewrite ret_run. cbv beta iota.
    match goal with
    | |- context [Part004.upload env path ?p ?ft ?c ?mds ?w3] =>
        destruct (upload004_without_posts env path p c mds w3 row1 ft)
          as (w' & row' & E3 & Hrow' & Hst' & Hcid' & Hp')
    end.
    { simpl. congruence. } { simpl. congruence. } { by left. }
    exists w', row'. rewrite E3. repeat split; try done.
    rewrite Hp'. rewrite !posts_add_event. simpl. rewrite !app_nil_r.
    congruence.
  - destruct (classified004_run env path _ _ w1 Hc) as (w2 & E2 & [= Hs2 Hq2] & Hp2).
    unfold success_without_upload. rewrite E. unfold Part004.process.
    rewrite (bind_val _ _ _ _ _ E2). simpl.
    unfold Part004.getProofModeFileMetadatas.
    rewrite !bind_run. simpl. rewrite Hverify. simpl.
    rewrite ?ret_run. cbv beta iota.
    match goal with
    | |- context [Part004.upload env path ?p ?ft ?c ?mds ?w3] =>
        destruct (upload004_without_posts env path p c mds w3 row1 ft)
          as (w' & row' & E3 & Hrow' & Hst' & Hcid' & Hp')
    end.
    { simpl. congruence. } { simpl. congruence. }
    { right. repeat split. by exists listing, fileMap. }
    exists w', row'. rewrite E3. repeat split; try done.
    rewrite Hp'. rewrite !posts_add_event. simpl. rewrite !app_nil_r.
    congruence.
Qed.

(** The head of the handler of part_004 reads the project's allow-list
    before anything else.  With no project it panics on the nil pointer;
    with a project whose non-empty list lacks the path's extension it
    returns the empty identifier and no error, whatever the table holds for
    the path, and touches nothing. *)
Theorem part004_gate (env : Env) (path : string) (w : World) :
  Part004.handleNewFile env path None w = (Panic nil_dereference, w)
  ∧ (∀ project,
       ¬ extension_allowed project path →
       Part004.handleNewFile env path (Some project) w = (Val ("", None), w)).
Proof.
  split; [reflexivity|]. intros project Hclosed. rewrite gate_004.
  by rewrite (bool_decide_eq_false_2 _ Hclosed).
Qed.

Lemma setFileStatusUploading004_quiet path w row :
  db_faults w = [] →
  store w !! path = Some row →
  ∃ w' row',
    Part004.setFileStatusUploading path w = (Val None, w')
    ∧ db_faults w' = []
    ∧ store w' !! path = Some row'
    ∧ row_status row' = FileStatusUploading
    ∧ row_cid row' = row_cid row
    ∧ posts w' = posts w.
Proof.
  intros Hq Hrow. run_db004. rewrite Hq. simpl.
  eexists _, _. split; [reflexivity|]. simpl.
  rewrite lookup_alter_eq, Hrow. simpl. repeat split.
  unfold posts. simpl. rewrite !omap_app. simpl. by rewrite !app_nil_r.
Qed.

Lemma annotate004_file_name env project (m : Metadata) :
  Part004.annotate env project m !! "file_name" = m !! "file_name".
Proof.
  unfold Part004.annotate. case_bool_decide; by rewrite !lookup_insert_ne.
Qed.

Lemma assetMetadata004_file_name env path asset :
  Part004.assetMetadata env path asset !! "file_name"
  = Some (AString (filepath_Base env (pm_FilePath asset))).
Proof. reflexivity. Qed.

(** On part_004 the branch for an asset that is missing from the zip calls
    [Error()] on an error value that is nil there.  When no database
    statement fails, for a path that passes the project's extension gate
    and is new or in state Found or Uploading, and a file classified as a
    signed bundle that verifies with at least one asset and whose zip opens
    and yields its file map: if the first verified asset has no entry in
    that map, the handler panics with a nil dereference, the row is left in
    state Uploading, not Error, and nothing is posted. *)
Theorem part004_missing_asset_panics
    (env : Env) (path : string) (project : Part004.ProjectQueryResult)
    (w : World) (mediaType : string) (asset : ProofModeAsset)
    (assets : list ProofModeAsset) (listing : list (string * ZipFile))
    (fileMap : gmap string ZipFile) :
  db_faults w = [] →
  extension_allowed project path →
  retryable w path →
  classified004 env path "proofmode" mediaType →
  util_ReadAndVerifyProofModeMetadata env path = Ok (asset :: assets) →
  zip_OpenReader env path = Ok listing →
  util_GetProofModeZipFiles env listing = Ok fileMap →
  fileMap !! filepath_Base env (pm_FilePath asset) = None →
  let out := Part004.handleNewFile env path (Some project) w in
  fst out = Panic nil_dereference
  ∧ (∃ row', store (snd out) !! path = Some row'
             ∧ row_status row' = FileStatusUploading)
  ∧ posts (snd out) = posts w.
Proof.
  intros Hq Hallowed Hretry Hc Hverify Hzip Hmap Hmissing out. subst out.
  destruct (handleNewFile004_retryable env path project w Hq Hallowed Hretry)
    as (w1 & row1 & E & Hq1 & Hrow1 & _ & Hcid1 & Hp1).
  destruct (classified004_run env path _ _ w1 Hc)
    as (w2 & E2 & [= Hs2 Hq2] & Hp2).
  rewrite E. unfold Part004.process.
  rewrite (bind_val _ _ _ _ _ E2). simpl.
  unfold Part004.getProofModeFileMetadatas.
  rewrite !bind_run. simpl. rewrite Hverify. rewrite ret_run. cbv beta iota.
  unfold Part004.upload.
  match goal with
  | |- context [mbind _ (Part004.setFileStatusUploading path) ?w3] =>
      destruct (setFileStatusUploading004_quiet path w3 row1)
        as (w4 & row4 & E4 & Hq4 & Hrow4 & Hst4 & _ & Hp4)
  end.
  { simpl. congruence. } { simpl. congruence. }
  rewrite (bind_val _ _ _ _ _ E4). cbv beta iota zeta.
  unfold Part004.uploadByType. simpl.
  rewrite bind_run. simpl. rewrite Hzip, Hmap.
  rewrite !bind_run. unfold lift.
  rewrite annotate004_file_name, assetMetadata004_file_name. simpl.
  rewrite Hmissing. simpl.
  split; [reflexivity|]. split; [by exists row4|].
  rewrite !posts_add_event. simpl. rewrite !app_nil_r, Hp4.
  rewrite !posts_add_event. simpl. rewrite !app_nil_r. congruence.
Qed.

Lemma annotate004_keys env project (m : Metadata) :
  Part004.annotate env project m !! "project_id"
  = Some (AString (Part004.ProjectId project))
  ∧ Part004.annotate env project m !! "project_path"
    = Some (AString (filepath_Clean env (Part004.ProjectPath project)))
  ∧ ∀ k, k ≠ "project_id" → k ≠ "project_path" → k ≠ "author" →
         Part004.annotate env project m !! k = m !! k.
Proof.
  unfold Part004.annotate.
  case_bool_decide; (split; [|split]);
    rewrite ?lookup_insert_ne by done; rewrite ?lookup_insert_eq;
    try reflexivity; intros k ? ? ?; by rewrite ?lookup_insert_ne.
Qed.

Lemma silent_fail004 path e (msg : string) :
  preserves posts (Part004.fail path e msg).
Proof.
  unfold Part004.fail, Part004.setFileStatusError.
  apply preserves_bind; [apply silent_setFileStatusError|intros ?].
  apply preserves_ret.
Qed.

Lemma silent_finish004 path cid : preserves posts (Part004.finish path cid).
Proof.
  unfold Part004.finish, Part004.setFileStatusDone.
  apply preserves_bind; [apply silent_setFileStatusDone|intros [e|]];
    apply preserves_ret.
Qed.

(** On part_004, when no database statement fails: for a file classified
    generic that opens, answers [Stat] and reads without fault, on a path
    that passes the project's extension gate and is new or in state Found
    or Uploading, and with an endpoint URL that parses, the handler posts
    exactly one request, whatever the server answers: the whole content,
    with a metadata record that holds the media type, the cleaned origin,
    the name and the two times, the project's identifier and cleaned path,
    and neither a digest nor a size. *)
Theorem part004_posts_generic_files_without_digests
    (env : Env) (path : string) (project : Part004.ProjectQueryResult)
    (w : World) (mediaType : string) (file : File) (info : FileInfo)
    (url : string) :
  db_faults w = [] →
  extension_allowed project path →
  retryable w path →
  classified004 env path "generic" mediaType →
  os_Open env path = Ok file →
  f_Stat file = Ok info →
  rd_fault (f_reader file) = None →
  url_Parse env (Webhook.endpoint env Webhook.no_opts) = Ok url →
  ∃ req,
    posts (snd (Part004.handleNewFile env path (Some project) w))
    = posts w ++ [req]
    ∧ req_url req = url
    ∧ req_file req = rd_bytes (f_reader file)
    ∧ described004 env path mediaType info (req_metadata req)
    ∧ req_metadata req !! "project_id"
      = Some (AString (Part004.ProjectId project))
    ∧ req_metadata req !! "project_path"
      = Some (AString (filepath_Clean env (Part004.ProjectPath project))).
Proof.
  intros Hq Hallowed Hretry Hc Hopen Hstat Hfault Hurl.
  destruct (handleNewFile004_retryable env path project w Hq Hallowed Hretry)
    as (w1 & row1 & E & Hq1 & Hrow1 & _ & Hcid1 & Hp1).
  destruct (classified004_run env path _ _ w1 Hc)
    as (w2 & E2 & [= Hs2 Hq2] & Hp2).
  rewrite E. unfold Part004.process.
  rewrite (bind_val _ _ _ _ _ E2). simpl.
  unfold Part004.getFileMetadata.
  rewrite !bind_run. simpl. rewrite Hopen, Hstat. rewrite ret_run.
  cbv beta iota zeta. unfold Part004.upload.
  match goal with
  | |- context [mbind _ (Part004.setFileStatusUploading path) ?w3] =>
      destruct (setFileStatusUploading004_quiet path w3 row1)
        as (w4 & row4 & E4 & Hq4 & Hrow4 & Hst4 & _ & Hp4)
  end.
  { simpl. congruence. } { simpl. congruence. }
  rewrite (bind_val _ _ _ _ _ E4). cbv beta iota zeta.
  unfold Part004.uploadByType. simpl.
  rewrite bind_run. simpl. rewrite Hopen. rewrite bind_run, ret_run.
  cbv beta iota.
  match goal with
  | |- context [Webhook.PostFileToWebHook env _ ?m _] => set (m' := m)
  end.
  assert (Hm' : described004 env path mediaType info m'
                ∧ m' !! "project_id"
                  = Some (AString (Part004.ProjectId project))
                ∧ m' !! "project_path"
                  = Some (AString (filepath_Clean env
                                     (Part004.ProjectPath project)))).
  { subst m'.
    match goal with
    | |- context [Part004.annotate env project ?m] =>
        destruct (annotate004_keys env project m) as (Hid & Hpath & Hk)
    end.
    split; [|by split]. unfold described004. rewrite !Hk by done.
    repeat split; reflexivity. }
  clearbody m'.
  destruct (PostFileToWebHook_posts env (f_reader file) m' Webhook.no_opts url
              (add_event (EvFileOpen path) w4) Hurl Hfault) as (r & E5).
  rewrite (bind_val _ _ _ _ _ E5).
  exists (Webhook.newRequest env url m' Webhook.no_opts
            (rd_bytes (f_reader file))).
  split; [|split; [reflexivity|split; [reflexivity|exact Hm']]].
  assert (Htail : ∀ (k : M (string * option error)) w5,
            preserves posts k → posts (snd (k w5)) = posts w5)
    by (intros k w5 Hk'; apply Hk').
  assert (Hposts : posts (add_event
                            (EvHttpPost
                               (Webhook.newRequest env url m' Webhook.no_opts
                                  (rd_bytes (f_reader file))))
                            (add_event (EvFileOpen path) w4))
                   = posts w
                     ++ [Webhook.newRequest env url m' Webhook.no_opts
                           (rd_bytes (f_reader file))]).
  { rewrite !posts_add_event. cbv beta iota. rewrite app_nil_r, Hp4.
    rewrite !posts_add_event. cbv beta iota. rewrite !app_nil_r.
    congruence. }
  destruct r as [resp|e]; rewrite Htail.
  - exact Hposts.
  - apply silent_finish004.
  - exact Hposts.
  - apply silent_fail004.
Qed.

(** ** The assets of a signed bundle *)











Lemma part004_success_without_an_upload_witness :
  success_without_upload Demo.env "/data/site.wacz" (Demo.project004 [])
    Demo.w_fresh
  ∧ success_without_upload Demo.env "/data/bundle.zip"
      (Demo.project004 [".zip"]) Demo.w_fresh.
Proof.
  split.
  - apply (part004_success_without_an_upload Demo.env "/data/site.wacz"
             (Demo.project004 []) Demo.w_fresh).
    + reflexivity.
    + left. reflexivity.
    + vm_compute. exact I.
    + apply (web_archive Demo.env "/data/site.wacz" "application/zip"
               (Demo.file_of "site.wacz" Demo.zip_magic)
               {| fi_Name := "site.wacz"; fi_Size := 4; fi_ModTime := 0 |}
               {| wz_Modified := "1970-01-01T00:00:00Z";
                  wz_Created := "1970-01-01T00:00:00Z";
                  wz_MetadataBytes := []; wz_MetadataSignature := [];
                  wz_PubKey := [] |}).
      * intros w. reflexivity.
      * reflexivity.
      * reflexivity.
      * reflexivity.
  - apply (part004_success_without_an_upload Demo.env "/data/bundle.zip"
             (Demo.project004 [".zip"]) Demo.w_fresh).
    + reflexivity.
    + right. vm_compute. apply list_elem_of_here.
    + vm_compute. exact I.
    + apply (empty_bundle Demo.env "/data/bundle.zip" "application/zip" [] ∅).
      * intros w. reflexivity.
      * reflexivity.
      * reflexivity.
      * reflexivity.
Defined.

Lemma part004_missing_asset_panics_witness :
  let out :=
    Part004.handleNewFile (bundle_env [photo] ∅) "/data/bundle.zip"
      (Some (Demo.project004 [])) Demo.w_fresh in
  fst out = Panic nil_dereference
  ∧ (∃ row', store (snd out) !! "/data/bundle.zip" = Some row'
             ∧ row_status row' = FileStatusUploading)
  ∧ posts (snd out) = posts Demo.w_fresh.
Proof.
  apply (part004_missing_asset_panics (bundle_env [photo] ∅)
           "/data/bundle.zip" (Demo.project004 []) Demo.w_fresh
           "application/zip" photo [] [] ∅).
  - reflexivity.
  - left. reflexivity.
  - vm_compute. exact I.
  - intros w. reflexivity.
  - reflexivity.
  - reflexivity.
  - reflexivity.
  - reflexivity.
Defined.

Lemma part004_posts_generic_files_without_digests_witness :
  let file := Demo.file_of "note.txt" Demo.note_bytes in
  let info := {| fi_Name := "note.txt"; fi_Size := 10; fi_ModTime := 0 |} in
  let project := Demo.project004 [".txt"] in
  ∃ req,
    posts (snd (Part004.handleNewFile Demo.env "/data/note.txt"
                  (Some project) Demo.w_fresh))
    = posts Demo.w_fresh ++ [req]
    ∧ req_url req = "http://localhost:8080/generic"
    ∧ req_file req = rd_bytes (f_reader file)
    ∧ described004 Demo.env "/data/note.txt" "text/plain; charset=utf-8" info
        (req_metadata req)
    ∧ req_metadata req !! "project_id"
      = Some (AString (Part004.ProjectId project))
    ∧ req_metadata req !! "project_path"
      = Some (AString (filepath_Clean Demo.env (Part004.ProjectPath project))).
Proof.
  apply (part004_posts_generic_files_without_digests Demo.env
           "/data/note.txt" (Demo.project004 [".txt"]) Demo.w_fresh
           "text/plain; charset=utf-8"
           (Demo.file_of "note.txt" Demo.note_bytes)
           {| fi_Name := "note.txt"; fi_Size := 10; fi_ModTime := 0 |}
           "http://localhost:8080/generic").
  - reflexivity.
  - right. vm_compute. apply list_elem_of_here.
  - vm_compute. exact I.
  - intros w. reflexivity.
  - reflexivity.
  - reflexivity.
  - reflexivity.
  - reflexivity.
Defined.


(** A bundle of one photograph: the entry of the zip is what the server
    receives, as CBOR, and its identifier is what the handler returns.
    When the zip has no entry of that name, nothing is posted and the row
    ends in state Error. *)
Example bundle_of_one_photo :
  match Part005.handleNewFile
          (bundle_env [photo] {[ "photo.jpg" := photo_entry ]})
          "/data/bundle.zip" (Some Demo.project) Demo.w_fresh with
  | (r, w') =>
      r = Val ("bafy123", None)
      ∧ (req_file <$> posts w') = [[xff; xd8; xff; xe0]]
      ∧ (req_metadata_format <$> posts w') = ["application/cbor"]
  end
  ∧ match Part005.handleNewFile (bundle_env [photo] ∅)
            "/data/bundle.zip" (Some Demo.project) Demo.w_fresh with
    | (r, w') =>
        r = Val ("", Some "file photo.jpg not found in zip")
        ∧ posts w' = []
        ∧ row_status <$> store w' !! "/data/bundle.zip"
          = Some FileStatusError
    end.
Proof. vm_compute. repeat split. Qed.
